(** * The task goroutine of pkg/sentry/kernel/task_run.go

    A shallow embedding of [Task.run], [Task.doStop] and [runApp.execute].
    The task goroutine is sequential code over a [Task]; every call it makes
    into the rest of the kernel (platform, arch context, memory manager,
    signal delivery, syscall dispatch) is a method of an interface or of a
    package that lives outside this file.  Those calls are the fields of the
    class [Collaborators]; each call that the goroutine makes is also
    appended to a trace, so that the order of the calls can be stated. *)

From Stdlib Require Import ZArith List Bool Lia.
Import ListNotations.
Local Open Scope Z_scope.

(** ** Plain data *)

(** Go's [int32(x)] conversion: wrap to 32 bits, two's complement. *)
Definition int32 (z : Z) : Z := (z + 2 ^ 31) mod 2 ^ 32 - 2 ^ 31.

(** Go's arithmetic on a [uint32]: wrap to 32 bits. *)
Definition uint32 (z : Z) : Z := z mod 2 ^ 32.

(** The run states that task_run.go names, and the ones it only receives
    from [doSyscall], [doVsyscall] or another state's [execute].  A [nil]
    taskRunState is [None]. *)
Inductive taskRunState : Type :=
| runApp
| runInterrupt
| runExit
| runOther (id : nat).

(** Modelled from the spec: a switch ends in a discriminated outcome --
    system call, signal, context-interrupted, cpu-preempted or a fatal
    error.  The packages platform and memmap, which declare the error values
    that [runApp.execute] compares [err] with, are not among the sources: the
    three sentinel errors, a bus error and any other error are kept apart
    here, and a nil error is [None]. *)
Inductive error : Type :=
| ErrContextSignal
| ErrContextInterrupt
| ErrContextCPUPreempted
| BusError (code : Z)
| OtherError (code : Z).

(** The type assertion of [err] to a memmap.BusError. *)
Definition isBusError (e : error) : bool :=
  match e with BusError _ => true | _ => false end.

(** Modelled from the spec: a task exits with a failure exit status, a
    thread group with a kill signal.  [linux.WaitStatusExit] and
    [linux.WaitStatusTerminationSignal], declared outside the sources, are
    kept as constructors. *)
Inductive WaitStatus : Type :=
| WaitStatusExit (status : Z)
| WaitStatusTerminationSignal (sig : Z).

Inductive TaskGoroutineState : Type :=
| TaskGoroutineNonexistent
| TaskGoroutineStopped
| TaskGoroutineRunningApp.

Inductive Mutex : Type :=
| taskWorkMu
| signalHandlersMu
| taskSetMu.

Inductive Region : Type := runRegion | faultRegion.

(** Modelled from the spec: the access-type bitmask of a fault
    ([hostarch.AccessType]).  The source reads the field [Execute] and calls
    [Any()], which is a field of [Collaborators] below. *)
Record AccessType : Type := mkAccessType {
  Read : bool;
  Write : bool;
  Execute : bool
}.

(** Modelled from the spec: the signal information that comes with a
    switch outcome ([linux.SignalInfo]).  The source reads and writes
    [Signo] and calls [Addr()], which is a field of [Collaborators] below. *)
Record SignalInfo : Type := mkSignalInfo {
  Signo : Z;
  Errno : Z;
  Code : Z;
  Fields : list Z
}.

Definition set_Signo (v : Z) (i : SignalInfo) : SignalInfo :=
  mkSignalInfo v (Errno i) (Code i) (Fields i).

(** No two elements of the list are equal. *)
Fixpoint distinct (l : list Z) : bool :=
  match l with
  | [] => true
  | x :: l' => negb (existsb (Z.eqb x) l') && distinct l'
  end.

(** The formatted log lines of this file. *)
Inductive LogMsg : Type :=
| UnablePullFullState (e : error)
| RestartingWithRestartBlock (sysno : Z)
| Restarting (sysno : Z)
| FailedCopyCPU (addr : Z) (e : error)
| FailedCopyCPUOld (addr : Z) (e : error)
| UnhandledUserFault (addr ip : Z) (a : AccessType) (sig : Z) (e : error)
| UnexpectedSwitchToApp (e : option error).

(** ** Outcomes of a statement *)

(** Why a goroutine does not get to its next statement: it is parked in
    [endStopCond.Wait], the model's fuel ran out while the state machine
    was still making transitions, or it called a method of a nil
    interface. *)
Inductive Halt : Type :=
| Parked
| OutOfFuel
| NilDereference.

(** Calling a method of a nil interface panics: the goroutine unwinds its
    stack and runs the deferred calls.  A goroutine that is parked, or that
    the model has stopped following, has run none of them. *)
Definition unwinds (h : Halt) : bool :=
  match h with
  | NilDereference => true
  | Parked | OutOfFuel => false
  end.

(** [R] is the result type of the enclosing Go function, [A] the value of
    the statement. *)
Inductive Res (R A : Type) : Type :=
| Next (a : A)
| Return (r : R)
| Halted (h : Halt).
Arguments Next {R A} a.
Arguments Return {R A} r.
Arguments Halted {R A} h.

Section TaskRun.

(** [World] is everything of the kernel that task_run.go reaches only
    through calls; [TaskWorker] is the interface of queued task work. *)
Context {World TaskWorker : Type}.

(** ** The task *)

(** The fields of [Task] (and of its thread group's task set) that
    task_run.go reads or writes itself. *)
Record Task : Type := mkTask {
  goid : Z;
  runState : option taskRunState;
  stopCount : Z;
  taskWorkCount : Z;
  taskWork : list TaskWorker;
  haveSyscallReturn : bool;
  haveSavedSignalMask : bool;
  savedSignalMask : Z;
  rseqPreempted : bool;
  rseqAddr : Z;
  oldRSeqCPUAddr : Z;
  rseqCPU : Z;
  ptraceSinglestep : bool;
  liveTasks : Z;
  world : World
}.

Definition set_goid (v : Z) (t : Task) : Task :=
  mkTask v (runState t) (stopCount t) (taskWorkCount t) (taskWork t)
    (haveSyscallReturn t) (haveSavedSignalMask t) (savedSignalMask t)
    (rseqPreempted t) (rseqAddr t) (oldRSeqCPUAddr t) (rseqCPU t)
    (ptraceSinglestep t) (liveTasks t) (world t).

Definition set_runState (v : option taskRunState) (t : Task) : Task :=
  mkTask (goid t) v (stopCount t) (taskWorkCount t) (taskWork t)
    (haveSyscallReturn t) (haveSavedSignalMask t) (savedSignalMask t)
    (rseqPreempted t) (rseqAddr t) (oldRSeqCPUAddr t) (rseqCPU t)
    (ptraceSinglestep t) (liveTasks t) (world t).

Definition set_taskWorkCount (v : Z) (t : Task) : Task :=
  mkTask (goid t) (runState t) (stopCount t) v (taskWork t)
    (haveSyscallReturn t) (haveSavedSignalMask t) (savedSignalMask t)
    (rseqPreempted t) (rseqAddr t) (oldRSeqCPUAddr t) (rseqCPU t)
    (ptraceSinglestep t) (liveTasks t) (world t).

Definition set_taskWork (v : list TaskWorker) (t : Task) : Task :=
  mkTask (goid t) (runState t) (stopCount t) (taskWorkCount t) v
    (haveSyscallReturn t) (haveSavedSignalMask t) (savedSignalMask t)
    (rseqPreempted t) (rseqAddr t) (oldRSeqCPUAddr t) (rseqCPU t)
    (ptraceSinglestep t) (liveTasks t) (world t).

Definition set_haveSyscallReturn (v : bool) (t : Task) : Task :=
  mkTask (goid t) (runState t) (stopCount t) (taskWorkCount t) (taskWork t)
    v (haveSavedSignalMask t) (savedSignalMask t)
    (rseqPreempted t) (rseqAddr t) (oldRSeqCPUAddr t) (rseqCPU t)
    (ptraceSinglestep t) (liveTasks t) (world t).

Definition set_haveSavedSignalMask (v : bool) (t : Task) : Task :=
  mkTask (goid t) (runState t) (stopCount t) (taskWorkCount t) (taskWork t)
    (haveSyscallReturn t) v (savedSignalMask t)
    (rseqPreempted t) (rseqAddr t) (oldRSeqCPUAddr t) (rseqCPU t)
    (ptraceSinglestep t) (liveTasks t) (world t).

Definition set_rseqPreempted (v : bool) (t : Task) : Task :=
  mkTask (goid t) (runState t) (stopCount t) (taskWorkCount t) (taskWork t)
    (haveSyscallReturn t) (haveSavedSignalMask t) (savedSignalMask t)
    v (rseqAddr t) (oldRSeqCPUAddr t) (rseqCPU t)
    (ptraceSinglestep t) (liveTasks t) (world t).

Definition set_rseqCPU (v : Z) (t : Task) : Task :=
  mkTask (goid t) (runState t) (stopCount t) (taskWorkCount t) (taskWork t)
    (haveSyscallReturn t) (haveSavedSignalMask t) (savedSignalMask t)
    (rseqPreempted t) (rseqAddr t) (oldRSeqCPUAddr t) v
    (ptraceSinglestep t) (liveTasks t) (world t).

Definition set_liveTasks (v : Z) (t : Task) : Task :=
  mkTask (goid t) (runState t) (stopCount t) (taskWorkCount t) (taskWork t)
    (haveSyscallReturn t) (haveSavedSignalMask t) (savedSignalMask t)
    (rseqPreempted t) (rseqAddr t) (oldRSeqCPUAddr t) (rseqCPU t)
    (ptraceSinglestep t) v (world t).

(** ** Calls into the rest of the kernel *)

(** The calls that return nothing. *)
Inductive Call : Type :=
| CleanupSync_Add (d : Z)
| CleanupSync_Done
| NewChannelNotifier
| NewSampledTimer
| blockingTimer_Destroy
| Activate
| Deactivate
| interruptSelf
| accountTaskGoroutineEnter (s : TaskGoroutineState)
| accountTaskGoroutineLeave (s : TaskGoroutineState)
| Lock (m : Mutex)
| Unlock (m : Mutex)
| RLock (m : Mutex)
| RUnlock (m : Mutex)
| runningGoroutines_Add (d : Z)
| runningGoroutines_Done
| goroutineStopped_Add (d : Z)
| goroutineStopped_Done
| liveGoroutines_Done
| endStopCond_Wait
| p_Release
| zeroLiveTasksCond_Broadcast
| KeepAlive
| TaskWork (w : TaskWorker)
| Warningf (m : LogMsg)
| Debugf (m : LogMsg)
| DebugDumpState
| PrepareExit (ws : WaitStatus)
| PrepareGroupExit (ws : WaitStatus)
| RestartSyscall
| RestartSyscallWithRestartBlock
| SetSignalMask (mask : Z)
| forceSignal (sig : Z) (unconditional : bool)
| SendSignal (info : SignalInfo)
| sendExternalSignal (info : SignalInfo) (context : nat)
| rseqInterrupt
| SetSingleStep
| ClearSingleStep
| StartRegion (r : Region)
| EndRegion (r : Region)
| faultCounter_Increment.

(** What the goroutine did, in order. *)
Inductive Event : Type :=
| EvCall (c : Call)
| EvStopCountLoad (v : Z)
| EvStopCountRacyLoad (v : Z)
| EvExecute (s : taskRunState)
| EvLiveTasksDec (v : Z)
| EvInterrupted (b : bool)
| EvPullFullState (err : option error)
| EvGetCPU (cpu : Z)
| EvRseqCopyOutCPU (err : option error)
| EvOldRSeqCopyOutCPU (err : option error)
| EvSwitch (cpu : Z) (info : SignalInfo) (a : AccessType) (err : option error)
| EvHandleUserFault (addr : Z) (a : AccessType) (stack : Z) (err : option error)
| EvDoSyscall (next : option taskRunState)
| EvDoVsyscall (addr sysno : Z) (next : option taskRunState).

(** The string handed to [sendExternalSignal]. *)
Definition application : nat := 0%nat.

(** The rest of the kernel as task_run.go sees it.  Getters read the task;
    every other call may update it. *)
Class Collaborators : Type := {
  (* pkg/abi/linux and pkg/sentry/platform constants *)
  SIGILL : Z;
  SIGTRAP : Z;
  SIGBUS : Z;
  SIGFPE : Z;
  SIGSEGV : Z;
  SIGPROF : Z;
  SIGKILL : Z;
  SignalInterrupt : Z;
  (* Go rejects a switch with two equal constant cases *)
  switch_cases_distinct :
    distinct [SIGILL; SIGSEGV; SIGBUS; SIGFPE; SIGTRAP; SignalInterrupt; SIGPROF]
    = true;
  (* pkg/errors/linuxerr *)
  ERESTART_RESTARTBLOCK : Z;
  SyscallRestartErrorFromReturn : Z -> option Z;
  ExtractErrno : error -> Z -> Z;
  (* pkg/abi/linux, pkg/hostarch *)
  SignalInfoPriv : Z -> SignalInfo;
  SignalInfo_Addr : SignalInfo -> Z;
  AccessType_Any : AccessType -> bool;
  (* calls that return nothing *)
  exec : Call -> Task -> Task;
  (* getters *)
  goid_Get : Task -> Z;
  interrupted : Task -> bool;
  hasTracer : Task -> bool;
  Arch_Return : Task -> Z;
  Arch_SyscallNo : Task -> Z;
  Arch_SingleStep : Task -> bool;
  Arch_Stack : Task -> Z;
  Arch_IP : Task -> Z;
  GetCPU : Task -> Z;
  LookupEmulate : Task -> Z -> option Z;
  (* calls that return a value *)
  PullFullState : Task -> option error * Task;
  rseqCopyOutCPU : Task -> option error * Task;
  oldRSeqCopyOutCPU : Task -> option error * Task;
  Switch : Task -> Z -> SignalInfo * AccessType * option error * Task;
  HandleUserFault : Task -> Z -> AccessType -> Z -> option error * Task;
  doSyscall : Task -> option taskRunState * Task;
  doVsyscall : Task -> Z -> Z -> option taskRunState * Task;
  (* [execute] of the states defined in other files *)
  execute_other : taskRunState -> Task -> option taskRunState * Task
}.

Context {K : Collaborators}.

(** ** The monad of the goroutine: state, trace, early [return] *)

Definition M (R A : Type) : Type := Task -> Res R A * Task * list Event.

Definition ret {R A : Type} (a : A) : M R A := fun t => (Next a, t, []).

Definition return_ {R A : Type} (r : R) : M R A :=
  fun t => (Return r, t, []).

Definition halt {R A : Type} (h : Halt) : M R A :=
  fun t => (Halted h, t, []).

Definition bind {R A B : Type} (m : M R A) (f : A -> M R B) : M R B :=
  fun t =>
    match m t with
    | (Next a, t1, tr1) =>
        match f a t1 with
        | (r, t2, tr2) => (r, t2, tr1 ++ tr2)
        end
    | (Return r, t1, tr1) => (Return r, t1, tr1)
    | (Halted h, t1, tr1) => (Halted h, t1, tr1)
    end.

Notation "x <- m ;; k" := (bind m (fun x => k))
  (at level 61, m at next level, right associativity).
Notation "m ;; k" := (bind m (fun _ => k))
  (at level 61, right associativity).

Definition gets {R A : Type} (f : Task -> A) : M R A :=
  fun t => (Next (f t), t, []).

Definition modify {R : Type} (f : Task -> Task) : M R unit :=
  fun t => (Next tt, f t, []).

Definition emit {R : Type} (e : Event) : M R unit := fun t => (Next tt, t, [e]).

Definition call {R : Type} (c : Call) : M R unit :=
  fun t => (Next tt, exec c t, [EvCall c]).

Definition observe {R A : Type} (f : Task -> A) (ev : A -> Event) : M R A :=
  fun t => (Next (f t), t, [ev (f t)]).

(** A statement that writes the task, seen with what it wrote. *)
Definition update {R A : Type} (f : Task -> Task) (read : Task -> A)
    (ev : A -> Event) : M R unit :=
  fun t => (Next tt, f t, [ev (read (f t))]).

Definition invoke {R A : Type} (f : Task -> A * Task) (ev : A -> Event)
  : M R A :=
  fun t => match f t with (a, t1) => (Next a, t1, [ev a]) end.

Definition lift {R A : Type} (f : Task -> A * Task) : M R A :=
  fun t => match f t with (a, t1) => (Next a, t1, []) end.

(** A call of a function of this file: what the callee returns, by
    [return] or by reaching its end, is the value of the call. *)
Definition returned {R R' : Type} (r : Res R R * Task * list Event)
  : Res R' R * Task * list Event :=
  match r with
  | (Next a, t1, tr) => (Next a, t1, tr)
  | (Return x, t1, tr) => (Next x, t1, tr)
  | (Halted h, t1, tr) => (Halted h, t1, tr)
  end.

Definition sub {R R' : Type} (m : M R R) : M R' R := fun t => returned (m t).

(** [defer d] before [body]: [d] runs when [body] reaches its end or
    returns, and when it panics, before the panic goes on. *)
Definition deferred {R A : Type} (d : M R unit) (body : M R A) : M R A :=
  fun t =>
    match body t with
    | (Halted h, t1, tr1) =>
        if unwinds h
        then match d t1 with (_, t2, tr2) => (Halted h, t2, tr1 ++ tr2) end
        else (Halted h, t1, tr1)
    | (r, t1, tr1) =>
        match d t1 with (_, t2, tr2) => (r, t2, tr1 ++ tr2) end
    end.

Fixpoint forEach {R A : Type} (l : list A) (body : A -> M R unit) : M R unit :=
  match l with
  | [] => ret tt
  | x :: l' => body x ;; forEach l' body
  end.

(** The parts of a run of a body, and a run with a trace put in front. *)
Definition prepend {A : Type} (tr : list Event) (r : A * Task * list Event)
  : A * Task * list Event :=
  match r with (a, t, tr') => (a, t, tr ++ tr') end.

Definition traceOf {A : Type} (r : A * Task * list Event) : list Event := snd r.

Definition stateOf {A : Type} (r : A * Task * list Event) : Task := snd (fst r).

Definition resultOf {A : Type} (r : A * Task * list Event) : A := fst (fst r).

(** ** runApp.execute *)

(** Lines 152-157: [if t.interrupted() { return runInterrupt }] *)
Definition checkInterrupted : M (option taskRunState) unit :=
  b <- observe interrupted EvInterrupted ;;
  if b then return_ (Some runInterrupt) else ret tt.

(** Lines 159-172: execute any task work callbacks before returning to
    user space. *)
Definition runTaskWork : M (option taskRunState) unit :=
  n <- gets taskWorkCount ;;
  if 0 <? n then
    call (Lock taskWorkMu) ;;
    queue <- gets taskWork ;;
    modify (set_taskWork []) ;;
    modify (set_taskWorkCount 0) ;;
    call (Unlock taskWorkMu) ;;
    forEach queue (fun work => call (TaskWork work))
  else ret tt.

(** Lines 180-197: [if t.haveSyscallReturn { ... }] *)
Definition restartSyscall : M (option taskRunState) unit :=
  h <- gets haveSyscallReturn ;;
  if h then
    err <- invoke PullFullState EvPullFullState ;;
    match err with
    | Some e =>
        call (Warningf (UnablePullFullState e)) ;;
        call (PrepareExit (WaitStatusExit (int32 (ExtractErrno e (-1))))) ;;
        return_ (Some runExit)
    | None =>
        rv <- gets Arch_Return ;;
        match SyscallRestartErrorFromReturn rv with
        | Some sre =>
            if sre =? ERESTART_RESTARTBLOCK then
              sysno <- gets Arch_SyscallNo ;;
              call (Debugf (RestartingWithRestartBlock sysno)) ;;
              call RestartSyscallWithRestartBlock
            else
              sysno <- gets Arch_SyscallNo ;;
              call (Debugf (Restarting sysno)) ;;
              call RestartSyscall
        | None => ret tt
        end ;;
        modify (set_haveSyscallReturn false)
    end
  else ret tt.

(** Lines 198-204: [if t.haveSavedSignalMask { ... }] *)
Definition restoreSignalMask : M (option taskRunState) unit :=
  h <- gets haveSavedSignalMask ;;
  if h then
    mask <- gets savedSignalMask ;;
    call (SetSignalMask mask) ;;
    modify (set_haveSavedSignalMask false) ;;
    b <- observe interrupted EvInterrupted ;;
    if b then return_ (Some runInterrupt) else ret tt
  else ret tt.

(** Lines 206-227: apply restartable sequences. *)
Definition applyRseq : M (option taskRunState) unit :=
  p <- gets rseqPreempted ;;
  if p then
    modify (set_rseqPreempted false) ;;
    ra <- gets rseqAddr ;;
    oa <- gets oldRSeqCPUAddr ;;
    (if negb (ra =? 0) || negb (oa =? 0) then
       cpu <- observe GetCPU EvGetCPU ;;
       modify (set_rseqCPU (int32 cpu)) ;;
       err <- invoke rseqCopyOutCPU EvRseqCopyOutCPU ;;
       match err with
       | Some e =>
           ra' <- gets rseqAddr ;;
           call (Debugf (FailedCopyCPU ra' e)) ;;
           call (forceSignal SIGSEGV false) ;;
           call (SendSignal (SignalInfoPriv SIGSEGV)) ;;
           return_ (Some runApp)
       | None =>
           err' <- invoke oldRSeqCopyOutCPU EvOldRSeqCopyOutCPU ;;
           match err' with
           | Some e =>
               oa' <- gets oldRSeqCPUAddr ;;
               call (Debugf (FailedCopyCPUOld oa' e)) ;;
               call (forceSignal SIGSEGV false) ;;
               call (SendSignal (SignalInfoPriv SIGSEGV)) ;;
               return_ (Some runApp)
           | None => ret tt
           end
       end
     else ret tt) ;;
    call rseqInterrupt
  else ret tt.

(** Lines 240-248: check if we need to enable single-stepping; the result
    is [clearSinglestep]. *)
Definition enableSinglestep : M (option taskRunState) bool :=
  tr <- gets hasTracer ;;
  if tr then
    call (RLock taskSetMu) ;;
    ss <- gets ptraceSinglestep ;;
    c <- (if ss then
            s <- gets Arch_SingleStep ;;
            call SetSingleStep ;;
            ret (negb s)
          else ret false) ;;
    call (RUnlock taskSetMu) ;;
    ret c
  else ret false.

(** Lines 250-264: [t.p.Switch(...)] between its accounting calls,
    [ClearSingleStep], and the tracer's [PullFullState]; the result is
    [(info, at, err)] as they stand before [switch err]. *)
Definition switchToApp (clearSinglestep : bool)
  : M (option taskRunState) (SignalInfo * AccessType * option error) :=
  call (StartRegion runRegion) ;;
  call (accountTaskGoroutineEnter TaskGoroutineRunningApp) ;;
  cpu <- gets rseqCPU ;;
  r <- invoke (fun t => match Switch t cpu with
                        | (info, a, err, t1) => ((info, a, err), t1)
                        end)
              (fun r => match r with
                        | (info, a, err) => EvSwitch cpu info a err
                        end) ;;
  call (accountTaskGoroutineLeave TaskGoroutineRunningApp) ;;
  call (EndRegion runRegion) ;;
  (if clearSinglestep then call ClearSingleStep else ret tt) ;;
  tr <- gets hasTracer ;;
  match r with
  | (info, a, err) =>
      if tr then
        e <- invoke PullFullState EvPullFullState ;;
        match e with
        | Some e' =>
            call (Warningf (UnablePullFullState e')) ;;
            ret (info, a, Some e')
        | None => ret (info, a, err)
        end
      else ret (info, a, err)
  end.

(** Lines 325-346: [switch sig { ... }] of the [ErrContextSignal] case. *)
Definition deliverSignal (sig : Z) (info : SignalInfo)
  : M (option taskRunState) unit :=
  if (sig =? SIGILL) || (sig =? SIGSEGV) || (sig =? SIGBUS)
     || (sig =? SIGFPE) || (sig =? SIGTRAP) then
    call (forceSignal sig false) ;;
    call (SendSignal info)
  else if sig =? SignalInterrupt then ret tt
  else if sig =? SIGPROF then ret tt
  else call (sendExternalSignal info application).

(** Lines 276-348: [case platform.ErrContextSignal:] *)
Definition contextSignal (info : SignalInfo) (a : AccessType)
  : M (option taskRunState) (option taskRunState) :=
  let sig := Signo info in
  si <- (if AccessType_Any a then
           call faultCounter_Increment ;;
           call (StartRegion faultRegion) ;;
           let addr := SignalInfo_Addr info in
           stack <- gets Arch_Stack ;;
           err <- invoke (fun t => HandleUserFault t addr a stack)
                         (EvHandleUserFault addr a stack) ;;
           call (EndRegion faultRegion) ;;
           match err with
           | None => return_ (Some runApp)
           | Some e =>
               (if Execute a then
                  lk <- gets (fun t => LookupEmulate t addr) ;;
                  match lk with
                  | Some sysno =>
                      nx <- invoke (fun t => doVsyscall t addr sysno)
                                   (EvDoVsyscall addr sysno) ;;
                      return_ nx
                  | None => ret tt
                  end
                else ret tt) ;;
               ip <- gets Arch_IP ;;
               call (Debugf (UnhandledUserFault addr ip a sig e)) ;;
               call DebugDumpState ;;
               if isBusError e then ret (SIGBUS, set_Signo (int32 SIGBUS) info)
               else ret (sig, info)
           end
         else ret (sig, info)) ;;
  deliverSignal (fst si) (snd si) ;;
  ret (Some runApp).

(** Lines 266-361: [switch err { ... }] *)
Definition handleSwitchResult (info : SignalInfo) (a : AccessType)
    (err : option error) : M (option taskRunState) (option taskRunState) :=
  match err with
  | None => invoke doSyscall EvDoSyscall
  | Some ErrContextInterrupt => ret (Some runApp)
  | Some ErrContextSignal => contextSignal info a
  | Some ErrContextCPUPreempted =>
      modify (set_rseqPreempted true) ;;
      ret (Some runApp)
  | Some _ =>
      call (Warningf (UnexpectedSwitchToApp err)) ;;
      call (PrepareGroupExit (WaitStatusTerminationSignal SIGKILL)) ;;
      ret (Some runExit)
  end.

(** Lines 229-361: [runApp.execute] from the single-step check on. *)
Definition resumeApp : M (option taskRunState) (option taskRunState) :=
  clearSinglestep <- enableSinglestep ;;
  r <- switchToApp clearSinglestep ;;
  match r with
  | (info, a, err) => handleSwitchResult info a err
  end.

(** Lines 151-362: the body of [runApp.execute]. *)
Definition runApp_body : M (option taskRunState) (option taskRunState) :=
  checkInterrupted ;;
  runTaskWork ;;
  restartSyscall ;;
  restoreSignalMask ;;
  applyRseq ;;
  resumeApp.

(** The statements of [runApp.execute] that come before each of its later
    blocks. *)
Definition beforeRestart : M (option taskRunState) unit :=
  checkInterrupted ;;
  runTaskWork.

Definition beforeRestore : M (option taskRunState) unit :=
  beforeRestart ;;
  restartSyscall.

Definition beforeRseq : M (option taskRunState) unit :=
  beforeRestore ;;
  restoreSignalMask.

Definition beforeResume : M (option taskRunState) unit :=
  beforeRseq ;;
  applyRseq.

(** [runApp.execute] as its caller sees it. *)
Definition runApp_execute {R : Type} : M R (option taskRunState) :=
  sub runApp_body.

(** ** Task.doStop *)

(** Lines 140-142,
    [for t.stopCount.RacyLoad() > 0 { t.endStopCond.Wait() }]: [waits]
    bounds the number of wake-ups the model follows; a goroutine that is
    still stopped after them is parked in [Wait]. *)
Fixpoint awaitEndStop (waits : nat) : M unit unit :=
  v <- observe stopCount EvStopCountRacyLoad ;;
  if 0 <? v then
    match waits with
    | O => halt Parked
    | S w => call endStopCond_Wait ;; awaitEndStop w
    end
  else ret tt.

(** Lines 124-143.  The deferred calls run when the function returns, last
    one first. *)
Definition doStop (waits : nat) : M unit unit :=
  v <- observe stopCount EvStopCountLoad ;;
  if v =? 0 then return_ tt
  else
    call Deactivate ;;
    call (accountTaskGoroutineEnter TaskGoroutineStopped) ;;
    call (Lock signalHandlersMu) ;;
    call (runningGoroutines_Add (-1)) ;;
    call (goroutineStopped_Add (-1)) ;;
    awaitEndStop waits ;;
    call (goroutineStopped_Add 1) ;;
    call (runningGoroutines_Add 1) ;;
    call (Unlock signalHandlersMu) ;;
    call (accountTaskGoroutineLeave TaskGoroutineStopped) ;;
    call Activate.

(** ** Task.run *)

(** Line 97, [t.runState.execute(t)]: the dynamic dispatch on the current
    state. *)
Definition execute {R : Type} (s : taskRunState) : M R (option taskRunState) :=
  emit (EvExecute s) ;;
  match s with
  | runApp => runApp_execute
  | _ => lift (execute_other s)
  end.

(** Lines 99-117: the body of [if t.runState == nil { ... }] up to its
    [return].  [ts.liveTasks] is a [uint32] (its declaration, in
    threads.go, is not among the sources), so the decrement wraps around;
    its event carries the count that it wrote, which is the count that line
    107 reads. *)
Definition teardown : M unit unit :=
  call (accountTaskGoroutineEnter TaskGoroutineNonexistent) ;;
  call goroutineStopped_Done ;;
  call liveGoroutines_Done ;;
  call p_Release ;;
  call (Lock taskSetMu) ;;
  update (fun t => set_liveTasks (uint32 (liveTasks t - 1)) t) liveTasks
    EvLiveTasksDec ;;
  n <- gets liveTasks ;;
  (if n =? 0 then call zeroLiveTasksCond_Broadcast else ret tt) ;;
  call (Unlock taskSetMu) ;;
  call runningGoroutines_Done ;;
  modify (set_goid 0) ;;
  call KeepAlive.

(** Lines 85-120: the [for] loop of [Task.run]; [fuel] bounds the number of
    iterations the model follows. *)
Fixpoint runLoop (waits fuel : nat) : M unit unit :=
  match fuel with
  | O => halt OutOfFuel
  | S f =>
      sub (doStop waits) ;;
      cur <- gets runState ;;
      match cur with
      | None => halt NilDereference
      | Some s =>
          next <- execute s ;;
          modify (set_runState next) ;;
          match next with
          | None => teardown ;; return_ tt
          | Some _ => runLoop waits f
          end
      end
  end.

(** The rest of an iteration of the loop, once [doStop] has returned in
    state [t1] with trace [tr1]; [f] is the fuel left for the iterations
    after this one. *)
Definition afterStop (waits f : nat) (tr1 : list Event) (t1 : Task)
  : Res unit unit * Task * list Event :=
  match runState t1 with
  | None => (Halted NilDereference, t1, tr1)
  | Some s =>
      match execute s t1 with
      | (Next None, t2, tr2) =>
          prepend (tr1 ++ tr2)
            ((teardown ;; return_ (A := unit) tt) (set_runState None t2))
      | (Next (Some s'), t2, tr2) =>
          prepend (tr1 ++ tr2) (runLoop waits f (set_runState (Some s') t2))
      | (Return r, t2, tr2) => (Return r, t2, tr1 ++ tr2)
      | (Halted h, t2, tr2) => (Halted h, t2, tr1 ++ tr2)
      end
  end.

(** Lines 60-83: the statements of [Task.run] before its loop. *)
Definition startTask : M unit unit :=
  modify (fun t => set_goid (goid_Get t) t) ;;
  call (CleanupSync_Add 1) ;;
  call NewChannelNotifier ;;
  call NewSampledTimer ;;
  call Activate ;;
  call interruptSelf.

(** [Task.run]: the statements before the loop, and the loop under the two
    deferred calls of lines 63 and 70, which run, the one deferred last
    first, when the loop returns and when a nil [t.runState] makes line 97
    panic. *)
Definition run (waits fuel : nat) : M unit unit :=
  startTask ;;
  deferred (call blockingTimer_Destroy ;; call CleanupSync_Done)
    (sub (runLoop waits fuel)).

(** ** Observations on traces *)

Definition countEv (p : Event -> bool) (tr : list Event) : nat :=
  length (filter p tr).

Definition isSwitch (e : Event) : bool :=
  match e with EvSwitch _ _ _ _ => true | _ => false end.

Definition isPullFullState (e : Event) : bool :=
  match e with EvPullFullState _ => true | _ => false end.

Definition isInterruptedCheck (e : Event) : bool :=
  match e with EvInterrupted _ => true | _ => false end.

Definition isLiveTasksDec (e : Event) : bool :=
  match e with EvLiveTasksDec _ => true | _ => false end.

Definition isRseqCopyOut (e : Event) : bool :=
  match e with EvRseqCopyOutCPU _ => true | _ => false end.

Definition isOldRSeqCopyOut (e : Event) : bool :=
  match e with EvOldRSeqCopyOutCPU _ => true | _ => false end.

Definition isGroupExit (e : Event) : bool :=
  match e with EvCall (PrepareGroupExit _) => true | _ => false end.

Definition isExit (e : Event) : bool :=
  match e with
  | EvCall (PrepareExit _) | EvCall (PrepareGroupExit _) => true
  | _ => false
  end.

(** The events that only [Task.run] and [Task.doStop] produce. *)
Definition isDriverEvent (e : Event) : bool :=
  match e with
  | EvStopCountLoad _ | EvStopCountRacyLoad _ | EvExecute _
  | EvLiveTasksDec _ => true
  | _ => false
  end.

(** Every event a body can produce satisfies [P]. *)
Definition emitsOnly {R A : Type} (P : Event -> bool) (m : M R A) : Prop :=
  forall t, forallb P (traceOf (m t)) = true.

(** Every event of a run of the body that reaches its end satisfies [P]. *)
Definition emitsOnlyToEnd {R A : Type} (P : Event -> bool) (m : M R A) : Prop :=
  forall t a t1 tr, m t = (Next a, t1, tr) -> forallb P tr = true.

Definition never (p : Event -> bool) (e : Event) : bool := negb (p e).

Definition gateOpen (open : Z -> bool) (last : option Z) : bool :=
  match last with
  | Some v => open v
  | None => false
  end.

(** A monitor for the stop gate.  [checks] counts the [stopCount.Load()]
    gate checks since the last transition, [last] is the most recent value
    read from the stop count.  A transition must come after exactly one
    gate check whose last read satisfied [open]; a platform switch must
    come inside a transition, before the next gate check. *)
Fixpoint stopGated (open : Z -> bool) (checks : nat) (last : option Z)
    (tr : list Event) : bool :=
  match tr with
  | [] => true
  | EvStopCountLoad v :: tr' => stopGated open (S checks) (Some v) tr'
  | EvStopCountRacyLoad v :: tr' => stopGated open checks (Some v) tr'
  | EvExecute _ :: tr' =>
      Nat.eqb checks 1 && gateOpen open last && stopGated open 0 last tr'
  | EvSwitch _ _ _ _ :: tr' =>
      Nat.eqb checks 0 && gateOpen open last && stopGated open checks last tr'
  | _ :: tr' => stopGated open checks last tr'
  end.

(** Every value read from the stop count is non-negative (the stop count
    never goes negative). *)
Definition stopCountReadsNonNegative (e : Event) : bool :=
  match e with
  | EvStopCountLoad v | EvStopCountRacyLoad v => 0 <=? v
  | _ => true
  end.

(** The state in which [doStop] makes its [n]-th racy read of the stop
    count, once it has found the count nonzero. *)
Definition stopEntered (t : Task) : Task :=
  exec (goroutineStopped_Add (-1))
    (exec (runningGoroutines_Add (-1))
       (exec (Lock signalHandlersMu)
          (exec (accountTaskGoroutineEnter TaskGoroutineStopped)
             (exec Deactivate t)))).

Definition afterWaits (n : nat) (t : Task) : Task :=
  Nat.iter n (exec endStopCond_Wait) (stopEntered t).

(** The task as [Task.run] finds it at the top of its loop for the first
    time. *)
Definition loopEntry (t : Task) : Task :=
  exec interruptSelf
    (exec Activate
       (exec NewSampledTimer
          (exec NewChannelNotifier
             (exec (CleanupSync_Add 1) (set_goid (goid_Get t) t))))).

(** The calls [Task.run] makes before its loop. *)
Definition startTrace : list Event :=
  [EvCall (CleanupSync_Add 1); EvCall NewChannelNotifier;
   EvCall NewSampledTimer; EvCall Activate; EvCall interruptSelf].

(** A transition of the state machine or a switch into the application. *)
Definition isTransition (e : Event) : bool :=
  match e with
  | EvExecute _ | EvSwitch _ _ _ _ => true
  | _ => false
  end.

(** The events the stop-gate monitor looks at. *)
Definition touchesGate (e : Event) : bool :=
  match e with
  | EvStopCountLoad _ | EvStopCountRacyLoad _
  | EvExecute _ | EvSwitch _ _ _ _ => true
  | _ => false
  end.

(** What [Task.run] relies on from the states of the exit path, whose
    [execute] methods are in other files: from runExit on, the states
    marked [exiting] lead only to one another or to nil, never back to
    runApp; and the calls made between two transitions leave the
    goroutine's own [runState] field alone. *)
Definition exitPath (exiting : taskRunState -> bool) : Prop :=
  exiting runExit = true
  /\ exiting runApp = false
  /\ (forall s t s' t',
        exiting s = true -> execute_other s t = (Some s', t') ->
        exiting s' = true)
  /\ (forall c t, runState (exec c t) = runState t).

(** What makes the exit path end: at the top of the loop, a task in an
    [exiting] state that satisfies [inv] is not stopped, and its transition
    either ends the state machine or leads to a state of smaller [rank] in
    which [inv] holds again. *)
Definition exitPathEnds (exiting : taskRunState -> bool) (inv : Task -> Prop)
    (rank : taskRunState -> nat) : Prop :=
  forall s t,
    exiting s = true -> runState t = Some s -> inv t ->
    stopCount t = 0
    /\ match execute_other s t with
       | (Some s', t') =>
           (rank s' < rank s)%nat /\ inv (set_runState (Some s') t')
       | (None, _) => True
       end.

(** The task as [t.p.Switch] receives it, and as the tracer check after
    the switch finds it, [tb] being the task as [Switch] left it. *)
Definition preSwitch (t : Task) : Task :=
  exec (accountTaskGoroutineEnter TaskGoroutineRunningApp)
    (exec (StartRegion runRegion) t).

Definition postSwitch (clearSinglestep : bool) (tb : Task) : Task :=
  let tc := exec (EndRegion runRegion)
              (exec (accountTaskGoroutineLeave TaskGoroutineRunningApp) tb) in
  if clearSinglestep then exec ClearSingleStep tc else tc.

(** The events of [switchToApp] up to the tracer check. *)
Definition switchTrace (clearSinglestep : bool) (cpu : Z) (info : SignalInfo)
    (a : AccessType) (err : option error) : list Event :=
  [EvCall (StartRegion runRegion);
   EvCall (accountTaskGoroutineEnter TaskGoroutineRunningApp);
   EvSwitch cpu info a err;
   EvCall (accountTaskGoroutineLeave TaskGoroutineRunningApp);
   EvCall (EndRegion runRegion)]
  ++ (if clearSinglestep then [EvCall ClearSingleStep] else []).

(** The task as [rseqCopyOutCPU] receives it when [applyRseq] starts in
    [t] with the preempted flag set: the flag cleared, the CPU recorded. *)
Definition rseqReady (t : Task) : Task :=
  set_rseqCPU (int32 (GetCPU (set_rseqPreempted false t)))
    (set_rseqPreempted false t).

(** What [runApp.execute] does with a failed copy-out. *)
Definition sigsegvSent (msg : LogMsg) (t : Task) : Task :=
  exec (SendSignal (SignalInfoPriv SIGSEGV))
    (exec (forceSignal SIGSEGV false) (exec (Debugf msg) t)).

Definition sigsegvTrace (msg : LogMsg) : list Event :=
  [EvCall (Debugf msg); EvCall (forceSignal SIGSEGV false);
   EvCall (SendSignal (SignalInfoPriv SIGSEGV))].

(** The conditions of lines 207 and 209: a preemption is pending and an
    address is registered, so the rseq block has a CPU id to copy out. *)
Definition rseqDue (t : Task) : bool :=
  rseqPreempted t && (negb (rseqAddr t =? 0) || negb (oldRSeqCPUAddr t =? 0)).

(** The signal and the signal info that reach [switch sig] after a user
    fault that [HandleUserFault] failed on with [e]. *)
Definition faultSignal (e : error) (info : SignalInfo) : Z :=
  if isBusError e then SIGBUS else Signo info.

Definition faultInfo (e : error) (info : SignalInfo) : SignalInfo :=
  if isBusError e then set_Signo (int32 SIGBUS) info else info.

(** The task as [HandleUserFault] receives it. *)
Definition faultEntered (t : Task) : Task :=
  exec (StartRegion faultRegion) (exec faultCounter_Increment t).

(** The events from the fault counter to the dump of an unhandled fault. *)
Definition faultTrace (info : SignalInfo) (a : AccessType) (e : error)
    (t tf : Task) : list Event :=
  [EvCall faultCounter_Increment;
   EvCall (StartRegion faultRegion);
   EvHandleUserFault (SignalInfo_Addr info) a (Arch_Stack (faultEntered t))
     (Some e);
   EvCall (EndRegion faultRegion);
   EvCall (Debugf (UnhandledUserFault (SignalInfo_Addr info)
                     (Arch_IP (exec (EndRegion faultRegion) tf))
                     a (Signo info) e));
   EvCall DebugDumpState].

(** The task and the trace at [switch sig] after such a fault. *)
Definition faultUnhandled (info : SignalInfo) (a : AccessType) (e : error)
    (tf : Task) : Task :=
  exec DebugDumpState
    (exec (Debugf (UnhandledUserFault (SignalInfo_Addr info)
                     (Arch_IP (exec (EndRegion faultRegion) tf))
                     a (Signo info) e))
       (exec (EndRegion faultRegion) tf)).

(** The known outcomes of a switch: success and the three sentinels. *)
Definition knownOutcome (err : option error) : bool :=
  match err with
  | None
  | Some ErrContextInterrupt
  | Some ErrContextSignal
  | Some ErrContextCPUPreempted => true
  | Some _ => false
  end.

Definition synchronousSignal (sig : Z) : bool :=
  (sig =? SIGILL) || (sig =? SIGSEGV) || (sig =? SIGBUS)
  || (sig =? SIGFPE) || (sig =? SIGTRAP).

(** ** Two readings of the error handling that the code does not satisfy *)

(** "An unknown switch error, and nothing else, makes runApp force a group
    exit": every switch that returned an error outside the known outcomes
    leads to the group exit and runExit, and a group exit in the trace means
    the switch itself returned such an error. *)
Definition onlyUnknownSwitchErrorKillsGroup : Prop :=
  forall t : Task,
    let r := runApp_execute (R := unit) t in
    (forall cpu info a err,
        In (EvSwitch cpu info a err) (traceOf r) ->
        knownOutcome err = false ->
        resultOf r = Next (Some runExit)
        /\ countEv isGroupExit (traceOf r) <> 0%nat)
    /\ (countEv isGroupExit (traceOf r) <> 0%nat ->
        exists cpu info a err,
          In (EvSwitch cpu info a err) (traceOf r)
          /\ knownOutcome err = false).

(** "For a traced task, every failure of the state pull that follows the
    switch forces a group exit." *)
Definition tracerPullFailureKillsGroup : Prop :=
  forall (t t5 t6 tb te : Task) tr5 cs tr6 info a err e,
    beforeResume t = (Next tt, t5, tr5) ->
    enableSinglestep t5 = (Next cs, t6, tr6) ->
    Switch (preSwitch t6) (rseqCPU (preSwitch t6)) = (info, a, err, tb) ->
    hasTracer (postSwitch cs tb) = true ->
    PullFullState (postSwitch cs tb) = (Some e, te) ->
    let r := runApp_execute (R := unit) t in
    resultOf r = Next (Some runExit)
    /\ countEv isGroupExit (traceOf r) <> 0%nat.

(** ** Tallies over traces *)

Definition Mutex_eqb (a b : Mutex) : bool :=
  match a, b with
  | taskWorkMu, taskWorkMu
  | signalHandlersMu, signalHandlersMu
  | taskSetMu, taskSetMu => true
  | _, _ => false
  end.

Definition Region_eqb (a b : Region) : bool :=
  match a, b with
  | runRegion, runRegion | faultRegion, faultRegion => true
  | _, _ => false
  end.

Definition TaskGoroutineState_eqb (a b : TaskGoroutineState) : bool :=
  match a, b with
  | TaskGoroutineNonexistent, TaskGoroutineNonexistent
  | TaskGoroutineStopped, TaskGoroutineStopped
  | TaskGoroutineRunningApp, TaskGoroutineRunningApp => true
  | _, _ => false
  end.

(** The sum of the weights of the events of a trace. *)
Definition tally (w : Event -> Z) (tr : list Event) : Z :=
  fold_right (fun e n => w e + n) 0 tr.

(** [Lock] counts one up and [Unlock] one down, for the mutex [m]. *)
Definition lockDelta (m : Mutex) (e : Event) : Z :=
  match e with
  | EvCall (Lock m') => if Mutex_eqb m m' then 1 else 0
  | EvCall (Unlock m') => if Mutex_eqb m m' then -1 else 0
  | _ => 0
  end.

Definition rlockDelta (m : Mutex) (e : Event) : Z :=
  match e with
  | EvCall (RLock m') => if Mutex_eqb m m' then 1 else 0
  | EvCall (RUnlock m') => if Mutex_eqb m m' then -1 else 0
  | _ => 0
  end.

(** A started trace region counts one up, an ended one one down. *)
Definition regionDelta (r : Region) (e : Event) : Z :=
  match e with
  | EvCall (StartRegion r') => if Region_eqb r r' then 1 else 0
  | EvCall (EndRegion r') => if Region_eqb r r' then -1 else 0
  | _ => 0
  end.

(** [accountTaskGoroutineEnter] against [accountTaskGoroutineLeave]. *)
Definition accountDelta (s : TaskGoroutineState) (e : Event) : Z :=
  match e with
  | EvCall (accountTaskGoroutineEnter s') =>
      if TaskGoroutineState_eqb s s' then 1 else 0
  | EvCall (accountTaskGoroutineLeave s') =>
      if TaskGoroutineState_eqb s s' then -1 else 0
  | _ => 0
  end.

(** [Activate] against [Deactivate]. *)
Definition activeDelta (e : Event) : Z :=
  match e with
  | EvCall Activate => 1
  | EvCall Deactivate => -1
  | _ => 0
  end.

(** What the goroutine adds to the wait group [goroutineStopped]; [Done]
    is [Add(-1)]. *)
Definition stoppedDelta (e : Event) : Z :=
  match e with
  | EvCall (goroutineStopped_Add d) => d
  | EvCall goroutineStopped_Done => -1
  | _ => 0
  end.

(** What the goroutine adds to the wait group [runningGoroutines]. *)
Definition runningDelta (e : Event) : Z :=
  match e with
  | EvCall (runningGoroutines_Add d) => d
  | EvCall runningGoroutines_Done => -1
  | _ => 0
  end.

(** ** More observations *)

Definition isTaskWork (e : Event) : bool :=
  match e with EvCall (TaskWork _) => true | _ => false end.

Definition isWait (e : Event) : bool :=
  match e with EvCall endStopCond_Wait => true | _ => false end.

Definition isGateCheck (e : Event) : bool :=
  match e with EvStopCountLoad _ => true | _ => false end.

Definition isExecuteEv (e : Event) : bool :=
  match e with EvExecute _ => true | _ => false end.

Definition isRelease (e : Event) : bool :=
  match e with EvCall p_Release => true | _ => false end.

Definition isLiveGoroutinesDone (e : Event) : bool :=
  match e with EvCall liveGoroutines_Done => true | _ => false end.

Definition isBroadcast (e : Event) : bool :=
  match e with EvCall zeroLiveTasksCond_Broadcast => true | _ => false end.

Definition isSetSingleStep (e : Event) : bool :=
  match e with EvCall SetSingleStep => true | _ => false end.

Definition isClearSingleStep (e : Event) : bool :=
  match e with EvCall ClearSingleStep => true | _ => false end.

Definition isRestart (e : Event) : bool :=
  match e with
  | EvCall RestartSyscall | EvCall RestartSyscallWithRestartBlock => true
  | _ => false
  end.

Definition isSetSignalMask (e : Event) : bool :=
  match e with EvCall (SetSignalMask _) => true | _ => false end.

(** A signal forced on the task, sent to it, or handed to the external
    signal path. *)
Definition isSignalCall (e : Event) : bool :=
  match e with
  | EvCall (forceSignal _ _) | EvCall (SendSignal _)
  | EvCall (sendExternalSignal _ _) => true
  | _ => false
  end.

(** Syscall dispatch, for a system call or an emulated vsyscall, that
    returned a nil state. *)
Definition isNilDispatch (e : Event) : bool :=
  match e with
  | EvDoSyscall None | EvDoVsyscall _ _ None => true
  | _ => false
  end.

(** The trace of the task-work block for the queue it found, and the task
    after the callbacks of the queue have run on it in order. *)
Definition taskWorkTrace (queue : list TaskWorker) : list Event :=
  EvCall (Lock taskWorkMu) :: EvCall (Unlock taskWorkMu)
  :: map (fun w => EvCall (TaskWork w)) queue.

Definition afterTaskWork (queue : list TaskWorker) (t : Task) : Task :=
  fold_left (fun x w => exec (TaskWork w) x) queue t.

(** The task as the unlock of line 165 finds it, [t] being the task in
    which the block starts: under the lock, the queue and the count have
    been emptied. *)
Definition taskWorkTaken (t : Task) : Task :=
  set_taskWorkCount 0 (set_taskWork [] (exec (Lock taskWorkMu) t)).

(** The task as [doStop] leaves it, [t] being the task at the last racy
    read of the stop count. *)
Definition stopLeft (t : Task) : Task :=
  exec Activate
    (exec (accountTaskGoroutineLeave TaskGoroutineStopped)
       (exec (Unlock signalHandlersMu)
          (exec (runningGoroutines_Add 1)
             (exec (goroutineStopped_Add 1) t)))).

(** The events with which a fault that [HandleUserFault] handled ends. *)
Definition faultHandledTrace (info : SignalInfo) (a : AccessType) (t : Task)
  : list Event :=
  [EvCall faultCounter_Increment;
   EvCall (StartRegion faultRegion);
   EvHandleUserFault (SignalInfo_Addr info) a (Arch_Stack (faultEntered t))
     None;
   EvCall (EndRegion faultRegion)].

(** The events of a fault that ends in the emulation of a vsyscall. *)
Definition vsyscallTrace (info : SignalInfo) (a : AccessType) (e : error)
    (sysno : Z) (next : option taskRunState) (t : Task) : list Event :=
  [EvCall faultCounter_Increment;
   EvCall (StartRegion faultRegion);
   EvHandleUserFault (SignalInfo_Addr info) a (Arch_Stack (faultEntered t))
     (Some e);
   EvCall (EndRegion faultRegion);
   EvDoVsyscall (SignalInfo_Addr info) sysno next].

(** The number outstanding after a trace, counted from [n] with the weights
    [w], as long as it stays 0 or 1 after every event: a mutex taken only
    when free and released only when held, a region ended only when
    started. *)
Fixpoint level (w : Event -> Z) (n : Z) (tr : list Event) : option Z :=
  match tr with
  | [] => Some n
  | e :: tr' =>
      let n' := n + w e in
      if (0 <=? n') && (n' <=? 1) then level w n' tr' else None
  end.

(** Entered with [pre] outstanding, the body reaches its end with [post]
    outstanding, returns early only with nothing outstanding, and does not
    halt. *)
Definition keeps {R A : Type} (w : Event -> Z) (pre post : Z) (m : M R A)
  : Prop :=
  forall t,
    match m t with
    | (Next _, _, tr) => level w pre tr = Some post
    | (Return _, _, tr) => level w pre tr = Some 0
    | (Halted _, _, _) => False
    end.

(** ** The goroutine as the rest of the kernel counts it *)

(** The calls of [doStop] before its wait loop, and its deferred calls in
    the order in which they run. *)
Definition stopEnterTrace : list Event :=
  [EvCall Deactivate;
   EvCall (accountTaskGoroutineEnter TaskGoroutineStopped);
   EvCall (Lock signalHandlersMu);
   EvCall (runningGoroutines_Add (-1));
   EvCall (goroutineStopped_Add (-1))].

Definition stopLeaveTrace : list Event :=
  [EvCall (goroutineStopped_Add 1);
   EvCall (runningGoroutines_Add 1);
   EvCall (Unlock signalHandlersMu);
   EvCall (accountTaskGoroutineLeave TaskGoroutineStopped);
   EvCall Activate].

(** The task as the decrement of lines 99-117 finds it, [x] being the
    task in which the exit sequence starts; the count that the decrement
    writes; and the task as the exit sequence leaves it. *)
Definition teardownLocked (x : Task) : Task :=
  exec (Lock taskSetMu)
    (exec p_Release
       (exec liveGoroutines_Done
          (exec goroutineStopped_Done
             (exec (accountTaskGoroutineEnter TaskGoroutineNonexistent) x)))).

Definition teardownCount (x : Task) : Z :=
  uint32 (liveTasks (teardownLocked x) - 1).

Definition teardownLeft (x : Task) : Task :=
  let counted := set_liveTasks (teardownCount x) (teardownLocked x) in
  exec KeepAlive
    (set_goid 0
       (exec runningGoroutines_Done
          (exec (Unlock taskSetMu)
             (if teardownCount x =? 0
              then exec zeroLiveTasksCond_Broadcast counted
              else counted)))).

(** Lines 99-117 as events, [v] being the count that the decrement wrote:
    the broadcast is made when it is zero. *)
Definition teardownTrace (v : Z) : list Event :=
  [EvCall (accountTaskGoroutineEnter TaskGoroutineNonexistent);
   EvCall goroutineStopped_Done;
   EvCall liveGoroutines_Done;
   EvCall p_Release;
   EvCall (Lock taskSetMu);
   EvLiveTasksDec v]
  ++ (if v =? 0 then [EvCall zeroLiveTasksCond_Broadcast] else [])
  ++ [EvCall (Unlock taskSetMu);
      EvCall runningGoroutines_Done;
      EvCall KeepAlive].

(** The deferred calls of [Task.run], in the order in which they run. *)
Definition deferredTrace : list Event :=
  [EvCall blockingTimer_Destroy; EvCall CleanupSync_Done].

(** The goroutine is blocked in [endStopCond.Wait]; the goroutine has
    returned from [Task.run]. *)
Definition parked {A : Type} (r : Res unit A) : bool :=
  match r with Halted Parked => true | _ => false end.

Definition exited {A : Type} (r : Res unit A) : bool :=
  match r with Halted _ => false | _ => true end.

(** The goroutine has panicked on a nil state. *)
Definition panicked {A : Type} (r : Res unit A) : bool :=
  match r with Halted h => unwinds h | _ => false end.

(** What a goroutine blocked in the stop gate does: it reads the stop count
    and waits. *)
Definition isWaiting (e : Event) : bool :=
  match e with
  | EvStopCountRacyLoad _ | EvCall endStopCond_Wait => true
  | _ => false
  end.

(** A line written to the log. *)
Definition isLog (e : Event) : bool :=
  match e with
  | EvCall (Warningf _) | EvCall (Debugf _) | EvCall DebugDumpState => true
  | _ => false
  end.

(** What the goroutine adds to the wait group [refs.CleanupSync]. *)
Definition cleanupDelta (e : Event) : Z :=
  match e with
  | EvCall (CleanupSync_Add d) => d
  | EvCall CleanupSync_Done => -1
  | _ => 0
  end.

Definition isDestroy (e : Event) : bool :=
  match e with EvCall blockingTimer_Destroy => true | _ => false end.

Definition isCleanupDone (e : Event) : bool :=
  match e with EvCall CleanupSync_Done => true | _ => false end.

(** One for an event that satisfies [p], to count with [tally]. *)
Definition one (p : Event -> bool) (e : Event) : Z := if p e then 1 else 0.

Definition isGetCPU (e : Event) : bool :=
  match e with EvGetCPU _ => true | _ => false end.

Definition isRseqInterrupt (e : Event) : bool :=
  match e with EvCall rseqInterrupt => true | _ => false end.

(** The calls of the single-step check for a traced task, with and without
    [ptraceSinglestep]. *)
Definition singlestepTrace (stepping : bool) : list Event :=
  if stepping
  then [EvCall (RLock taskSetMu); EvCall SetSingleStep;
        EvCall (RUnlock taskSetMu)]
  else [EvCall (RLock taskSetMu); EvCall (RUnlock taskSetMu)].

(** The last event of a trace satisfies [p]. *)
Definition endsWith (p : Event -> bool) (tr : list Event) : bool :=
  match rev tr with
  | e :: _ => p e
  | [] => false
  end.

Definition isNone {A : Type} (o : option A) : bool :=
  match o with None => true | Some _ => false end.

(** A body of [runApp.execute] that hands on a nil state, by [return] or as
    a value that [isNil] marks, has just got it from syscall dispatch. *)
Definition nilFrom {A : Type} (isNil : A -> bool)
    (m : M (option taskRunState) A) : Prop :=
  forall t,
    match m t with
    | (Return None, _, tr) => endsWith isNilDispatch tr = true
    | (Next a, _, tr) => isNil a = true -> endsWith isNilDispatch tr = true
    | _ => True
    end.

End TaskRun.

Arguments Task : clear implicits.
Arguments Collaborators : clear implicits.
Arguments Call : clear implicits.
Arguments Event : clear implicits.

Notation "x <- m ;; k" := (bind m (fun x => k))
  (at level 61, m at next level, right associativity).
Notation "m ;; k" := (bind m (fun _ => k))
  (at level 61, right associativity).

(** ** A small kernel to run the goroutine against *)

Module Demo.

(** The answers the rest of the kernel gives. *)
Record World : Type := mkWorld {
  d_interrupted : bool;
  d_unblocks : bool;
  d_tracer : bool;
  d_pull : option error;
  d_return : Z;
  d_cpu : Z;
  d_copyOut : option error;
  d_oldCopyOut : option error;
  d_switch : SignalInfo * AccessType * option error;
  d_fault : option error;
  d_released : bool
}.

Definition DTask : Type := Task World nat.

Definition set_world (w : World) (t : DTask) : DTask :=
  mkTask (goid t) (runState t) (stopCount t) (taskWorkCount t) (taskWork t)
    (haveSyscallReturn t) (haveSavedSignalMask t) (savedSignalMask t)
    (rseqPreempted t) (rseqAddr t) (oldRSeqCPUAddr t) (rseqCPU t)
    (ptraceSinglestep t) (liveTasks t) w.

Definition set_stopCount (v : Z) (t : DTask) : DTask :=
  mkTask (goid t) (runState t) v (taskWorkCount t) (taskWork t)
    (haveSyscallReturn t) (haveSavedSignalMask t) (savedSignalMask t)
    (rseqPreempted t) (rseqAddr t) (oldRSeqCPUAddr t) (rseqCPU t)
    (ptraceSinglestep t) (liveTasks t) (world t).

Definition set_interrupted (b : bool) (w : World) : World :=
  mkWorld b (d_unblocks w) (d_tracer w) (d_pull w) (d_return w) (d_cpu w)
    (d_copyOut w) (d_oldCopyOut w) (d_switch w) (d_fault w) (d_released w).

(** [SetSignalMask] interrupts the task when the new mask unblocks a
    pending signal; a released [Wait] finds the stop count at zero; the
    other calls leave the task as it is. *)
Definition d_exec (c : Call nat) (t : DTask) : DTask :=
  match c with
  | SetSignalMask _ =>
      set_world (set_interrupted (d_interrupted (world t) || d_unblocks (world t))
                   (world t)) t
  | endStopCond_Wait =>
      if d_released (world t) then set_stopCount 0 t else t
  | _ => t
  end.

Definition d_restartError (rv : Z) : option Z :=
  if (rv =? -512) || (rv =? -513) || (rv =? -514) || (rv =? -516)
  then Some (- rv) else None.

Definition d_errno (e : error) (sysno : Z) : Z :=
  match e with
  | BusError _ => 14
  | OtherError c => c
  | _ => 4
  end.

(** The exit path: runExit, then two more states, then nil; runInterrupt
    consumes the interrupt and goes back to runApp. *)
Definition d_execute_other (s : taskRunState) (t : DTask)
  : option taskRunState * DTask :=
  match s with
  | runInterrupt => (Some runApp, set_world (set_interrupted false (world t)) t)
  | runExit => (Some (runOther 0), t)
  | runOther 0 => (Some (runOther 1), t)
  | runOther _ => (None, t)
  | runApp => (Some runApp, t)
  end.

#[export] Instance kernel : Collaborators World nat := {|
  SIGILL := 4;
  SIGTRAP := 5;
  SIGBUS := 7;
  SIGFPE := 8;
  SIGSEGV := 11;
  SIGPROF := 27;
  SIGKILL := 9;
  SignalInterrupt := 17;
  switch_cases_distinct := eq_refl;
  ERESTART_RESTARTBLOCK := 516;
  SyscallRestartErrorFromReturn := d_restartError;
  ExtractErrno := d_errno;
  SignalInfoPriv := fun sig => mkSignalInfo sig 0 128 [];
  SignalInfo_Addr := fun info => hd 0 (Fields info);
  AccessType_Any := fun a => Read a || Write a || Execute a;
  exec := d_exec;
  goid_Get := fun _ => 7;
  interrupted := fun t => d_interrupted (world t);
  hasTracer := fun t => d_tracer (world t);
  Arch_Return := fun t => d_return (world t);
  Arch_SyscallNo := fun _ => 35;
  Arch_SingleStep := fun _ => false;
  Arch_Stack := fun _ => 4096;
  Arch_IP := fun _ => 8192;
  GetCPU := fun t => d_cpu (world t);
  LookupEmulate := fun _ _ => None;
  PullFullState := fun t => (d_pull (world t), t);
  rseqCopyOutCPU := fun t => (d_copyOut (world t), t);
  oldRSeqCopyOutCPU := fun t => (d_oldCopyOut (world t), t);
  Switch := fun t _ =>
    match d_switch (world t) with (info, a, err) => (info, a, err, t) end;
  HandleUserFault := fun t _ _ _ => (d_fault (world t), t);
  doSyscall := fun t => (Some runApp, set_haveSyscallReturn true t);
  doVsyscall := fun t _ _ => (Some runApp, t);
  execute_other := d_execute_other
|}.

Definition noAccess : AccessType := mkAccessType false false false.

Definition noInfo : SignalInfo := mkSignalInfo 0 0 0 [].

(** A quiet world: nothing pending, no tracer, every call succeeds, the
    switch returns for a system call. *)
Definition quiet : World :=
  mkWorld false false false None 0 3 None None (noInfo, noAccess, None) None false.

(** A task about to enter runApp with nothing to do before the switch. *)
Definition fresh (w : World) : DTask :=
  mkTask 0 (Some runApp) 0 0 [] false false 0 false 0 0 0 false 1 w.

(** A traced task whose state pull fails after a successful switch. *)
Definition tracedPullFails (e : error) : World :=
  mkWorld false false true (Some e) 0 3 None None (noInfo, noAccess, None)
    None false.

(** The last system call returned a restart error. *)
Definition restartWorld (rv : Z) : World :=
  mkWorld false false false None rv 3 None None (noInfo, noAccess, None)
    None false.

(** Restoring the saved signal mask unblocks a pending signal. *)
Definition unblockingWorld : World :=
  mkWorld false true false None 0 3 None None (noInfo, noAccess, None)
    None false.

(** The state pull fails; no tracer. *)
Definition pullFails (e : error) : World :=
  mkWorld false false false (Some e) 0 3 None None (noInfo, noAccess, None)
    None false.

(** The switch comes back with [err] and signal [sig]. *)
Definition switchReturns (sig : Z) (err : option error) : World :=
  mkWorld false false false None 0 3 None None
    (mkSignalInfo sig 0 0 [], noAccess, err) None false.

(** The copy-out of the CPU id fails. *)
Definition copyOutFails (e : error) : World :=
  mkWorld false false false None 0 3 (Some e) None (noInfo, noAccess, None)
    None false.

(** A traced task whose state pull succeeds. *)
Definition traced : World :=
  mkWorld false false true None 0 3 None None (noInfo, noAccess, None)
    None false.

(** The copy-out of the CPU id to the old rseq address fails. *)
Definition oldCopyOutFails (e : error) : World :=
  mkWorld false false false None 0 3 None (Some e) (noInfo, noAccess, None)
    None false.

(** The switch reports SIGSEGV for a read at 4096 that the memory manager
    fails on with [e]. *)
Definition faultInfo11 : SignalInfo := mkSignalInfo 11 0 1 [4096].

Definition readAccess : AccessType := mkAccessType true false false.

Definition faulting (e : error) : World :=
  mkWorld false false false None 0 3 None None
    (faultInfo11, readAccess, Some ErrContextSignal) (Some e) false.

(** A task resuming after a preemption, with an rseq address registered. *)
Definition resuming (w : World) : DTask :=
  mkTask 0 (Some runApp) 0 0 [] false false 0 true 4096 0 0 false 1 w.

(** A task with a saved signal mask. *)
Definition suspended (mask : Z) (w : World) : DTask :=
  mkTask 0 (Some runApp) 0 0 [] false true mask false 0 0 0 false 1 w.

(** The states of the exit path of this kernel. *)
Definition exiting (s : taskRunState) : bool :=
  match s with
  | runExit | runOther _ => true
  | runApp | runInterrupt => false
  end.

Definition rank (s : taskRunState) : nat :=
  match s with
  | runExit => 2
  | runOther 0 => 1
  | _ => 0
  end.

Definition notStopped (t : DTask) : Prop := stopCount t = 0.

(** A task with three callbacks queued. *)
Definition working (w : World) : DTask :=
  mkTask 0 (Some runApp) 0 3 [1; 2; 3]%nat false false 0 false 0 0 0 false 1 w.

(** A stop that the first wake-up finds ended. *)
Definition released : World :=
  mkWorld false false false None 0 3 None None (noInfo, noAccess, None)
    None true.

(** A task that its tracer single-steps. *)
Definition stepped (w : World) : DTask :=
  mkTask 0 (Some runApp) 0 0 [] false false 0 false 0 0 0 true 1 w.

(** The switch reports SIGSEGV for a read at 4096 that the memory manager
    handles. *)
Definition faultHandled : World :=
  mkWorld false false false None 0 3 None None
    (faultInfo11, readAccess, Some ErrContextSignal) None false.

(** A preempted task with no rseq address of either kind. *)
Definition unregistered (w : World) : DTask :=
  mkTask 0 (Some runApp) 0 0 [] false false 0 true 0 0 0 false 1 w.

(** The switch reports SIGSEGV for an instruction fetch at 4096 that the
    memory manager fails on with [e]. *)
Definition execAccess : AccessType := mkAccessType false false true.

Definition fetching (e : error) : World :=
  mkWorld false false false None 0 3 None None
    (faultInfo11, execAccess, Some ErrContextSignal) (Some e) false.

(** A task that was started without a state. *)
Definition stateless (w : World) : DTask :=
  mkTask 0 None 0 0 [] false false 0 false 0 0 0 false 1 w.

(** A second kernel: the task image emulates a vsyscall at 4096, and every
    system call, emulated or not, is one that ends the task. *)
Definition leaving : Collaborators World nat := {|
  SIGILL := 4;
  SIGTRAP := 5;
  SIGBUS := 7;
  SIGFPE := 8;
  SIGSEGV := 11;
  SIGPROF := 27;
  SIGKILL := 9;
  SignalInterrupt := 17;
  switch_cases_distinct := eq_refl;
  ERESTART_RESTARTBLOCK := 516;
  SyscallRestartErrorFromReturn := d_restartError;
  ExtractErrno := d_errno;
  SignalInfoPriv := fun sig => mkSignalInfo sig 0 128 [];
  SignalInfo_Addr := fun info => hd 0 (Fields info);
  AccessType_Any := fun a => Read a || Write a || Execute a;
  exec := d_exec;
  goid_Get := fun _ => 7;
  interrupted := fun t => d_interrupted (world t);
  hasTracer := fun t => d_tracer (world t);
  Arch_Return := fun t => d_return (world t);
  Arch_SyscallNo := fun _ => 60;
  Arch_SingleStep := fun _ => true;
  Arch_Stack := fun _ => 4096;
  Arch_IP := fun _ => 8192;
  GetCPU := fun t => d_cpu (world t);
  LookupEmulate := fun _ addr => if addr =? 4096 then Some 96 else None;
  PullFullState := fun t => (d_pull (world t), t);
  rseqCopyOutCPU := fun t => (d_copyOut (world t), t);
  oldRSeqCopyOutCPU := fun t => (d_oldCopyOut (world t), t);
  Switch := fun t _ =>
    match d_switch (world t) with (info, a, err) => (info, a, err, t) end;
  HandleUserFault := fun t _ _ _ => (d_fault (world t), t);
  doSyscall := fun t => (None, t);
  doVsyscall := fun t _ _ => (None, t);
  execute_other := d_execute_other
|}.

End Demo.

(** * Properties *)

Section Properties.

Context {World TaskWorker : Type} {K : Collaborators World TaskWorker}.

(** ** Running a body step by step *)

Lemma prepend_prepend {A : Type} tr1 tr2
    (r : A * Task World TaskWorker * list (Event TaskWorker)) :
  prepend tr1 (prepend tr2 r) = prepend (tr1 ++ tr2) r.
Proof. destruct r as [[a t] tr]; simpl; now rewrite app_assoc. Qed.

Lemma traceOf_prepend {A : Type} tr
    (r : A * Task World TaskWorker * list (Event TaskWorker)) :
  traceOf (prepend tr r) = tr ++ traceOf r.
Proof. destruct r as [[a t] tr']; reflexivity. Qed.

Lemma resultOf_prepend {A : Type} tr
    (r : A * Task World TaskWorker * list (Event TaskWorker)) :
  resultOf (prepend tr r) = resultOf r.
Proof. destruct r as [[a t] tr']; reflexivity. Qed.

Lemma returned_prepend {R R' : Type} tr
    (r : Res R R * Task World TaskWorker * list (Event TaskWorker)) :
  @returned _ _ R R' (prepend tr r) = prepend tr (returned r).
Proof. destruct r as [[[a | x | h] t] tr']; reflexivity. Qed.

Lemma bind_Next {R A B : Type} (m : @M World TaskWorker R A)
    (f : A -> @M World TaskWorker R B) t a t1 tr1 :
  m t = (Next a, t1, tr1) -> bind m f t = prepend tr1 (f a t1).
Proof. unfold bind; intros ->; reflexivity. Qed.

Lemma bind_Return {R A B : Type} (m : @M World TaskWorker R A)
    (f : A -> @M World TaskWorker R B) t r t1 tr1 :
  m t = (Return r, t1, tr1) -> bind m f t = (Return r, t1, tr1).
Proof. unfold bind; intros ->; reflexivity. Qed.

Lemma bind_Halted {R A B : Type} (m : @M World TaskWorker R A)
    (f : A -> @M World TaskWorker R B) t h t1 tr1 :
  m t = (Halted h, t1, tr1) -> bind m f t = (Halted h, t1, tr1).
Proof. unfold bind; intros ->; reflexivity. Qed.

Lemma bind_assoc {R A B C : Type} (m : @M World TaskWorker R A)
    (f : A -> @M World TaskWorker R B)
    (g : B -> @M World TaskWorker R C) t :
  bind (bind m f) g t = bind m (fun a => bind (f a) g) t.
Proof.
  unfold bind.
  destruct (m t) as [[[a | r | h] t1] tr1]; try reflexivity.
  destruct (f a t1) as [[[b | r | h] t2] tr2]; try reflexivity.
  destruct (g b t2) as [[r t3] tr3]; now rewrite app_assoc.
Qed.

(** [runApp.execute] split at each of its blocks. *)
Lemma runApp_body_from_restart t :
  runApp_body t
  = (beforeRestart ;; restartSyscall ;; restoreSignalMask ;; applyRseq ;; resumeApp) t.
Proof. unfold runApp_body, beforeRestart. now rewrite bind_assoc. Qed.

Lemma runApp_body_from_restore t :
  runApp_body t = (beforeRestore ;; restoreSignalMask ;; applyRseq ;; resumeApp) t.
Proof.
  rewrite runApp_body_from_restart. unfold beforeRestore. now rewrite bind_assoc.
Qed.

Lemma runApp_body_from_rseq t :
  runApp_body t = (beforeRseq ;; applyRseq ;; resumeApp) t.
Proof.
  rewrite runApp_body_from_restore. unfold beforeRseq. now rewrite bind_assoc.
Qed.

Lemma runApp_body_from_resume t :
  runApp_body t = (beforeResume ;; resumeApp) t.
Proof.
  rewrite runApp_body_from_rseq. unfold beforeResume. now rewrite bind_assoc.
Qed.

Lemma checkInterrupted_true t :
  interrupted t = true ->
  checkInterrupted t = (Return (Some runInterrupt), t, [EvInterrupted true]).
Proof. intros H. unfold checkInterrupted, bind, observe. now rewrite H. Qed.

Lemma checkInterrupted_false t :
  interrupted t = false ->
  checkInterrupted t = (Next tt, t, [EvInterrupted false]).
Proof. intros H. unfold checkInterrupted, bind, observe. now rewrite H. Qed.

(** ** What a body can emit *)

Lemma emitsOnly_bind {R A B : Type} P (m : @M World TaskWorker R A)
    (f : A -> @M World TaskWorker R B) :
  emitsOnly P m -> (forall a, emitsOnly P (f a)) -> emitsOnly P (bind m f).
Proof.
  intros Hm Hf t. unfold bind. specialize (Hm t).
  destruct (m t) as [[[a | r | h] t1] tr1]; try exact Hm.
  specialize (Hf a t1). destruct (f a t1) as [[r t2] tr2].
  unfold traceOf in *; simpl in *. now rewrite forallb_app, Hm, Hf.
Qed.

Lemma emitsOnly_ret {R A : Type} P (a : A) :
  emitsOnly P (@ret World TaskWorker R A a).
Proof. intro; reflexivity. Qed.

Lemma emitsOnly_return {R A : Type} P (r : R) :
  emitsOnly P (@return_ World TaskWorker R A r).
Proof. intro; reflexivity. Qed.

Lemma emitsOnly_halt {R A : Type} P h :
  emitsOnly P (@halt World TaskWorker R A h).
Proof. intro; reflexivity. Qed.

Lemma emitsOnly_gets {R A : Type} P (f : Task World TaskWorker -> A) :
  emitsOnly P (@gets _ _ R A f).
Proof. intro; reflexivity. Qed.

Lemma emitsOnly_modify {R : Type} P (f : Task World TaskWorker -> Task World TaskWorker) :
  emitsOnly P (@modify _ _ R f).
Proof. intro; reflexivity. Qed.

Lemma emitsOnly_emit {R : Type} (P : Event TaskWorker -> bool) e :
  P e = true -> emitsOnly P (@emit World TaskWorker R e).
Proof. intros H t. unfold emit, traceOf; simpl. now rewrite H. Qed.

Lemma emitsOnly_call {R : Type} (P : Event TaskWorker -> bool) c :
  P (EvCall c) = true -> emitsOnly P (@call World TaskWorker K R c).
Proof. intros H t. unfold call, traceOf; simpl. now rewrite H. Qed.

Lemma emitsOnly_observe {R A : Type} (P : Event TaskWorker -> bool)
    (f : Task World TaskWorker -> A) ev :
  (forall a, P (ev a) = true) -> emitsOnly P (@observe _ _ R A f ev).
Proof. intros H t. unfold observe, traceOf; simpl. now rewrite H. Qed.

Lemma emitsOnly_invoke {R A : Type} (P : Event TaskWorker -> bool)
    (f : Task World TaskWorker -> A * Task World TaskWorker) ev :
  (forall a, P (ev a) = true) -> emitsOnly P (@invoke _ _ R A f ev).
Proof.
  intros H t. unfold invoke, traceOf. destruct (f t) as [a t1]; simpl.
  now rewrite H.
Qed.

Lemma emitsOnly_lift {R A : Type} (P : Event TaskWorker -> bool)
    (f : Task World TaskWorker -> A * Task World TaskWorker) :
  emitsOnly P (@lift _ _ R A f).
Proof. intros t. unfold lift, traceOf. now destruct (f t). Qed.

Lemma emitsOnly_forEach {R A : Type} P (l : list A)
    (body : A -> @M World TaskWorker R unit) :
  (forall a, emitsOnly P (body a)) -> emitsOnly P (forEach l body).
Proof.
  intros H. induction l as [| x l IH]; simpl.
  - apply emitsOnly_ret.
  - apply emitsOnly_bind; [apply H | intros _; exact IH].
Qed.

Ltac emits_step :=
  first
    [ apply emitsOnly_bind; [| intro]
    | apply emitsOnly_ret
    | apply emitsOnly_return
    | apply emitsOnly_halt
    | apply emitsOnly_gets
    | apply emitsOnly_modify
    | apply emitsOnly_lift
    | apply emitsOnly_emit; reflexivity
    | apply emitsOnly_call; reflexivity
    | apply emitsOnly_observe; intro; reflexivity
    | apply emitsOnly_invoke;
      intros;
      repeat match goal with x : (_ * _)%type |- _ => destruct x end;
      reflexivity
    | apply emitsOnly_forEach; intro
    | match goal with
      | |- emitsOnly _ (if ?b then _ else _) => destruct b
      | |- emitsOnly _ (match ?x with _ => _ end) => destruct x
      end ].

Ltac emits := repeat emits_step.

Lemma countEv_app p (tr1 tr2 : list (Event TaskWorker)) :
  countEv p (tr1 ++ tr2) = (countEv p tr1 + countEv p tr2)%nat.
Proof. unfold countEv. now rewrite filter_app, length_app. Qed.

Lemma countEv_never p (tr : list (Event TaskWorker)) :
  forallb (never p) tr = true -> countEv p tr = 0%nat.
Proof.
  unfold countEv, never. induction tr as [| e tr IH]; simpl; [reflexivity |].
  intros H. apply andb_true_iff in H as [He Ht].
  destruct (p e); [discriminate | auto].
Qed.

Lemma runTaskWork_emits P :
  (forall c, P (@EvCall TaskWorker c) = true) -> emitsOnly P runTaskWork.
Proof.
  intros H. unfold runTaskWork. emits; apply emitsOnly_call; apply H.
Qed.

Lemma restartSyscall_no_check : emitsOnly (never isInterruptedCheck) restartSyscall.
Proof. unfold restartSyscall. emits. Qed.

Lemma runApp_body_no_driver_event :
  emitsOnly (never isDriverEvent) runApp_body.
Proof.
  unfold runApp_body, checkInterrupted, runTaskWork, restartSyscall,
    restoreSignalMask, applyRseq, resumeApp, enableSinglestep, switchToApp,
    handleSwitchResult, contextSignal, deliverSignal.
  emits.
Qed.

(** With nothing pending and no task work queued, the blocks after the
    first two find the task as it entered. *)
Lemma beforeRestart_idle (t : Task World TaskWorker) :
  interrupted t = false -> taskWorkCount t <= 0 ->
  beforeRestart t = (Next tt, t, [EvInterrupted false]).
Proof.
  intros Hi Hw. unfold beforeRestart.
  rewrite (bind_Next _ _ _ _ _ _ (checkInterrupted_false t Hi)).
  unfold runTaskWork, bind, gets.
  apply Z.ltb_ge in Hw. now rewrite Hw.
Qed.

Lemma beforeRestore_idle (t : Task World TaskWorker) :
  interrupted t = false -> taskWorkCount t <= 0 ->
  haveSyscallReturn t = false ->
  beforeRestore t = (Next tt, t, [EvInterrupted false]).
Proof.
  intros Hi Hw Hs. unfold beforeRestore.
  rewrite (bind_Next _ _ _ _ _ _ (beforeRestart_idle t Hi Hw)).
  unfold restartSyscall, bind, gets. now rewrite Hs.
Qed.

(** ** The interrupt check comes first *)

(** C2: a task that enters runApp with an interruption pending gets
    runInterrupt as its next state, and the check is all that happened: the
    task is unchanged and the trace holds no task work, no state pull, no
    restart, no signal-mask call and no switch. *)
Theorem runApp_interrupted_returns_runInterrupt (R : Type)
    (t : Task World TaskWorker) :
  interrupted t = true ->
  @runApp_execute _ _ K R t
  = (Next (Some runInterrupt), t, [EvInterrupted true]).
Proof.
  intros H. unfold runApp_execute, sub, runApp_body.
  rewrite (bind_Return _ _ _ _ _ _ (checkInterrupted_true t H)).
  reflexivity.
Qed.

(** ** Restarting the interrupted system call *)

Lemma restartSyscall_restarts t1 t2 sre :
  haveSyscallReturn t1 = true ->
  PullFullState t1 = (None, t2) ->
  SyscallRestartErrorFromReturn (Arch_Return t2) = Some sre ->
  let how := if sre =? ERESTART_RESTARTBLOCK
             then RestartSyscallWithRestartBlock else RestartSyscall in
  let msg := if sre =? ERESTART_RESTARTBLOCK
             then RestartingWithRestartBlock (Arch_SyscallNo t2)
             else Restarting (Arch_SyscallNo t2) in
  restartSyscall t1
  = (Next tt,
     set_haveSyscallReturn false (exec how (exec (Debugf msg) t2)),
     [EvPullFullState None; EvCall (Debugf msg); EvCall how]).
Proof.
  intros Hh Hp Hs. cbv zeta.
  unfold restartSyscall, bind, gets, invoke, call, modify.
  rewrite Hh, Hp, Hs.
  destruct (sre =? ERESTART_RESTARTBLOCK); reflexivity.
Qed.

(** C3: when the haveSyscallReturn block is reached with the flag set, the
    state pull succeeds and the pulled return value encodes a restart error
    [sre], the block calls RestartSyscallWithRestartBlock on the arch
    context if [sre] is ERESTART_RESTARTBLOCK and RestartSyscall for any
    other restart error, then clears haveSyscallReturn; runApp.execute goes
    on from there with the signal-mask block. *)
Theorem runApp_restarts_syscall (R : Type) (t t1 t2 : Task World TaskWorker)
    tr1 sre :
  beforeRestart t = (Next tt, t1, tr1) ->
  haveSyscallReturn t1 = true ->
  PullFullState t1 = (None, t2) ->
  SyscallRestartErrorFromReturn (Arch_Return t2) = Some sre ->
  let how := if sre =? ERESTART_RESTARTBLOCK
             then RestartSyscallWithRestartBlock else RestartSyscall in
  let msg := if sre =? ERESTART_RESTARTBLOCK
             then RestartingWithRestartBlock (Arch_SyscallNo t2)
             else Restarting (Arch_SyscallNo t2) in
  let t3 := set_haveSyscallReturn false (exec how (exec (Debugf msg) t2)) in
  restartSyscall t1
  = (Next tt, t3, [EvPullFullState None; EvCall (Debugf msg); EvCall how])
  /\ haveSyscallReturn t3 = false
  /\ runApp_execute (R := R) t
     = prepend (tr1 ++ [EvPullFullState None; EvCall (Debugf msg); EvCall how])
         (sub (restoreSignalMask ;; applyRseq ;; resumeApp) t3).
Proof.
  intros Hpre Hh Hp Hs how msg t3.
  pose proof (restartSyscall_restarts t1 t2 sre Hh Hp Hs) as Hr.
  cbv zeta in Hr. fold how msg t3 in Hr.
  split; [exact Hr | split; [reflexivity |]].
  unfold runApp_execute, sub.
  rewrite runApp_body_from_restart.
  rewrite (bind_Next _ _ _ _ _ _ Hpre).
  rewrite (bind_Next _ _ _ _ _ _ Hr).
  rewrite prepend_prepend, returned_prepend.
  reflexivity.
Qed.

(** ** Restoring the saved signal mask *)

Lemma beforeRestart_trace t t1 tr1 :
  beforeRestart t = (Next tt, t1, tr1) ->
  interrupted t = false
  /\ exists tr', tr1 = EvInterrupted false :: tr'
                 /\ runTaskWork t = (Next tt, t1, tr').
Proof.
  unfold beforeRestart. intros H.
  destruct (interrupted t) eqn:Hi.
  - rewrite (bind_Return _ _ _ _ _ _ (checkInterrupted_true t Hi)) in H.
    discriminate.
  - split; [reflexivity |].
    rewrite (bind_Next _ _ _ _ _ _ (checkInterrupted_false t Hi)) in H.
    destruct (runTaskWork t) as [[r t'] tr'] eqn:Hw. simpl in H.
    injection H as -> -> <-. now exists tr'.
Qed.

Lemma beforeRestore_one_check t t3 tr3 :
  beforeRestore t = (Next tt, t3, tr3) ->
  exists tr', tr3 = EvInterrupted false :: tr'
              /\ countEv isInterruptedCheck tr' = 0%nat.
Proof.
  unfold beforeRestore. intros H.
  destruct (beforeRestart t) as [[[[] | r | h] t1] tr1] eqn:Hb;
    [| rewrite (bind_Return _ _ _ _ _ _ Hb) in H; discriminate
     | rewrite (bind_Halted _ _ _ _ _ _ Hb) in H; discriminate].
  rewrite (bind_Next _ _ _ _ _ _ Hb) in H.
  destruct (beforeRestart_trace _ _ _ Hb) as (_ & tr' & -> & Hw).
  pose proof (restartSyscall_no_check t1) as Hr.
  destruct (restartSyscall t1) as [[r t'] tr''] eqn:Hrs.
  simpl in H. injection H as -> -> <-.
  exists (tr' ++ tr''). split; [reflexivity |].
  rewrite countEv_app.
  rewrite (countEv_never _ tr''); [| exact Hr].
  rewrite (countEv_never _ tr'); [reflexivity |].
  pose proof (runTaskWork_emits (never isInterruptedCheck)
                (fun c => eq_refl) t) as Ht.
  now rewrite Hw in Ht.
Qed.

Lemma restoreSignalMask_restores t3 :
  haveSavedSignalMask t3 = true ->
  let mask := savedSignalMask t3 in
  let t4 := set_haveSavedSignalMask false (exec (SetSignalMask mask) t3) in
  restoreSignalMask t3
  = (if interrupted t4 then Return (Some runInterrupt) else Next tt,
     t4, [EvCall (SetSignalMask mask); EvInterrupted (interrupted t4)]).
Proof.
  intros Hh. cbv zeta.
  unfold restoreSignalMask, bind, gets, call, modify, observe.
  rewrite Hh.
  destruct (interrupted (set_haveSavedSignalMask false
                           (exec (SetSignalMask (savedSignalMask t3)) t3)));
    reflexivity.
Qed.

(** C4: when the signal-mask block is reached with a saved mask [mask],
    the only signal check made so far on this entry is the one at the top
    (it found nothing); the block calls SetSignalMask with [mask], clears
    haveSavedSignalMask and checks for an interruption again.  If that check
    finds one, runApp.execute returns runInterrupt with nothing after the
    check in its trace (no rseq step, no switch); otherwise it goes on with
    the rseq block. *)
Theorem runApp_restores_saved_mask (R : Type) (t t3 : Task World TaskWorker)
    tr3 :
  beforeRestore t = (Next tt, t3, tr3) ->
  haveSavedSignalMask t3 = true ->
  let mask := savedSignalMask t3 in
  let t4 := set_haveSavedSignalMask false (exec (SetSignalMask mask) t3) in
  (exists tr', tr3 = EvInterrupted false :: tr'
               /\ countEv isInterruptedCheck tr' = 0%nat)
  /\ (interrupted t4 = true ->
      runApp_execute (R := R) t
      = (Next (Some runInterrupt), t4,
         tr3 ++ [EvCall (SetSignalMask mask); EvInterrupted true]))
  /\ (interrupted t4 = false ->
      runApp_execute (R := R) t
      = prepend (tr3 ++ [EvCall (SetSignalMask mask); EvInterrupted false])
          (sub (applyRseq ;; resumeApp) t4)).
Proof.
  intros Hpre Hh mask t4.
  pose proof (restoreSignalMask_restores t3 Hh) as Hr.
  cbv zeta in Hr. fold mask t4 in Hr.
  split; [exact (beforeRestore_one_check _ _ _ Hpre) |].
  unfold runApp_execute, sub.
  rewrite runApp_body_from_restore.
  rewrite (bind_Next _ _ _ _ _ _ Hpre).
  split; intros Hi; rewrite Hi in Hr.
  - rewrite (bind_Return _ _ _ _ _ _ Hr). reflexivity.
  - rewrite (bind_Next _ _ _ _ _ _ Hr).
    rewrite prepend_prepend, returned_prepend. reflexivity.
Qed.

(** ** The run loop, one iteration at a time *)

Lemma traceOf_bind {R A B : Type} (m : @M World TaskWorker R A)
    (f : A -> @M World TaskWorker R B) t :
  traceOf (bind m f t)
  = traceOf (m t)
    ++ match resultOf (m t) with
       | Next a => traceOf (f a (stateOf (m t)))
       | _ => []
       end.
Proof.
  unfold bind, traceOf, resultOf, stateOf.
  destruct (m t) as [[[a | r | h] t1] tr1]; simpl;
    try now rewrite app_nil_r.
  now destruct (f a t1) as [[r t2] tr2].
Qed.

Lemma returned_not_Return {R R' : Type}
    (r : Res R R * Task World TaskWorker * list (Event TaskWorker)) x t tr :
  @returned _ _ R R' r <> (Return x, t, tr).
Proof. destruct r as [[[a | y | h] t1] tr1]; simpl; discriminate. Qed.

Lemma forallb_weaken {A : Type} (P Q : A -> bool) l :
  (forall a, P a = true -> Q a = true) ->
  forallb P l = true -> forallb Q l = true.
Proof.
  intros H. induction l as [| a l IH]; simpl; [reflexivity |].
  intros Hl. apply andb_true_iff in Hl as [Ha Hl].
  now rewrite (H _ Ha), IH.
Qed.

Lemma execute_shape {R : Type} s (t : Task World TaskWorker) :
  exists r t2 tr2,
    execute (R := R) s t = (r, t2, EvExecute s :: tr2)
    /\ forallb (never isDriverEvent) tr2 = true
    /\ (forall x, r <> Return x).
Proof.
  unfold execute, bind, emit.
  destruct s.
  - pose proof (runApp_body_no_driver_event t) as He.
    unfold runApp_execute, sub.
    destruct (runApp_body t) as [[[a | x | h] t2] tr2]; simpl;
      eexists _, _, _; (split; [reflexivity | split; [exact He | discriminate]]).
  - unfold lift. destruct (execute_other runInterrupt t) as [a t2].
    eexists _, _, _; (split; [reflexivity | split; [reflexivity | discriminate]]).
  - unfold lift. destruct (execute_other runExit t) as [a t2].
    eexists _, _, _; (split; [reflexivity | split; [reflexivity | discriminate]]).
  - unfold lift. destruct (execute_other (runOther id) t) as [a t2].
    eexists _, _, _; (split; [reflexivity | split; [reflexivity | discriminate]]).
Qed.

Lemma teardown_run (t : Task World TaskWorker) :
  exists t1 tr,
    (teardown ;; return_ (A := unit) tt) t = (Return tt, t1, tr)
    /\ countEv isLiveTasksDec tr = 1%nat
    /\ forallb (never isTransition) tr = true
    /\ forallb (never isPullFullState) tr = true
    /\ forallb (never touchesGate) tr = true.
Proof.
  unfold teardown, bind, call, emit, modify, gets, return_, ret. simpl.
  match goal with |- context [if ?b then _ else _] => destruct b end; simpl;
    eexists _, _; repeat split; reflexivity.
Qed.

(** The exit sequence in full: the decrement takes the count that it finds
    under the task set's mutex to one less, wrapping at zero. *)
Lemma teardown_left (x : Task World TaskWorker) :
  (teardown ;; return_ (A := unit) tt) x
  = (Return tt, teardownLeft x, teardownTrace (teardownCount x)).
Proof.
  unfold teardown, teardownLeft, teardownTrace, teardownCount, teardownLocked,
    bind, call, update, modify, gets, return_, ret.
  cbn [liveTasks set_liveTasks].
  destruct (uint32 _ =? 0); reflexivity.
Qed.

(** One iteration of the loop of [Task.run]. *)
Lemma runLoop_S waits f (t : Task World TaskWorker) :
  runLoop waits (S f) t
  = match sub (doStop waits) t with
    | (Next _, t1, tr1) => afterStop waits f tr1 t1
    | (Return r, t1, tr1) => (Return r, t1, tr1)
    | (Halted h, t1, tr1) => (Halted h, t1, tr1)
    end.
Proof.
  cbn [runLoop]. unfold bind at 1.
  destruct (sub (doStop waits) t) as [[[a | r | h] t1] tr1]; try reflexivity.
  unfold afterStop. unfold bind at 1. unfold gets at 1. cbn [app].
  destruct (runState t1) as [s |]; [| unfold halt; now rewrite app_nil_r].
  unfold bind at 1.
  destruct (execute s t1) as [[[next | r | h] t2] tr2]; try reflexivity.
  unfold bind at 1. unfold modify at 1. cbn [app].
  destruct next as [s' |].
  - destruct (runLoop waits f (set_runState (Some s') t2)) as [[r t3] tr3].
    simpl. now rewrite app_assoc.
  - destruct ((teardown ;; return_ (A := unit) tt) (set_runState None t2)) as [[r t3] tr3].
    simpl. now rewrite app_assoc.
Qed.

Lemma awaitEndStop_emits waits :
  emitsOnly (never isTransition) (awaitEndStop waits)
  /\ emitsOnly (never isPullFullState) (awaitEndStop waits)
  /\ emitsOnly (never isLiveTasksDec) (awaitEndStop waits).
Proof.
  induction waits as [| w (IH1 & IH2 & IH3)]; cbn [awaitEndStop];
    repeat split; emits; assumption.
Qed.

Lemma doStop_emits waits :
  emitsOnly (never isTransition) (doStop waits)
  /\ emitsOnly (never isPullFullState) (doStop waits)
  /\ emitsOnly (never isLiveTasksDec) (doStop waits).
Proof.
  destruct (awaitEndStop_emits waits) as (H1 & H2 & H3).
  unfold doStop. repeat split; emits; assumption.
Qed.

(** ** The stop gate *)

Lemma stopGated_skip open c l (tr rest : list (Event TaskWorker)) :
  forallb (never touchesGate) tr = true ->
  stopGated open c l (tr ++ rest) = stopGated open c l rest.
Proof.
  induction tr as [| e tr IH]; simpl; [reflexivity |].
  intros H. apply andb_true_iff in H as [He Ht].
  destruct e; try discriminate He; auto.
Qed.

Lemma stopGated_inside open l (tr rest : list (Event TaskWorker)) :
  gateOpen open l = true ->
  forallb (never isDriverEvent) tr = true ->
  stopGated open 0 l (tr ++ rest) = stopGated open 0 l rest.
Proof.
  intros Hl. induction tr as [| e tr IH]; simpl; [reflexivity |].
  intros H. apply andb_true_iff in H as [He Ht].
  destruct e; try discriminate He; auto.
  rewrite Hl. simpl. auto.
Qed.

Lemma stopGated_no_transition open c l (tr : list (Event TaskWorker)) :
  forallb (never isTransition) tr = true ->
  stopGated open c l tr = true.
Proof.
  revert c l. induction tr as [| e tr IH]; simpl; [reflexivity |].
  intros c l H. apply andb_true_iff in H as [He Ht].
  destruct e; try discriminate He; auto.
Qed.

Lemma awaitEndStop_gate waits (t t1 : Task World TaskWorker) r tr :
  awaitEndStop waits t = (r, t1, tr) ->
  (forall h, r <> Halted h) ->
  exists v, v <= 0
    /\ forall open c l rest,
         stopGated open c l (tr ++ rest) = stopGated open c (Some v) rest.
Proof.
  revert t t1 r tr. induction waits as [| w IH]; intros t t1 r tr;
    cbn [awaitEndStop]; unfold bind at 1; unfold observe at 1;
    destruct (0 <? stopCount t) eqn:Hv.
  - unfold halt. intros H Hr. injection H as <- _ _. now elim (Hr Parked).
  - unfold ret. intros H _. injection H as _ _ <-.
    exists (stopCount t). split; [now apply Z.ltb_ge |].
    reflexivity.
  - unfold bind at 1. unfold call at 1.
    destruct (awaitEndStop w (exec endStopCond_Wait t)) as [[r' t'] tr'] eqn:Hw.
    intros H Hr. injection H as <- _ <-.
    destruct (IH _ _ _ _ Hw Hr) as (v & Hv' & Hg).
    exists v. split; [exact Hv' |]. intros open c l rest.
    simpl. apply Hg.
  - unfold ret. intros H _. injection H as _ _ <-.
    exists (stopCount t). split; [now apply Z.ltb_ge |].
    reflexivity.
Qed.

Lemma doStop_gate waits (t t1 : Task World TaskWorker) r tr :
  doStop waits t = (r, t1, tr) ->
  (forall h, r <> Halted h) ->
  exists v, v <= 0
    /\ forall open l rest,
         stopGated open 0 l (tr ++ rest) = stopGated open 1 (Some v) rest.
Proof.
  unfold doStop. unfold bind at 1. unfold observe at 1.
  destruct (stopCount t =? 0) eqn:Hz.
  - unfold return_. intros H _. injection H as _ _ <-.
    apply Z.eqb_eq in Hz. exists (stopCount t). split; [lia | reflexivity].
  - repeat (unfold bind at 1; unfold call at 1).
    set (t' := exec (goroutineStopped_Add (-1)) _).
    destruct (awaitEndStop waits t') as [[[[] | x | h] t2] tr2] eqn:Hw;
      intros H Hr; simpl in H; injection H as <- _ <-;
      try (now elim (Hr h)).
    + destruct (awaitEndStop_gate _ _ _ _ _ Hw) as (v & Hv & Hg);
        [discriminate |].
      exists v. split; [exact Hv |]. intros open l rest. simpl.
      rewrite <- app_assoc. rewrite Hg. reflexivity.
    + destruct (awaitEndStop_gate _ _ _ _ _ Hw) as (v & Hv & Hg);
        [discriminate |].
      exists v. split; [exact Hv |]. intros open l rest. simpl.
      rewrite Hg. reflexivity.
Qed.

Lemma touchesGate_isTransition (e : Event TaskWorker) :
  never touchesGate e = true -> never isTransition e = true.
Proof. destruct e; simpl; auto. Qed.

Lemma stopGated_rest open c l (rest : list (Event TaskWorker)) :
  forallb (never touchesGate) rest = true -> stopGated open c l rest = true.
Proof.
  intros H. apply stopGated_no_transition.
  exact (forallb_weaken _ _ _ touchesGate_isTransition H).
Qed.

Lemma runLoop_gated waits fuel (t : Task World TaskWorker) l rest :
  forallb (never touchesGate) rest = true ->
  stopGated (fun v => v <=? 0) 0 l (traceOf (runLoop waits fuel t) ++ rest)
  = true.
Proof.
  intros Hrest. revert t l. induction fuel as [| f IH]; intros t l.
  - unfold traceOf; simpl. now apply stopGated_rest.
  - rewrite runLoop_S. unfold sub.
    pose proof (proj1 (doStop_emits waits) t) as Hquiet.
    destruct (doStop waits t) as [[rs t1] tr1] eqn:Hs.
    unfold traceOf in Hquiet; simpl in Hquiet.
    assert (Hhalt : stopGated (fun v => v <=? 0) 0 l (tr1 ++ rest) = true).
    { apply stopGated_no_transition. rewrite forallb_app, Hquiet. simpl.
      exact (forallb_weaken _ _ _ touchesGate_isTransition Hrest). }
    assert (Hgo : (forall h, rs <> Halted h) ->
              stopGated (fun v => v <=? 0) 0 l
                (traceOf
                   (afterStop waits f tr1 t1) ++ rest) = true).
    { intros Hnh. unfold afterStop.
      destruct (doStop_gate _ _ _ _ _ Hs Hnh) as (v & Hv & Hg).
      destruct (runState t1) as [s |]; [| exact Hhalt].
      destruct (execute_shape (R := unit) s t1)
        as (r & t2 & tr2 & He & Hq & Hnr).
      rewrite He. apply Z.leb_le in Hv.
      assert (Hin : forall more,
                 stopGated (fun v => v <=? 0) 0 l
                   ((tr1 ++ EvExecute s :: tr2) ++ more)
                 = stopGated (fun v => v <=? 0) 0 (Some v) more).
      { intros more. rewrite <- app_assoc, Hg. simpl. rewrite Hv. simpl.
        apply stopGated_inside; [exact Hv | exact Hq]. }
      destruct r as [[s' |] | x | h].
      - rewrite traceOf_prepend, <- app_assoc, Hin. apply IH.
      - destruct (teardown_run (set_runState None t2))
          as (t3 & tr3 & Ht & _ & _ & _ & Hg3).
        rewrite Ht. unfold traceOf; simpl.
        rewrite <- app_assoc, Hin.
        apply stopGated_rest. now rewrite forallb_app, Hg3, Hrest.
      - now elim (Hnr x).
      - unfold traceOf; simpl. rewrite Hin. now apply stopGated_rest. }
    destruct rs as [[] | [] | h]; cbn [returned].
    + apply Hgo; discriminate.
    + apply Hgo; discriminate.
    + exact Hhalt.
Qed.

Lemma gateOpen_zero l :
  match l with Some v => 0 <= v | None => True end ->
  gateOpen (fun v => v <=? 0) l = true -> gateOpen (fun v => v =? 0) l = true.
Proof.
  destruct l as [v |]; simpl; [| discriminate].
  intros H0 H1. apply Z.leb_le in H1. apply Z.eqb_eq. lia.
Qed.

Lemma stopGated_zero c l (tr : list (Event TaskWorker)) :
  forallb stopCountReadsNonNegative tr = true ->
  match l with Some v => 0 <= v | None => True end ->
  stopGated (fun v => v <=? 0) c l tr = true ->
  stopGated (fun v => v =? 0) c l tr = true.
Proof.
  revert c l. induction tr as [| e tr IH]; intros c l; simpl; [reflexivity |].
  intros H Hl. apply andb_true_iff in H as [He Ht].
  destruct e; simpl in He; try (apply IH; assumption).
  - apply IH; [assumption | now apply Z.leb_le].
  - apply IH; [assumption | now apply Z.leb_le].
  - intros Hg. apply andb_true_iff in Hg as [Hg Hr].
    apply andb_true_iff in Hg as [Hc Ho].
    rewrite Hc, (gateOpen_zero l Hl Ho). simpl. now apply IH.
  - intros Hg. apply andb_true_iff in Hg as [Hg Hr].
    apply andb_true_iff in Hg as [Hc Ho].
    rewrite Hc, (gateOpen_zero l Hl Ho). simpl. now apply IH.
Qed.

Lemma run_unfold waits fuel (t : Task World TaskWorker) :
  run waits fuel t
  = match runLoop waits fuel (loopEntry t) with
    | (Halted h, t1, tr) =>
        if unwinds h
        then (Halted h, exec CleanupSync_Done (exec blockingTimer_Destroy t1),
              startTrace
              ++ tr ++ [EvCall blockingTimer_Destroy; EvCall CleanupSync_Done])
        else (Halted h, t1, startTrace ++ tr)
    | (_, t1, tr) =>
        (Next tt, exec CleanupSync_Done (exec blockingTimer_Destroy t1),
         startTrace ++ tr ++ [EvCall blockingTimer_Destroy; EvCall CleanupSync_Done])
    end.
Proof.
  unfold run, startTask, loopEntry, startTrace.
  unfold deferred, bind, modify, call, sub, returned. simpl.
  match goal with |- context [runLoop waits fuel ?x] =>
    destruct (runLoop waits fuel x) as [[[[] | [] | []] t1] tr] end;
    simpl; reflexivity.
Qed.

Lemma awaitEndStop_parked waits (t : Task World TaskWorker) :
  (forall n, (n <= waits)%nat ->
             0 < stopCount (Nat.iter n (exec endStopCond_Wait) t)) ->
  exists t1 tr, awaitEndStop waits t = (Halted Parked, t1, tr).
Proof.
  revert t. induction waits as [| w IH]; intros t H;
    cbn [awaitEndStop]; unfold bind at 1; unfold observe at 1;
    (assert (Hv : (0 <? stopCount t) = true)
      by (apply Z.ltb_lt; apply (H 0%nat); lia)); rewrite Hv.
  - unfold halt. now eexists _, _.
  - unfold bind at 1. unfold call at 1.
    destruct (IH (exec endStopCond_Wait t)) as (t1 & tr & ->).
    + intros n Hn. rewrite <- Nat.iter_succ_r. apply H. lia.
    + now eexists _, _.
Qed.

Lemma doStop_parked waits (t : Task World TaskWorker) :
  stopCount t <> 0 ->
  (forall n, (n <= waits)%nat ->
             stopCount (afterWaits n t) <> 0 /\ 0 <= stopCount (afterWaits n t)) ->
  exists t1 tr, doStop waits t = (Halted Parked, t1, tr).
Proof.
  intros Hz H. unfold doStop. unfold bind at 1. unfold observe at 1.
  apply Z.eqb_neq in Hz. rewrite Hz.
  repeat (unfold bind at 1; unfold call at 1).
  destruct (awaitEndStop_parked waits (stopEntered t)) as (t1 & tr & Hw).
  - intros n Hn. destruct (H n Hn) as [H1 H2]. unfold afterWaits in *. lia.
  - unfold stopEntered in Hw. rewrite Hw. now eexists _, _.
Qed.

(** ** Stops come before transitions *)

(** C1: in every run of the task goroutine, each transition of the state
    machine, the first one included, comes after exactly one stop-gate
    check made since the previous transition, and the last value that the
    gate read from the stop count was not positive -- it was zero, given the
    data model's invariant that the stop count is never negative; a switch
    into the application happens only inside such a transition.  At the top
    of any iteration, a stop count of zero lets the gate return at once,
    and a stop count that is nonzero and stays so parks the goroutine in the
    gate with no transition and no switch. *)
Theorem run_checks_stop_before_every_transition waits fuel
    (t t' : Task World TaskWorker) f :
  let r := run waits fuel t in
  let loop := runLoop waits (S f) t' in
  stopGated (fun v => v <=? 0) 0 None (traceOf r) = true
  /\ (forallb stopCountReadsNonNegative (traceOf r) = true ->
      stopGated (fun v => v =? 0) 0 None (traceOf r) = true)
  /\ (stopCount t' = 0 ->
      doStop waits t' = (Return tt, t', [EvStopCountLoad 0]))
  /\ (stopCount t' <> 0 ->
      (forall n, (n <= waits)%nat ->
         stopCount (afterWaits n t') <> 0 /\ 0 <= stopCount (afterWaits n t')) ->
      resultOf loop = Halted Parked
      /\ countEv isTransition (traceOf loop) = 0%nat).
Proof.
  intros r loop.
  assert (Hmon : stopGated (fun v => v <=? 0) 0 None (traceOf r) = true).
  { unfold r. rewrite run_unfold.
    pose proof (runLoop_gated waits fuel (loopEntry t) None) as Hg.
    unfold traceOf in *.
    destruct (runLoop waits fuel (loopEntry t)) as [[[[] | [] | []] t1] tr];
      simpl in *.
    - apply (Hg [_; _]). reflexivity.
    - apply (Hg [_; _]). reflexivity.
    - specialize (Hg [] eq_refl). now rewrite app_nil_r in Hg.
    - specialize (Hg [] eq_refl). now rewrite app_nil_r in Hg.
    - apply (Hg [_; _]). reflexivity. }
  split; [exact Hmon |].
  split; [intros Hnn; now apply stopGated_zero |].
  split.
  - intros Hz. unfold doStop, bind, observe. rewrite Hz. reflexivity.
  - intros Hz Hstay.
    destruct (doStop_parked waits t' Hz Hstay) as (t1 & tr & Hd).
    pose proof (proj1 (doStop_emits waits) t') as Hq.
    unfold loop. rewrite runLoop_S. unfold sub. rewrite Hd in *.
    simpl. split; [reflexivity |]. now apply countEv_never.
Qed.

(** ** A failed state pull ends the task *)

Lemma restartSyscall_pull_fails (t1 t2 : Task World TaskWorker) e :
  haveSyscallReturn t1 = true ->
  PullFullState t1 = (Some e, t2) ->
  let ws := WaitStatusExit (int32 (ExtractErrno e (-1))) in
  restartSyscall t1
  = (Return (Some runExit),
     exec (PrepareExit ws) (exec (Warningf (UnablePullFullState e)) t2),
     [EvPullFullState (Some e); EvCall (Warningf (UnablePullFullState e));
      EvCall (PrepareExit ws)]).
Proof.
  intros Hh Hp. cbv zeta.
  unfold restartSyscall, bind, gets, invoke, call, return_.
  now rewrite Hh, Hp.
Qed.

Lemma beforeRestart_emits P :
  (forall c, P (@EvCall TaskWorker c) = true) ->
  (forall b, P (@EvInterrupted TaskWorker b) = true) ->
  emitsOnly P beforeRestart.
Proof.
  intros Hc Hi. unfold beforeRestart, checkInterrupted.
  apply emitsOnly_bind; [| intros _; now apply runTaskWork_emits].
  apply emitsOnly_bind; [now apply emitsOnly_observe |].
  intros []; emits.
Qed.

Lemma runLoop_teardown_once waits fuel (t : Task World TaskWorker) :
  countEv isLiveTasksDec (traceOf (runLoop waits fuel t))
  = match resultOf (runLoop waits fuel t) with
    | Return _ => 1%nat
    | _ => 0%nat
    end.
Proof.
  revert t. induction fuel as [| f IH]; intros t; [reflexivity |].
  rewrite runLoop_S. unfold sub.
  pose proof (proj2 (proj2 (doStop_emits waits)) t) as Hquiet.
  destruct (doStop waits t) as [[rs t1] tr1].
  unfold traceOf in Hquiet; simpl in Hquiet.
  apply countEv_never in Hquiet.
  assert (Hgo : forall rest,
             countEv isLiveTasksDec (tr1 ++ rest)
             = countEv isLiveTasksDec rest)
    by (intros; now rewrite countEv_app, Hquiet).
  assert (Hnext :
    countEv isLiveTasksDec
      (traceOf
         (afterStop waits f tr1 t1))
    = match
        resultOf
          (afterStop waits f tr1 t1)
      with
      | Return _ => 1%nat
      | _ => 0%nat
      end).
  { unfold afterStop. destruct (runState t1) as [s |];
      [| unfold traceOf, resultOf; simpl; now rewrite <- (app_nil_r tr1), Hgo].
    destruct (execute_shape (R := unit) s t1)
      as (r & t2 & tr2 & He & Hq & Hnr).
    rewrite He.
    assert (Hq' : countEv isLiveTasksDec (EvExecute s :: tr2) = 0%nat).
    { apply countEv_never. simpl.
      apply (forallb_weaken (never isDriverEvent)); [| exact Hq].
      intros []; simpl; auto. }
    destruct r as [[s' |] | x | h].
    - rewrite traceOf_prepend, resultOf_prepend, <- app_assoc, Hgo,
        countEv_app, Hq'. apply IH.
    - destruct (teardown_run (set_runState None t2))
        as (t3 & tr3 & Ht & Hc & _).
      rewrite Ht. unfold traceOf, resultOf; simpl.
      now rewrite <- app_assoc, Hgo, countEv_app, Hq', Hc.
    - now elim (Hnr x).
    - unfold traceOf, resultOf; simpl. now rewrite Hgo. }
  destruct rs as [[] | [] | h]; cbn [returned]; try exact Hnext.
  unfold traceOf, resultOf; simpl. now rewrite <- (app_nil_r tr1), Hgo.
Qed.

Lemma awaitEndStop_runState waits (t t1 : Task World TaskWorker) r tr :
  (forall c t, runState (exec c t) = runState t) ->
  awaitEndStop waits t = (r, t1, tr) -> runState t1 = runState t.
Proof.
  intros Hf. revert t t1 r tr.
  induction waits as [| w IH]; intros t t1 r tr;
    cbn [awaitEndStop]; unfold bind at 1; unfold observe at 1;
    destruct (0 <? stopCount t).
  - unfold halt. now intros [= _ <- _].
  - unfold ret. now intros [= _ <- _].
  - unfold bind at 1. unfold call at 1.
    destruct (awaitEndStop w (exec endStopCond_Wait t)) as [[r' t'] tr'] eqn:Hw.
    intros [= _ <- _]. now rewrite (IH _ _ _ _ Hw), Hf.
  - unfold ret. now intros [= _ <- _].
Qed.

Lemma doStop_runState waits (t t1 : Task World TaskWorker) r tr :
  (forall c t, runState (exec c t) = runState t) ->
  doStop waits t = (r, t1, tr) -> runState t1 = runState t.
Proof.
  intros Hf. unfold doStop. unfold bind at 1. unfold observe at 1.
  destruct (stopCount t =? 0).
  - unfold return_. now intros [= _ <- _].
  - repeat (unfold bind at 1; unfold call at 1).
    set (t' := exec (goroutineStopped_Add (-1)) _).
    assert (Ht' : runState t' = runState t)
      by (unfold t'; now rewrite !Hf).
    destruct (awaitEndStop waits t') as [[[[] | x | h] t2] tr2] eqn:Hw;
      apply (awaitEndStop_runState _ _ _ _ _ Hf) in Hw;
      simpl; intros [= _ <- _]; rewrite ?Hf; congruence.
Qed.

Lemma runLoop_exiting waits fuel exiting (t : Task World TaskWorker) s :
  exitPath exiting ->
  runState t = Some s -> exiting s = true ->
  forallb (never isSwitch) (traceOf (runLoop waits fuel t)) = true
  /\ forallb (never isPullFullState) (traceOf (runLoop waits fuel t)) = true.
Proof.
  intros (Hexit & Happ & Hclosed & Hframe).
  revert t s. induction fuel as [| f IH]; intros t s Hs Hx;
    [split; reflexivity |].
  rewrite runLoop_S. unfold sub.
  destruct (doStop_emits waits) as (Hq1 & Hq2 & _).
  specialize (Hq1 t). specialize (Hq2 t).
  destruct (doStop waits t) as [[rs t1] tr1] eqn:Hd.
  apply doStop_runState in Hd; [| exact Hframe].
  unfold traceOf in Hq1, Hq2; simpl in Hq1, Hq2.
  assert (Hq1' : forallb (never isSwitch) tr1 = true).
  { apply (forallb_weaken (never isTransition)); [| exact Hq1].
    intros []; simpl; auto. }
  assert (Hnext :
    forallb (never isSwitch)
      (traceOf
         (afterStop waits f tr1 t1)) = true
    /\ forallb (never isPullFullState)
      (traceOf
         (afterStop waits f tr1 t1)) = true).
  { unfold afterStop. rewrite Hd, Hs.
    assert (He : execute (R := unit) s t1
                 = match execute_other s t1 with
                   | (a, t2) => (Next a, t2, [EvExecute s])
                   end).
    { unfold execute, bind, emit, lift.
      destruct s; [congruence | | |]; now destruct (execute_other _ t1). }
    rewrite He. destruct (execute_other s t1) as [[s' |] t2] eqn:Ho.
    - rewrite traceOf_prepend, !forallb_app, Hq1', Hq2. simpl.
      apply (IH (set_runState (Some s') t2) s'); [reflexivity |].
      exact (Hclosed _ _ _ _ Hx Ho).
    - destruct (teardown_run (set_runState None t2))
        as (t3 & tr3 & Ht & _ & Htr & Hpl & _).
      rewrite Ht. unfold traceOf; simpl.
      rewrite !forallb_app, Hq1', Hq2, Hpl. simpl. split; [| reflexivity].
      apply (forallb_weaken (never isTransition)); [| exact Htr].
      intros []; simpl; auto. }
  destruct rs as [[] | [] | h]; cbn [returned]; try exact Hnext.
  unfold traceOf; simpl. now split.
Qed.

Lemma runLoop_exit_returns waits fuel exiting inv rank
    (t : Task World TaskWorker) s :
  exitPath exiting -> exitPathEnds exiting inv rank ->
  runState t = Some s -> exiting s = true -> inv t ->
  (rank s < fuel)%nat ->
  resultOf (runLoop waits fuel t) = Return tt.
Proof.
  intros (_ & Happ & Hclosed & _) Hends.
  revert t s. induction fuel as [| f IH]; intros t s Hs Hx Hi Hr; [lia |].
  destruct (Hends s t Hx Hs Hi) as [Hz Hstep].
  rewrite runLoop_S.
  unfold sub, doStop, bind at 1, observe. rewrite Hz.
  cbn [Z.eqb returned return_]. unfold afterStop. rewrite Hs.
  assert (He : execute (R := unit) s t
               = match execute_other s t with
                 | (a, t2) => (Next a, t2, [EvExecute s])
                 end).
  { unfold execute, bind, emit, lift.
    destruct s; [congruence | | |]; now destruct (execute_other _ t). }
  rewrite He. destruct (execute_other s t) as [[s' |] t2] eqn:Ho.
  - rewrite resultOf_prepend. destruct Hstep as [Hlt Hi'].
    apply (IH _ s'); [reflexivity | exact (Hclosed _ _ _ _ Hx Ho) | exact Hi' | lia].
  - destruct (teardown_run (set_runState None t2)) as (t3 & tr3 & Ht & _).
    now rewrite Ht.
Qed.

Lemma countEv_cons p e (tr : list (Event TaskWorker)) :
  countEv p (e :: tr) = ((if p e then 1 else 0) + countEv p tr)%nat.
Proof. unfold countEv. simpl. now destruct (p e). Qed.

(** A loop that returns has gone through the exit sequence, once, at its
    very end. *)
Lemma runLoop_return_shape waits fuel (t : Task World TaskWorker) :
  match runLoop waits fuel t with
  | (Return _, t', tr) =>
      exists pre x,
        runState x = None
        /\ t' = teardownLeft x
        /\ tr = pre ++ teardownTrace (teardownCount x)
        /\ countEv isLiveTasksDec pre = 0%nat
  | _ => True
  end.
Proof.
  revert t. induction fuel as [| f IH]; intros t; [exact I |].
  rewrite runLoop_S. unfold sub.
  pose proof (proj2 (proj2 (doStop_emits waits)) t) as Hquiet.
  destruct (doStop waits t) as [[rs t1] tr1].
  unfold traceOf in Hquiet; simpl in Hquiet.
  apply countEv_never in Hquiet.
  assert (Hnext :
    match afterStop waits f tr1 t1 with
    | (Return _, t', tr) =>
        exists pre x,
          runState x = None
          /\ t' = teardownLeft x
          /\ tr = pre ++ teardownTrace (teardownCount x)
          /\ countEv isLiveTasksDec pre = 0%nat
    | _ => True
    end).
  { unfold afterStop. destruct (runState t1) as [s |]; [| exact I].
    destruct (execute_shape (R := unit) s t1)
      as (r & t2 & tr2 & He & Hq & Hnr).
    rewrite He.
    assert (Hq' : countEv isLiveTasksDec (EvExecute s :: tr2) = 0%nat).
    { apply countEv_never. simpl.
      apply (forallb_weaken (never isDriverEvent)); [| exact Hq].
      intros []; simpl; auto. }
    destruct r as [[s' |] | x | h].
    - specialize (IH (set_runState (Some s') t2)).
      destruct (runLoop waits f (set_runState (Some s') t2))
        as [[[[] | [] | h] t3] tr3]; cbn [prepend]; try exact I.
      destruct IH as (pre & x & Hx & -> & -> & Hc).
      exists ((tr1 ++ EvExecute s :: tr2) ++ pre), x.
      split; [exact Hx |]. split; [reflexivity |].
      split; [now rewrite app_assoc |].
      now rewrite !countEv_app, Hquiet, Hq', Hc.
    - rewrite teardown_left. cbn [prepend].
      exists (tr1 ++ EvExecute s :: tr2), (set_runState None t2).
      split; [reflexivity |]. split; [reflexivity |].
      split; [reflexivity |].
      now rewrite countEv_app, Hquiet, Hq'.
    - now elim (Hnr x).
    - exact I. }
  destruct rs as [[] | [] | h]; cbn [returned]; try exact Hnext.
  exact I.
Qed.

(** C5: when the haveSyscallReturn block is reached with the flag set and
    the state pull fails with [e], runApp.execute logs a warning, prepares an
    exit whose status is the errno of [e], and returns runExit; its trace ends
    there.  In the run loop, from that entry on: the pull stays the only one,
    no switch is made (the states of the exit path never lead back to
    runApp), and the live-task count is decremented at most once, exactly
    once when the goroutine returns; and it does return, given enough fuel,
    when the exit path ends.  The decrement is the one of the exit sequence:
    from any task [x] that sequence leaves [teardownLeft x], in which the
    count found under the task set's mutex has gone down by one (from zero
    to 2^32 - 1), and a loop that returns ends with that sequence, run from
    a task whose state is nil, with no decrement before it. *)
Theorem pull_failure_exits_task (R : Type) waits fuel exiting
    (t t1 t2 : Task World TaskWorker) tr1 e :
  exitPath exiting ->
  runState t = Some runApp ->
  stopCount t = 0 ->
  beforeRestart t = (Next tt, t1, tr1) ->
  haveSyscallReturn t1 = true ->
  PullFullState t1 = (Some e, t2) ->
  let ws := WaitStatusExit (int32 (ExtractErrno e (-1))) in
  let t3 := exec (PrepareExit ws) (exec (Warningf (UnablePullFullState e)) t2) in
  let loop := runLoop waits (S fuel) t in
  runApp_execute (R := R) t
  = (Next (Some runExit), t3,
     tr1 ++ [EvPullFullState (Some e);
             EvCall (Warningf (UnablePullFullState e));
             EvCall (PrepareExit ws)])
  /\ countEv isPullFullState (traceOf loop) = 1%nat
  /\ countEv isSwitch (traceOf loop) = 0%nat
  /\ (countEv isLiveTasksDec (traceOf loop) <= 1)%nat
  /\ (resultOf loop = Return tt ->
      countEv isLiveTasksDec (traceOf loop) = 1%nat)
  /\ (forall inv rank,
        exitPathEnds exiting inv rank ->
        inv (set_runState (Some runExit) t3) ->
        (rank runExit < fuel)%nat ->
        resultOf loop = Return tt
        /\ countEv isLiveTasksDec (traceOf loop) = 1%nat)
  /\ (forall x : Task World TaskWorker,
        (teardown ;; return_ (A := unit) tt) x
        = (Return tt, teardownLeft x, teardownTrace (teardownCount x))
        /\ liveTasks (set_liveTasks (teardownCount x) (teardownLocked x))
           = uint32 (liveTasks (teardownLocked x) - 1))
  /\ (resultOf loop = Return tt ->
      exists pre x,
        runState x = None
        /\ loop = (Return tt, teardownLeft x,
                   pre ++ teardownTrace (teardownCount x))
        /\ countEv isLiveTasksDec pre = 0%nat).
Proof.
  intros Hpath Hrs Hsc Hpre Hh Hp ws t3 loop.
  assert (Hshape : resultOf loop = Return tt ->
                   exists pre x,
                     runState x = None
                     /\ loop = (Return tt, teardownLeft x,
                                pre ++ teardownTrace (teardownCount x))
                     /\ countEv isLiveTasksDec pre = 0%nat).
  { pose proof (runLoop_return_shape waits (S fuel) t) as Hs. fold loop in Hs.
    destruct loop as [[[[] | [] | h] t'] tr']; try discriminate.
    intros _. destruct Hs as (pre & x & Hx & -> & -> & Hc).
    now exists pre, x. }
  assert (Hdown : forall x : Task World TaskWorker,
             (teardown ;; return_ (A := unit) tt) x
             = (Return tt, teardownLeft x, teardownTrace (teardownCount x))
             /\ liveTasks (set_liveTasks (teardownCount x) (teardownLocked x))
                = uint32 (liveTasks (teardownLocked x) - 1))
    by (intros x; split; [apply teardown_left | reflexivity]).
  enough (Hmain :
    runApp_execute (R := R) t
    = (Next (Some runExit), t3,
       tr1 ++ [EvPullFullState (Some e);
               EvCall (Warningf (UnablePullFullState e));
               EvCall (PrepareExit ws)])
    /\ countEv isPullFullState (traceOf loop) = 1%nat
    /\ countEv isSwitch (traceOf loop) = 0%nat
    /\ (countEv isLiveTasksDec (traceOf loop) <= 1)%nat
    /\ (resultOf loop = Return tt ->
        countEv isLiveTasksDec (traceOf loop) = 1%nat)
    /\ (forall inv rank,
          exitPathEnds exiting inv rank ->
          inv (set_runState (Some runExit) t3) ->
          (rank runExit < fuel)%nat ->
          resultOf loop = Return tt
          /\ countEv isLiveTasksDec (traceOf loop) = 1%nat)).
  { destruct Hmain as (M1 & M2 & M3 & M4 & M5 & M6).
    split; [exact M1 |]. split; [exact M2 |]. split; [exact M3 |].
    split; [exact M4 |]. split; [exact M5 |]. split; [exact M6 |].
    split; [exact Hdown | exact Hshape]. }
  clear Hshape Hdown.
  pose proof (restartSyscall_pull_fails t1 t2 e Hh Hp) as Hr.
  cbv zeta in Hr. fold ws t3 in Hr.
  assert (Hexec : forall R',
             runApp_execute (R := R') t
             = (Next (Some runExit), t3,
                tr1 ++ [EvPullFullState (Some e);
                        EvCall (Warningf (UnablePullFullState e));
                        EvCall (PrepareExit ws)])).
  { intros R'. unfold runApp_execute, sub.
    rewrite runApp_body_from_restart.
    rewrite (bind_Next _ _ _ _ _ _ Hpre).
    rewrite (bind_Return _ _ _ _ _ _ Hr). reflexivity. }
  split; [apply Hexec |].
  (* the prefix of the entry holds no pull, no switch, no decrement *)
  assert (Hquiet : countEv isPullFullState tr1 = 0%nat
                   /\ countEv isSwitch tr1 = 0%nat
                   /\ countEv isLiveTasksDec tr1 = 0%nat).
  { repeat split; apply countEv_never.
    - pose proof (beforeRestart_emits (never isPullFullState)
                    (fun _ => eq_refl) (fun _ => eq_refl) t) as H.
      now rewrite Hpre in H.
    - pose proof (beforeRestart_emits (never isSwitch)
                    (fun _ => eq_refl) (fun _ => eq_refl) t) as H.
      now rewrite Hpre in H.
    - pose proof (beforeRestart_emits (never isLiveTasksDec)
                    (fun _ => eq_refl) (fun _ => eq_refl) t) as H.
      now rewrite Hpre in H. }
  destruct Hquiet as (Hq1 & Hq2 & Hq3).
  (* the iteration of the failed pull, then the exit path *)
  set (t4 := set_runState (Some runExit) t3).
  assert (Hloop : loop
                  = prepend ([EvStopCountLoad 0]
                             ++ EvExecute runApp
                                :: tr1 ++ [EvPullFullState (Some e);
                                           EvCall (Warningf (UnablePullFullState e));
                                           EvCall (PrepareExit ws)])
                      (runLoop waits fuel t4)).
  { unfold loop. rewrite runLoop_S.
    unfold sub, doStop, bind at 1, observe. rewrite Hsc. cbn [Z.eqb returned return_].
    unfold afterStop. rewrite Hrs.
    unfold execute, bind, emit. rewrite Hexec. reflexivity. }
  destruct (runLoop_exiting waits fuel exiting t4 runExit Hpath eq_refl
              (proj1 Hpath)) as (Hs & Hpl).
  apply countEv_never in Hs, Hpl.
  pose proof (runLoop_teardown_once waits fuel t4) as Hdec.
  assert (Hret : forall inv rank,
             exitPathEnds exiting inv rank -> inv t4 ->
             (rank runExit < fuel)%nat ->
             resultOf (runLoop waits fuel t4) = Return tt)
    by (intros inv rank He Hi Hlt;
        exact (runLoop_exit_returns waits fuel exiting inv rank t4 runExit
                 Hpath He eq_refl (proj1 Hpath) Hi Hlt)).
  rewrite Hloop, traceOf_prepend, resultOf_prepend.
  rewrite !countEv_app, !countEv_cons, !countEv_app, !countEv_cons.
  rewrite Hs, Hpl, Hq1, Hq2, Hq3, Hdec. simpl.
  repeat split.
  - destruct (resultOf (runLoop waits fuel t4)); lia.
  - now intros ->.
  - now apply (Hret inv rank).
  - now rewrite (Hret inv rank).
Qed.

(** ** The switch and its outcome *)

Lemma enableSinglestep_run (t : Task World TaskWorker) :
  enableSinglestep t
  = if hasTracer t then
      let t1 := exec (RLock taskSetMu) t in
      if ptraceSinglestep t1 then
        (Next (negb (Arch_SingleStep t1)),
         exec (RUnlock taskSetMu) (exec SetSingleStep t1),
         [EvCall (RLock taskSetMu); EvCall SetSingleStep;
          EvCall (RUnlock taskSetMu)])
      else
        (Next false, exec (RUnlock taskSetMu) t1,
         [EvCall (RLock taskSetMu); EvCall (RUnlock taskSetMu)])
    else (Next false, t, []).
Proof.
  unfold enableSinglestep, bind, gets, call, ret.
  destruct (hasTracer t); [| reflexivity]. cbv zeta.
  destruct (ptraceSinglestep (exec (RLock taskSetMu) t)); reflexivity.
Qed.

Lemma enableSinglestep_Next (t : Task World TaskWorker) :
  exists cs t1 tr, enableSinglestep t = (Next cs, t1, tr).
Proof.
  rewrite enableSinglestep_run. destruct (hasTracer t); cbv zeta;
    [destruct (ptraceSinglestep _) |]; now eexists _, _, _.
Qed.

Lemma switchToApp_run cs (t tb : Task World TaskWorker) info a err :
  Switch (preSwitch t) (rseqCPU (preSwitch t)) = (info, a, err, tb) ->
  switchToApp cs t
  = if hasTracer (postSwitch cs tb) then
      match PullFullState (postSwitch cs tb) with
      | (Some e, te) =>
          (Next (info, a, Some e), exec (Warningf (UnablePullFullState e)) te,
           switchTrace cs (rseqCPU (preSwitch t)) info a err
           ++ [EvPullFullState (Some e);
               EvCall (Warningf (UnablePullFullState e))])
      | (None, te) =>
          (Next (info, a, err), te,
           switchTrace cs (rseqCPU (preSwitch t)) info a err
           ++ [EvPullFullState None])
      end
    else
      (Next (info, a, err), postSwitch cs tb,
       switchTrace cs (rseqCPU (preSwitch t)) info a err).
Proof.
  intros Hs. unfold switchToApp, preSwitch, postSwitch, switchTrace in *.
  unfold bind, gets, call, invoke, ret. rewrite Hs.
  destruct cs; cbv zeta; simpl.
  - destruct (hasTracer _); [| reflexivity].
    destruct (PullFullState _) as [[e |] te]; reflexivity.
  - destruct (hasTracer _); [| reflexivity].
    destruct (PullFullState _) as [[e |] te]; reflexivity.
Qed.

Lemma switchToApp_Next cs (t : Task World TaskWorker) :
  exists info a err t1 tr, switchToApp cs t = (Next (info, a, err), t1, tr).
Proof.
  destruct (Switch (preSwitch t) (rseqCPU (preSwitch t)))
    as [[[info a] err] tb] eqn:Hs.
  rewrite (switchToApp_run cs t tb info a err Hs).
  destruct (hasTracer _); [destruct (PullFullState _) as [[e |] te] |];
    now eexists _, _, _, _, _.
Qed.

Lemma handleSwitchResult_unknown (t : Task World TaskWorker) info a err :
  knownOutcome err = false ->
  handleSwitchResult info a err t
  = (Next (Some runExit),
     exec (PrepareGroupExit (WaitStatusTerminationSignal SIGKILL))
       (exec (Warningf (UnexpectedSwitchToApp err)) t),
     [EvCall (Warningf (UnexpectedSwitchToApp err));
      EvCall (PrepareGroupExit (WaitStatusTerminationSignal SIGKILL))]).
Proof.
  destruct err as [[] |]; simpl; try discriminate; reflexivity.
Qed.

Lemma runApp_execute_resume {R : Type} (t t5 t6 t7 : Task World TaskWorker)
    tr5 cs tr6 info a err tr7 :
  beforeResume t = (Next tt, t5, tr5) ->
  enableSinglestep t5 = (Next cs, t6, tr6) ->
  switchToApp cs t6 = (Next (info, a, err), t7, tr7) ->
  runApp_execute (R := R) t
  = prepend (tr5 ++ tr6 ++ tr7) (sub (handleSwitchResult info a err) t7).
Proof.
  intros H5 H6 H7. unfold runApp_execute, sub.
  rewrite runApp_body_from_resume.
  rewrite (bind_Next _ _ _ _ _ _ H5). unfold resumeApp.
  rewrite (bind_Next _ _ _ _ _ _ H6).
  rewrite (bind_Next _ _ _ _ _ _ H7).
  rewrite !prepend_prepend, returned_prepend. now rewrite <- app_assoc.
Qed.

Lemma traceOf_returned {R R' : Type}
    (r : Res R R * Task World TaskWorker * list (Event TaskWorker)) :
  traceOf (@returned _ _ R R' r) = traceOf r.
Proof. now destruct r as [[[a | x | h] t] tr]. Qed.

Lemma beforeResume_no_group_exit : emitsOnly (never isGroupExit) beforeResume.
Proof.
  unfold beforeResume, beforeRseq, beforeRestore, beforeRestart,
    checkInterrupted, runTaskWork, restartSyscall, restoreSignalMask, applyRseq.
  emits.
Qed.

Lemma enableSinglestep_no_group_exit :
  emitsOnly (never isGroupExit) enableSinglestep.
Proof. unfold enableSinglestep. emits. Qed.

Lemma switchToApp_no_group_exit cs :
  emitsOnly (never isGroupExit) (switchToApp cs).
Proof. unfold switchToApp. emits. Qed.

Lemma handleSwitchResult_known_no_group_exit info a err :
  knownOutcome err = true ->
  emitsOnly (never isGroupExit) (handleSwitchResult info a err).
Proof.
  intros Hk. destruct err as [[] |]; try discriminate Hk;
    unfold handleSwitchResult, contextSignal, deliverSignal; emits.
Qed.

(** ** Errors that end the whole thread group *)

(** C6, amended: let [err] be the error that runApp.execute switches on,
    which is the error of Switch or, for a traced task, the error of a failed
    state pull after the switch.  If [err] is outside the known outcomes
    (success, context-interrupt, context-signal, CPU-preempted), runApp.execute
    logs a warning, prepares a group exit with termination signal SIGKILL and
    returns runExit; and runApp.execute prepares a group exit in no other
    case. *)
Theorem unknown_outcome_kills_group (R : Type) (t : Task World TaskWorker) :
  (forall t5 tr5 cs t6 tr6 info a err t7 tr7,
      beforeResume t = (Next tt, t5, tr5) ->
      enableSinglestep t5 = (Next cs, t6, tr6) ->
      switchToApp cs t6 = (Next (info, a, err), t7, tr7) ->
      knownOutcome err = false ->
      runApp_execute (R := R) t
      = (Next (Some runExit),
         exec (PrepareGroupExit (WaitStatusTerminationSignal SIGKILL))
           (exec (Warningf (UnexpectedSwitchToApp err)) t7),
         (tr5 ++ tr6 ++ tr7)
         ++ [EvCall (Warningf (UnexpectedSwitchToApp err));
             EvCall (PrepareGroupExit (WaitStatusTerminationSignal SIGKILL))]))
  /\ (countEv isGroupExit (traceOf (runApp_execute (R := R) t)) <> 0%nat ->
      exists t5 tr5 cs t6 tr6 info a err t7 tr7,
        beforeResume t = (Next tt, t5, tr5)
        /\ enableSinglestep t5 = (Next cs, t6, tr6)
        /\ switchToApp cs t6 = (Next (info, a, err), t7, tr7)
        /\ knownOutcome err = false)
  /\ (forall cs (t6 tb : Task World TaskWorker) info a errS,
        Switch (preSwitch t6) (rseqCPU (preSwitch t6)) = (info, a, errS, tb) ->
        resultOf (switchToApp cs t6)
        = Next (info, a,
                if hasTracer (postSwitch cs tb) then
                  match fst (PullFullState (postSwitch cs tb)) with
                  | Some e => Some e
                  | None => errS
                  end
                else errS)).
Proof.
  split; [| split].
  3: { intros cs t6 tb info a errS Hs.
       rewrite (switchToApp_run cs t6 tb info a errS Hs).
       destruct (hasTracer _); [| reflexivity].
       now destruct (PullFullState _) as [[e |] te]. }
  - intros t5 tr5 cs t6 tr6 info a err t7 tr7 H5 H6 H7 Hk.
    rewrite (runApp_execute_resume _ _ _ _ _ _ _ _ _ _ _ H5 H6 H7).
    unfold sub. now rewrite (handleSwitchResult_unknown _ _ _ _ Hk).
  - intros Hc.
    pose proof (beforeResume_no_group_exit t) as Hq5.
    destruct (beforeResume t) as [[[[] | x | h] t5] tr5] eqn:H5.
    + destruct (enableSinglestep_Next t5) as (cs & t6 & tr6 & H6).
      destruct (switchToApp_Next cs t6) as (info & a & err & t7 & tr7 & H7).
      pose proof (enableSinglestep_no_group_exit t5) as Hq6.
      pose proof (switchToApp_no_group_exit cs t6) as Hq7.
      rewrite H6 in Hq6. rewrite H7 in Hq7.
      destruct (knownOutcome err) eqn:Hk;
        [| now exists t5, tr5, cs, t6, tr6, info, a, err, t7, tr7].
      exfalso. apply Hc.
      rewrite (runApp_execute_resume _ _ _ _ _ _ _ _ _ _ _ H5 H6 H7).
      rewrite traceOf_prepend. unfold sub. rewrite traceOf_returned.
      apply countEv_never. unfold traceOf in *; simpl in *.
      rewrite !forallb_app, Hq5, Hq6, Hq7. simpl.
      apply (handleSwitchResult_known_no_group_exit info a err Hk t7).
    + exfalso. apply Hc. unfold runApp_execute, sub.
      rewrite runApp_body_from_resume, (bind_Return _ _ _ _ _ _ H5).
      now apply countEv_never.
    + exfalso. apply Hc. unfold runApp_execute, sub.
      rewrite runApp_body_from_resume, (bind_Halted _ _ _ _ _ _ H5).
      now apply countEv_never.
Qed.

(** C9, amended: when the task has a tracer at the check that follows the
    switch, runApp.execute pulls the full state right after the switch (and
    its accounting and single-step calls).  If the pull fails with [e], a
    warning is logged and [e] takes the place of the switch error: the
    outcome is handled as [handleSwitchResult] handles [e], which for an [e]
    outside the three known outcome errors means a group exit with SIGKILL
    and runExit. *)
Theorem tracer_pull_failure_replaces_outcome (R : Type)
    (t t5 t6 tb te : Task World TaskWorker) tr5 cs tr6 info a err pe :
  beforeResume t = (Next tt, t5, tr5) ->
  enableSinglestep t5 = (Next cs, t6, tr6) ->
  Switch (preSwitch t6) (rseqCPU (preSwitch t6)) = (info, a, err, tb) ->
  hasTracer (postSwitch cs tb) = true ->
  PullFullState (postSwitch cs tb) = (pe, te) ->
  let sw := switchTrace cs (rseqCPU (preSwitch t6)) info a err in
  (pe = None ->
   switchToApp cs t6 = (Next (info, a, err), te, sw ++ [EvPullFullState None]))
  /\ (forall e, pe = Some e ->
      let t7 := exec (Warningf (UnablePullFullState e)) te in
      let tr7 := sw ++ [EvPullFullState (Some e);
                        EvCall (Warningf (UnablePullFullState e))] in
      switchToApp cs t6 = (Next (info, a, Some e), t7, tr7)
      /\ runApp_execute (R := R) t
         = prepend (tr5 ++ tr6 ++ tr7)
             (sub (handleSwitchResult info a (Some e)) t7)
      /\ (knownOutcome (Some e) = false ->
          runApp_execute (R := R) t
          = (Next (Some runExit),
             exec (PrepareGroupExit (WaitStatusTerminationSignal SIGKILL))
               (exec (Warningf (UnexpectedSwitchToApp (Some e))) t7),
             (tr5 ++ tr6 ++ tr7)
             ++ [EvCall (Warningf (UnexpectedSwitchToApp (Some e)));
                 EvCall (PrepareGroupExit
                           (WaitStatusTerminationSignal SIGKILL))]))).
Proof.
  intros H5 H6 Hs Ht Hp sw.
  pose proof (switchToApp_run cs t6 tb info a err Hs) as H7.
  rewrite Ht, Hp in H7. fold sw in H7.
  split.
  - intros ->. exact H7.
  - intros e -> t7 tr7. fold t7 tr7 in H7.
    split; [exact H7 |].
    pose proof (runApp_execute_resume (R := R) _ _ _ _ _ _ _ _ _ _ _ H5 H6 H7)
      as Hrun.
    split; [exact Hrun |].
    intros Hk. rewrite Hrun. unfold sub.
    now rewrite (handleSwitchResult_unknown _ _ _ _ Hk).
Qed.

(** ** Restartable sequences *)

Lemma applyRseq_run (t : Task World TaskWorker) :
  rseqPreempted t = true ->
  rseqAddr t <> 0 \/ oldRSeqCPUAddr t <> 0 ->
  applyRseq t
  = prepend [EvGetCPU (GetCPU (set_rseqPreempted false t))]
      match rseqCopyOutCPU (rseqReady t) with
      | (Some e, tc) =>
          (Return (Some runApp), sigsegvSent (FailedCopyCPU (rseqAddr tc) e) tc,
           EvRseqCopyOutCPU (Some e)
           :: sigsegvTrace (FailedCopyCPU (rseqAddr tc) e))
      | (None, tc) =>
          match oldRSeqCopyOutCPU tc with
          | (Some e, td) =>
              (Return (Some runApp),
               sigsegvSent (FailedCopyCPUOld (oldRSeqCPUAddr td) e) td,
               EvRseqCopyOutCPU None :: EvOldRSeqCopyOutCPU (Some e)
               :: sigsegvTrace (FailedCopyCPUOld (oldRSeqCPUAddr td) e))
          | (None, td) =>
              (Next tt, exec rseqInterrupt td,
               [EvRseqCopyOutCPU None; EvOldRSeqCopyOutCPU None;
                EvCall rseqInterrupt])
          end
      end.
Proof.
  intros Hp Hreg.
  assert (Hc : negb (rseqAddr t =? 0) || negb (oldRSeqCPUAddr t =? 0) = true).
  { apply orb_true_iff. destruct Hreg as [H | H]; [left | right];
      apply negb_true_iff; now apply Z.eqb_neq. }
  unfold applyRseq, rseqReady, sigsegvSent, sigsegvTrace.
  unfold bind, gets, modify, observe, invoke, call, ret, return_.
  rewrite Hp. cbn [rseqAddr oldRSeqCPUAddr set_rseqPreempted]. rewrite Hc.
  destruct (rseqCopyOutCPU _) as [[e |] tc]; [reflexivity |].
  destruct (oldRSeqCopyOutCPU tc) as [[e |] td]; reflexivity.
Qed.

Lemma beforeRseq_no_copy_out :
  emitsOnly (never isRseqCopyOut) beforeRseq
  /\ emitsOnly (never isOldRSeqCopyOut) beforeRseq.
Proof.
  unfold beforeRseq, beforeRestore, beforeRestart,
    checkInterrupted, runTaskWork, restartSyscall, restoreSignalMask.
  split; emits.
Qed.

Lemma resumeApp_no_copy_out :
  emitsOnly (never isRseqCopyOut) resumeApp
  /\ emitsOnly (never isOldRSeqCopyOut) resumeApp.
Proof.
  unfold resumeApp, enableSinglestep, switchToApp, handleSwitchResult,
    contextSignal, deliverSignal.
  split; emits.
Qed.

Lemma applyRseq_idle (t : Task World TaskWorker) :
  rseqPreempted t = false -> applyRseq t = (Next tt, t, []).
Proof. intros H. unfold applyRseq, bind, gets. now rewrite H. Qed.

Lemma applyRseq_copy_outs (t : Task World TaskWorker) :
  countEv isRseqCopyOut (traceOf (applyRseq t))
  = (if rseqDue t then 1%nat else 0%nat)
  /\ (countEv isOldRSeqCopyOut (traceOf (applyRseq t))
      <= countEv isRseqCopyOut (traceOf (applyRseq t)))%nat.
Proof.
  unfold rseqDue, applyRseq, bind, gets, modify, observe, invoke, call, ret,
    return_.
  destruct (rseqPreempted t); [| split; [reflexivity | apply Nat.le_refl]].
  cbn [rseqAddr oldRSeqCPUAddr set_rseqPreempted andb].
  destruct (negb (rseqAddr t =? 0) || negb (oldRSeqCPUAddr t =? 0));
    [| split; [reflexivity | apply Nat.le_refl]].
  destruct (rseqCopyOutCPU _) as [[e |] tc];
    [| destruct (oldRSeqCopyOutCPU tc) as [[e |] td]];
    unfold countEv, traceOf; simpl; split; lia.
Qed.

Lemma runApp_body_copy_outs (t : Task World TaskWorker) :
  countEv isRseqCopyOut (traceOf (runApp_body t))
  = match beforeRseq t with
    | (Next _, t4, _) => countEv isRseqCopyOut (traceOf (applyRseq t4))
    | _ => 0%nat
    end
  /\ countEv isOldRSeqCopyOut (traceOf (runApp_body t))
     = match beforeRseq t with
       | (Next _, t4, _) => countEv isOldRSeqCopyOut (traceOf (applyRseq t4))
       | _ => 0%nat
       end.
Proof.
  rewrite runApp_body_from_rseq, traceOf_bind, !countEv_app.
  destruct beforeRseq_no_copy_out as [Hb1 Hb2].
  rewrite (countEv_never _ _ (Hb1 t)), (countEv_never _ _ (Hb2 t)).
  destruct (beforeRseq t) as [[[[] | x | h] t4] tr4];
    unfold resultOf, stateOf; cbn [fst snd]; try (split; reflexivity).
  rewrite traceOf_bind, !countEv_app.
  destruct resumeApp_no_copy_out as [Hr1 Hr2].
  assert (Hrest : countEv isRseqCopyOut
                    match resultOf (applyRseq t4) with
                    | Next _ => traceOf (resumeApp (stateOf (applyRseq t4)))
                    | _ => []
                    end = 0%nat
                  /\ countEv isOldRSeqCopyOut
                       match resultOf (applyRseq t4) with
                       | Next _ => traceOf (resumeApp (stateOf (applyRseq t4)))
                       | _ => []
                       end = 0%nat)
    by (destruct (resultOf (applyRseq t4)); split; try reflexivity;
        apply countEv_never; [apply Hr1 | apply Hr2]).
  destruct Hrest as [-> ->]. split; lia.
Qed.

(** An entry that reaches the rseq block with a preemption pending and an
    address registered. *)
Lemma entry_with_pending_preemption (R : Type)
    (t t4 : Task World TaskWorker) tr4 :
  beforeRseq t = (Next tt, t4, tr4) ->
  rseqPreempted t4 = true ->
  rseqAddr t4 <> 0 \/ oldRSeqCPUAddr t4 <> 0 ->
  let r := runApp_execute (R := R) t in
  let cpu := GetCPU (set_rseqPreempted false t4) in
  (exists tr',
      traceOf r
      = tr4 ++ EvGetCPU cpu
            :: EvRseqCopyOutCPU (fst (rseqCopyOutCPU (rseqReady t4)))
            :: tr'
      /\ countEv isSwitch tr4 = 0%nat)
  /\ countEv isRseqCopyOut (traceOf r) = 1%nat
  /\ (countEv isOldRSeqCopyOut (traceOf r) <= 1)%nat
  /\ (forall tc td,
        rseqCopyOutCPU (rseqReady t4) = (None, tc) ->
        oldRSeqCopyOutCPU tc = (None, td) ->
        r = prepend (tr4 ++ [EvGetCPU cpu; EvRseqCopyOutCPU None;
                             EvOldRSeqCopyOutCPU None; EvCall rseqInterrupt])
              (sub resumeApp (exec rseqInterrupt td))).
Proof.
  intros H4 Hp Hreg r cpu.
  pose proof (applyRseq_run t4 Hp Hreg) as Hrun.
  assert (Hdue : rseqDue t4 = true).
  { unfold rseqDue. rewrite Hp. cbn [andb]. apply orb_true_iff.
    destruct Hreg as [H | H]; [left | right];
      apply negb_true_iff; now apply Z.eqb_neq. }
  destruct (runApp_body_copy_outs t) as [Hc1 Hc2]. rewrite H4 in Hc1, Hc2.
  destruct (applyRseq_copy_outs t4) as [Ha1 Ha2]. rewrite Hdue in Ha1.
  assert (Hsw : countEv isSwitch tr4 = 0%nat).
  { apply countEv_never.
    assert (Hq : emitsOnly (never isSwitch) beforeRseq).
    { unfold beforeRseq, beforeRestore, beforeRestart, checkInterrupted,
        runTaskWork, restartSyscall, restoreSignalMask. emits. }
    specialize (Hq t). now rewrite H4 in Hq. }
  assert (Hr : traceOf r
               = tr4 ++ traceOf (applyRseq t4)
                 ++ match resultOf (applyRseq t4) with
                    | Next _ => traceOf (resumeApp (stateOf (applyRseq t4)))
                    | _ => []
                    end).
  { unfold r, runApp_execute, sub. rewrite traceOf_returned.
    rewrite runApp_body_from_rseq, (bind_Next _ _ _ _ _ _ H4).
    now rewrite traceOf_prepend, traceOf_bind. }
  split; [| split; [| split]].
  - rewrite Hr, Hrun. unfold sigsegvTrace. fold cpu.
    destruct (rseqCopyOutCPU (rseqReady t4)) as [[e |] tc];
      [| destruct (oldRSeqCopyOutCPU tc) as [[e |] td]];
      unfold traceOf, resultOf, stateOf; simpl;
      (eexists; split; [reflexivity | exact Hsw]).
  - unfold r, runApp_execute, sub. rewrite traceOf_returned. lia.
  - unfold r, runApp_execute, sub. rewrite traceOf_returned. lia.
  - intros tc td Hc Ho. rewrite Hc, Ho in Hrun. cbn [prepend app] in Hrun.
    unfold r, runApp_execute, sub.
    rewrite runApp_body_from_rseq, (bind_Next _ _ _ _ _ _ H4).
    rewrite (bind_Next _ _ _ _ _ _ Hrun).
    rewrite prepend_prepend, returned_prepend. reflexivity.
Qed.

(** C7: a CPU-preempted outcome makes runApp.execute set rseqPreempted and
    return runApp, with no event after the switch and no copy-out from the
    single-step check on.  The copy-out belongs to the rseq block of an
    entry: an entry makes one rseqCopyOutCPU call if it reaches the block
    with the flag set and an address registered and none otherwise, however
    many preemptions set the flag, and never more calls of
    oldRSeqCopyOutCPU than of rseqCopyOutCPU.  When the block is reached
    with the flag set and an address registered, it clears the flag, stores
    the CPU id and only then hands the task to the copy-out, before any
    switch; if both copy-outs succeed the entry goes on from the task they
    left, after rseqInterrupt.  When it is reached with the flag clear it
    does nothing.  The entry that follows a preempted one, with nothing else
    pending, makes exactly one copy-out. *)
Theorem preemption_copies_cpu_once (R : Type) (t : Task World TaskWorker) :
  let r := runApp_execute (R := R) t in
  (forall t5 tr5 cs t6 tr6 info a t7 tr7,
      beforeResume t = (Next tt, t5, tr5) ->
      enableSinglestep t5 = (Next cs, t6, tr6) ->
      switchToApp cs t6 = (Next (info, a, Some ErrContextCPUPreempted), t7, tr7) ->
      r = (Next (Some runApp), set_rseqPreempted true t7, tr5 ++ tr6 ++ tr7)
      /\ countEv isRseqCopyOut (tr6 ++ tr7) = 0%nat
      /\ countEv isOldRSeqCopyOut (tr6 ++ tr7) = 0%nat)
  /\ countEv isRseqCopyOut (traceOf r)
     = match beforeRseq t with
       | (Next _, t4, _) => if rseqDue t4 then 1%nat else 0%nat
       | _ => 0%nat
       end
  /\ (countEv isOldRSeqCopyOut (traceOf r)
      <= countEv isRseqCopyOut (traceOf r))%nat
  /\ (forall t4 tr4,
        beforeRseq t = (Next tt, t4, tr4) ->
        rseqPreempted t4 = true ->
        rseqAddr t4 <> 0 \/ oldRSeqCPUAddr t4 <> 0 ->
        let cpu := GetCPU (set_rseqPreempted false t4) in
        applyRseq t4
        = prepend [EvGetCPU cpu]
            match rseqCopyOutCPU (rseqReady t4) with
            | (Some e, tc) =>
                (Return (Some runApp),
                 sigsegvSent (FailedCopyCPU (rseqAddr tc) e) tc,
                 EvRseqCopyOutCPU (Some e)
                 :: sigsegvTrace (FailedCopyCPU (rseqAddr tc) e))
            | (None, tc) =>
                match oldRSeqCopyOutCPU tc with
                | (Some e, td) =>
                    (Return (Some runApp),
                     sigsegvSent (FailedCopyCPUOld (oldRSeqCPUAddr td) e) td,
                     EvRseqCopyOutCPU None :: EvOldRSeqCopyOutCPU (Some e)
                     :: sigsegvTrace (FailedCopyCPUOld (oldRSeqCPUAddr td) e))
                | (None, td) =>
                    (Next tt, exec rseqInterrupt td,
                     [EvRseqCopyOutCPU None; EvOldRSeqCopyOutCPU None;
                      EvCall rseqInterrupt])
                end
            end
        /\ rseqPreempted (rseqReady t4) = false
        /\ rseqCPU (rseqReady t4) = int32 cpu
        /\ (exists tr',
               traceOf r
               = tr4 ++ EvGetCPU cpu
                     :: EvRseqCopyOutCPU (fst (rseqCopyOutCPU (rseqReady t4)))
                     :: tr'
               /\ countEv isSwitch tr4 = 0%nat)
        /\ countEv isRseqCopyOut (traceOf r) = 1%nat
        /\ (countEv isOldRSeqCopyOut (traceOf r) <= 1)%nat
        /\ (forall tc td,
              rseqCopyOutCPU (rseqReady t4) = (None, tc) ->
              oldRSeqCopyOutCPU tc = (None, td) ->
              r = prepend (tr4 ++ [EvGetCPU cpu; EvRseqCopyOutCPU None;
                                   EvOldRSeqCopyOutCPU None;
                                   EvCall rseqInterrupt])
                    (sub resumeApp (exec rseqInterrupt td))))
  /\ (forall t4 tr4,
        beforeRseq t = (Next tt, t4, tr4) ->
        rseqPreempted t4 = false ->
        applyRseq t4 = (Next tt, t4, [])
        /\ r = prepend tr4 (sub resumeApp t4)
        /\ countEv isRseqCopyOut (traceOf r) = 0%nat
        /\ countEv isOldRSeqCopyOut (traceOf r) = 0%nat)
  /\ (forall t5 tr5 cs t6 tr6 info a t7 tr7,
        beforeResume t = (Next tt, t5, tr5) ->
        enableSinglestep t5 = (Next cs, t6, tr6) ->
        switchToApp cs t6
        = (Next (info, a, Some ErrContextCPUPreempted), t7, tr7) ->
        let u := stateOf r in
        interrupted u = false ->
        taskWorkCount u <= 0 ->
        haveSyscallReturn u = false ->
        haveSavedSignalMask u = false ->
        rseqAddr u <> 0 \/ oldRSeqCPUAddr u <> 0 ->
        let r' := runApp_execute (R := R) u in
        rseqPreempted u = true
        /\ beforeRseq u = (Next tt, u, [EvInterrupted false])
        /\ countEv isRseqCopyOut (traceOf r') = 1%nat
        /\ exists tr',
            traceOf r'
            = EvInterrupted false
              :: EvGetCPU (GetCPU (set_rseqPreempted false u))
              :: EvRseqCopyOutCPU (fst (rseqCopyOutCPU (rseqReady u)))
              :: tr').
Proof.
  cbv zeta.
  assert (H1 : forall t5 tr5 cs t6 tr6 info a t7 tr7,
             beforeResume t = (Next tt, t5, tr5) ->
             enableSinglestep t5 = (Next cs, t6, tr6) ->
             switchToApp cs t6
             = (Next (info, a, Some ErrContextCPUPreempted), t7, tr7) ->
             runApp_execute (R := R) t
             = (Next (Some runApp), set_rseqPreempted true t7,
                tr5 ++ tr6 ++ tr7)
             /\ countEv isRseqCopyOut (tr6 ++ tr7) = 0%nat
             /\ countEv isOldRSeqCopyOut (tr6 ++ tr7) = 0%nat).
  { intros t5 tr5 cs t6 tr6 info a t7 tr7 H5 H6 H7.
    rewrite (runApp_execute_resume _ _ _ _ _ _ _ _ _ _ _ H5 H6 H7).
    split; [unfold sub; simpl; now rewrite !app_nil_r |].
    pose proof (proj1 resumeApp_no_copy_out t5) as Hq.
    pose proof (proj2 resumeApp_no_copy_out t5) as Hq'.
    unfold resumeApp in Hq, Hq'.
    rewrite (bind_Next _ _ _ _ _ _ H6), (bind_Next _ _ _ _ _ _ H7) in Hq, Hq'.
    unfold traceOf in Hq, Hq'; simpl in Hq, Hq'.
    rewrite !app_nil_r in Hq, Hq'.
    split; now apply countEv_never. }
  destruct (runApp_body_copy_outs t) as [Hc1 Hc2].
  assert (Htr : traceOf (runApp_execute (R := R) t) = traceOf (runApp_body t))
    by (unfold runApp_execute, sub; apply traceOf_returned).
  split; [exact H1 |].
  split.
  { rewrite Htr, Hc1.
    destruct (beforeRseq t) as [[[[] | x | h] t4] tr4]; try reflexivity.
    apply applyRseq_copy_outs. }
  split.
  { rewrite Htr, Hc1, Hc2.
    destruct (beforeRseq t) as [[[[] | x | h] t4] tr4]; try apply Nat.le_refl.
    apply applyRseq_copy_outs. }
  split.
  { intros t4 tr4 H4 Hp Hreg.
    destruct (entry_with_pending_preemption R t t4 tr4 H4 Hp Hreg)
      as (E1 & E2 & E3 & E4).
    split; [exact (applyRseq_run t4 Hp Hreg) |].
    split; [reflexivity |]. split; [reflexivity |].
    split; [exact E1 |]. split; [exact E2 |]. split; [exact E3 | exact E4]. }
  split.
  { intros t4 tr4 H4 Hp.
    pose proof (applyRseq_idle t4 Hp) as Hi.
    split; [exact Hi |].
    split.
    { unfold runApp_execute, sub.
      rewrite runApp_body_from_rseq, (bind_Next _ _ _ _ _ _ H4).
      rewrite (bind_Next _ _ _ _ _ _ Hi).
      rewrite prepend_prepend, returned_prepend. now rewrite app_nil_r. }
    rewrite Htr, Hc1, Hc2, H4, Hi. split; reflexivity. }
  intros t5 tr5 cs t6 tr6 info a t7 tr7 H5 H6 H7.
  destruct (H1 _ _ _ _ _ _ _ _ _ H5 H6 H7) as [-> _].
  unfold stateOf; cbn [fst snd].
  intros Hi Hw Hs Hm Hreg.
  assert (H4 : beforeRseq (set_rseqPreempted true t7)
               = (Next tt, set_rseqPreempted true t7, [EvInterrupted false])).
  { unfold beforeRseq.
    rewrite (bind_Next _ _ _ _ _ _ (beforeRestore_idle _ Hi Hw Hs)).
    unfold restoreSignalMask, bind, gets. now rewrite Hm. }
  destruct (entry_with_pending_preemption R _ _ _ H4 eq_refl Hreg)
    as ((tr' & E1 & _) & E2 & _).
  split; [reflexivity |]. split; [exact H4 |]. split; [exact E2 |].
  exists tr'. exact E1.
Qed.

Lemma toEnd_of_emitsOnly {R A : Type} P (m : @M World TaskWorker R A) :
  emitsOnly P m -> emitsOnlyToEnd P m.
Proof. intros H t a t1 tr Hm. specialize (H t). now rewrite Hm in H. Qed.

Lemma toEnd_bind {R A B : Type} P (m : @M World TaskWorker R A)
    (f : A -> @M World TaskWorker R B) :
  emitsOnlyToEnd P m -> (forall a, emitsOnlyToEnd P (f a)) ->
  emitsOnlyToEnd P (bind m f).
Proof.
  intros Hm Hf t b t2 tr H. unfold bind in H.
  destruct (m t) as [[[a | r | h] t1] tr1] eqn:Hmt; try discriminate.
  destruct (f a t1) as [[r' t'] tr'] eqn:Hft.
  injection H as -> -> <-.
  now rewrite forallb_app, (Hm _ _ _ _ Hmt), (Hf a _ _ _ _ Hft).
Qed.

Lemma restartSyscall_toEnd_no_exit : emitsOnlyToEnd (never isExit) restartSyscall.
Proof.
  intros t a t1 tr.
  unfold restartSyscall, bind, gets, invoke, call, modify, ret, return_.
  destruct (haveSyscallReturn t); [| now intros [= _ _ <-]].
  destruct (PullFullState t) as [[e |] t']; [discriminate |].
  destruct (SyscallRestartErrorFromReturn (Arch_Return t')) as [sre |];
    [destruct (sre =? ERESTART_RESTARTBLOCK) |];
    now intros [= _ _ <-].
Qed.

Lemma beforeRseq_toEnd_no_exit : emitsOnlyToEnd (never isExit) beforeRseq.
Proof.
  unfold beforeRseq, beforeRestore, beforeRestart.
  repeat apply toEnd_bind; intros;
    try apply restartSyscall_toEnd_no_exit;
    apply toEnd_of_emitsOnly;
    unfold checkInterrupted, runTaskWork, restoreSignalMask; emits.
Qed.

(** C8: when the rseq block is reached with the preempted flag set and an
    address registered, and the copy-out of the CPU id fails (to the rseq
    address, or, after that one succeeded, to the old rseq address),
    runApp.execute forces SIGSEGV on the task, sends it SIGSEGV, and returns
    runApp for the signal to be delivered; no switch is made, and nowhere on
    this entry has an exit or a group exit been prepared. *)
Theorem rseq_copy_out_failure_sends_sigsegv (R : Type)
    (t t4 : Task World TaskWorker) tr4 :
  beforeRseq t = (Next tt, t4, tr4) ->
  rseqPreempted t4 = true ->
  rseqAddr t4 <> 0 \/ oldRSeqCPUAddr t4 <> 0 ->
  let cpu := GetCPU (set_rseqPreempted false t4) in
  let r := runApp_execute (R := R) t in
  (forall e tc,
      rseqCopyOutCPU (rseqReady t4) = (Some e, tc) ->
      r = (Next (Some runApp),
           sigsegvSent (FailedCopyCPU (rseqAddr tc) e) tc,
           tr4 ++ EvGetCPU cpu :: EvRseqCopyOutCPU (Some e)
               :: sigsegvTrace (FailedCopyCPU (rseqAddr tc) e))
      /\ countEv isExit (traceOf r) = 0%nat
      /\ countEv isSwitch (traceOf r) = 0%nat)
  /\ (forall e tc td,
        rseqCopyOutCPU (rseqReady t4) = (None, tc) ->
        oldRSeqCopyOutCPU tc = (Some e, td) ->
        r = (Next (Some runApp),
             sigsegvSent (FailedCopyCPUOld (oldRSeqCPUAddr td) e) td,
             tr4 ++ EvGetCPU cpu :: EvRseqCopyOutCPU None
                 :: EvOldRSeqCopyOutCPU (Some e)
                 :: sigsegvTrace (FailedCopyCPUOld (oldRSeqCPUAddr td) e))
        /\ countEv isExit (traceOf r) = 0%nat
        /\ countEv isSwitch (traceOf r) = 0%nat).
Proof.
  intros H4 Hp Hreg cpu r.
  pose proof (applyRseq_run t4 Hp Hreg) as Hrun.
  pose proof (beforeRseq_toEnd_no_exit _ _ _ _ H4) as Hx.
  apply countEv_never in Hx.
  assert (Hsw : countEv isSwitch tr4 = 0%nat).
  { apply countEv_never.
    assert (Hq : emitsOnly (never isSwitch) beforeRseq).
    { unfold beforeRseq, beforeRestore, beforeRestart, checkInterrupted,
        runTaskWork, restartSyscall, restoreSignalMask. emits. }
    specialize (Hq t). now rewrite H4 in Hq. }
  assert (Hr : r = returned (prepend tr4 ((applyRseq ;; resumeApp) t4))).
  { unfold r, runApp_execute, sub.
    now rewrite runApp_body_from_rseq, (bind_Next _ _ _ _ _ _ H4). }
  split.
  - intros e tc Hc. rewrite Hc in Hrun.
    rewrite Hr, (bind_Return _ _ _ _ _ _ Hrun).
    split; [reflexivity |].
    unfold traceOf; simpl. rewrite !countEv_app, Hx, Hsw.
    split; reflexivity.
  - intros e tc td Hc Ho. rewrite Hc, Ho in Hrun.
    rewrite Hr, (bind_Return _ _ _ _ _ _ Hrun).
    split; [reflexivity |].
    unfold traceOf; simpl. rewrite !countEv_app, Hx, Hsw.
    split; reflexivity.
Qed.

(** ** Signals reported by the switch *)

Lemma switch_cases_apart :
  synchronousSignal SignalInterrupt = false
  /\ synchronousSignal SIGPROF = false.
Proof.
  pose proof switch_cases_distinct as H. simpl in H.
  repeat (apply andb_true_iff in H; destruct H as [? H]).
  repeat match goal with
         | H : negb _ = true |- _ => apply negb_true_iff in H
         | H : (_ || _) = false |- _ =>
             apply orb_false_iff in H; destruct H as [? H]
         | H : (_ =? _) = false |- _ => apply Z.eqb_neq in H
         end.
  unfold synchronousSignal.
  split; repeat (apply orb_false_iff; split); apply Z.eqb_neq; congruence.
Qed.

Lemma deliverSignal_synchronous sig info (t : Task World TaskWorker) :
  synchronousSignal sig = true ->
  deliverSignal sig info t
  = (Next tt, exec (SendSignal info) (exec (forceSignal sig false) t),
     [EvCall (forceSignal sig false); EvCall (SendSignal info)]).
Proof.
  unfold synchronousSignal, deliverSignal. intros ->. reflexivity.
Qed.

Lemma deliverSignal_discarded sig info (t : Task World TaskWorker) :
  sig = SignalInterrupt \/ sig = SIGPROF ->
  deliverSignal sig info t = (Next tt, t, []).
Proof.
  destruct switch_cases_apart as [Hi Hp].
  unfold synchronousSignal in Hi, Hp. unfold deliverSignal.
  intros [-> | ->].
  - rewrite Hi, Z.eqb_refl. reflexivity.
  - rewrite Hp, Z.eqb_refl. now destruct (SIGPROF =? SignalInterrupt).
Qed.

Lemma deliverSignal_external sig info (t : Task World TaskWorker) :
  synchronousSignal sig = false ->
  sig <> SignalInterrupt -> sig <> SIGPROF ->
  deliverSignal sig info t
  = (Next tt, exec (sendExternalSignal info application) t,
     [EvCall (sendExternalSignal info application)]).
Proof.
  unfold synchronousSignal, deliverSignal. intros -> Hi Hp.
  apply Z.eqb_neq in Hi, Hp. now rewrite Hi, Hp.
Qed.

Lemma contextSignal_no_fault info a (t : Task World TaskWorker) :
  AccessType_Any a = false ->
  contextSignal info a t
  = (deliverSignal (Signo info) info ;; ret (Some runApp)) t.
Proof.
  intros Ha. unfold contextSignal. rewrite Ha.
  unfold bind at 1. unfold ret at 1. cbn [fst snd].
  unfold bind. destruct (deliverSignal (Signo info) info t) as [[[[] | x | h] t1] tr1];
    reflexivity.
Qed.

Lemma deliver_then_runApp sig info (t : Task World TaskWorker) :
  (deliverSignal sig info ;; ret (Some runApp)) t
  = (Next (Some runApp), stateOf (deliverSignal sig info t),
     traceOf (deliverSignal sig info t)).
Proof.
  unfold deliverSignal, bind, call, ret, stateOf, traceOf.
  destruct (_ || _); [reflexivity |].
  destruct (sig =? SignalInterrupt); [reflexivity |].
  destruct (sig =? SIGPROF); reflexivity.
Qed.

Lemma contextSignal_fault_unhandled info a (t tf : Task World TaskWorker) e :
  AccessType_Any a = true ->
  HandleUserFault (faultEntered t) (SignalInfo_Addr info) a
    (Arch_Stack (faultEntered t)) = (Some e, tf) ->
  Execute a = false
  \/ LookupEmulate (exec (EndRegion faultRegion) tf) (SignalInfo_Addr info)
     = None ->
  contextSignal info a t
  = prepend (faultTrace info a e t tf)
      ((deliverSignal (faultSignal e info) (faultInfo e info)
        ;; ret (Some runApp)) (faultUnhandled info a e tf)).
Proof.
  intros Ha Hf Hv.
  rewrite deliver_then_runApp.
  unfold contextSignal, faultTrace, faultUnhandled, faultSignal, faultInfo,
    faultEntered in *.
  rewrite Ha.
  unfold bind at 1. unfold bind at 1. unfold call at 1.
  unfold bind at 1. unfold call at 1.
  unfold bind at 1. unfold gets at 1.
  unfold bind at 1. unfold invoke at 1. rewrite Hf.
  unfold bind at 1. unfold call at 1.
  assert (Hskip :
    forall x,
      (if Execute a
       then
         lk <- gets (fun t0 => LookupEmulate t0 (SignalInfo_Addr info)) ;;
         match lk with
         | Some sysno =>
             nx <- invoke (fun t0 => doVsyscall t0 (SignalInfo_Addr info) sysno)
                     (EvDoVsyscall (SignalInfo_Addr info) sysno) ;;
             return_ nx
         | None => ret tt
         end
       else ret tt) x = (Next tt, x, [])
      \/ x <> exec (EndRegion faultRegion) tf).
  { intros x. destruct (Execute a); [| now left].
    destruct Hv as [Hv | Hv]; [discriminate |].
    unfold bind, gets.
    destruct (LookupEmulate x (SignalInfo_Addr info)) eqn:Hl; [| now left].
    right. intros ->. congruence. }
  destruct (Hskip (exec (EndRegion faultRegion) tf)) as [Hs | Hs];
    [| now elim Hs].
  unfold bind at 1. rewrite Hs.
  unfold deliverSignal, bind, gets, call, ret, stateOf, traceOf.
  destruct (isBusError e); simpl;
    repeat match goal with
           | |- context [if ?b then _ else _] => destruct b
           end;
    reflexivity.
Qed.

(** C10: what runApp.execute does with a switch that reports a signal.
    At [switch sig]: SIGILL, SIGSEGV, SIGBUS, SIGFPE and SIGTRAP are forced on
    the task and sent to it; the platform's interrupt signal and SIGPROF are
    dropped with no call at all; every other signal goes to
    sendExternalSignal.  [switch sig] is reached with the reported signal
    when no access type is set, and with the reported signal (SIGBUS for a
    bus error) after a user fault that could not be handled and is not an
    emulated vsyscall; the next state is runApp in all these cases, and for a
    dropped signal nothing at all follows the switch. *)
Theorem switch_signal_is_classified (R : Type)
    (t t5 t6 t7 : Task World TaskWorker) tr5 cs tr6 info a tr7 :
  beforeResume t = (Next tt, t5, tr5) ->
  enableSinglestep t5 = (Next cs, t6, tr6) ->
  switchToApp cs t6 = (Next (info, a, Some ErrContextSignal), t7, tr7) ->
  let r := runApp_execute (R := R) t in
  (forall sig i (x : Task World TaskWorker),
      (synchronousSignal sig = true ->
       deliverSignal sig i x
       = (Next tt, exec (SendSignal i) (exec (forceSignal sig false) x),
          [EvCall (forceSignal sig false); EvCall (SendSignal i)]))
      /\ (sig = SignalInterrupt \/ sig = SIGPROF ->
          deliverSignal sig i x = (Next tt, x, []))
      /\ (synchronousSignal sig = false ->
          sig <> SignalInterrupt -> sig <> SIGPROF ->
          deliverSignal sig i x
          = (Next tt, exec (sendExternalSignal i application) x,
             [EvCall (sendExternalSignal i application)])))
  /\ (AccessType_Any a = false ->
      r = (Next (Some runApp),
           stateOf (deliverSignal (Signo info) info t7),
           (tr5 ++ tr6 ++ tr7) ++ traceOf (deliverSignal (Signo info) info t7)))
  /\ (AccessType_Any a = false ->
      Signo info = SignalInterrupt \/ Signo info = SIGPROF ->
      r = (Next (Some runApp), t7, tr5 ++ tr6 ++ tr7))
  /\ (forall e tf,
        AccessType_Any a = true ->
        HandleUserFault (faultEntered t7) (SignalInfo_Addr info) a
          (Arch_Stack (faultEntered t7)) = (Some e, tf) ->
        Execute a = false
        \/ LookupEmulate (exec (EndRegion faultRegion) tf)
             (SignalInfo_Addr info) = None ->
        r = (Next (Some runApp),
             stateOf (deliverSignal (faultSignal e info) (faultInfo e info)
                        (faultUnhandled info a e tf)),
             (tr5 ++ tr6 ++ tr7)
             ++ faultTrace info a e t7 tf
             ++ traceOf (deliverSignal (faultSignal e info) (faultInfo e info)
                           (faultUnhandled info a e tf)))).
Proof.
  intros H5 H6 H7 r.
  assert (Hr : r = prepend (tr5 ++ tr6 ++ tr7)
                     (returned (contextSignal info a t7)))
    by exact (runApp_execute_resume _ _ _ _ _ _ _ _ _ _ _ H5 H6 H7).
  split; [| split; [| split]].
  - intros sig i x. split; [| split].
    + apply deliverSignal_synchronous.
    + apply deliverSignal_discarded.
    + apply deliverSignal_external.
  - intros Ha. rewrite Hr, (contextSignal_no_fault _ _ _ Ha).
    now rewrite deliver_then_runApp.
  - intros Ha Hd. rewrite Hr, (contextSignal_no_fault _ _ _ Ha).
    rewrite deliver_then_runApp, (deliverSignal_discarded _ _ _ Hd).
    unfold stateOf, traceOf; simpl. now rewrite app_nil_r.
  - intros e tf Ha Hf Hv.
    rewrite Hr, (contextSignal_fault_unhandled _ _ _ _ _ Ha Hf Hv).
    now rewrite deliver_then_runApp.
Qed.

(** * Further properties of task_run.go *)

(** ** Task work *)

Lemma forEach_TaskWork {R : Type} queue (t : Task World TaskWorker) :
  forEach (R := R) queue (fun w => call (TaskWork w)) t
  = (Next tt, afterTaskWork queue t, map (fun w => EvCall (TaskWork w)) queue).
Proof.
  revert t. induction queue as [| w queue IH]; intros t; [reflexivity |].
  cbn [forEach]. unfold bind at 1. unfold call at 1.
  rewrite IH. reflexivity.
Qed.

Lemma runTaskWork_run (t : Task World TaskWorker) :
  0 < taskWorkCount t ->
  let t1 := exec (Lock taskWorkMu) t in
  runTaskWork t
  = (Next tt,
     afterTaskWork (taskWork t1)
       (exec (Unlock taskWorkMu) (set_taskWorkCount 0 (set_taskWork [] t1))),
     taskWorkTrace (taskWork t1)).
Proof.
  intros Hc. cbv zeta. unfold runTaskWork.
  unfold bind at 1. unfold gets at 1.
  apply Z.ltb_lt in Hc. rewrite Hc.
  unfold bind, gets, modify.
  change (call (Lock taskWorkMu) t)
    with (Next (R := option taskRunState) tt, exec (Lock taskWorkMu) t,
          [EvCall (TaskWorker := TaskWorker) (Lock taskWorkMu)]).
  cbv beta iota.
  match goal with
  | |- context [call (Unlock taskWorkMu) ?x] =>
      change (call (Unlock taskWorkMu) x)
        with (Next (R := option taskRunState) tt, exec (Unlock taskWorkMu) x,
              [EvCall (TaskWorker := TaskWorker) (Unlock taskWorkMu)])
  end.
  cbv beta iota.
  rewrite forEach_TaskWork. reflexivity.
Qed.

Lemma countEv_taskWorkTrace (queue : list TaskWorker) :
  countEv isTaskWork (taskWorkTrace queue) = length queue.
Proof.
  unfold taskWorkTrace. rewrite !countEv_cons. simpl.
  induction queue as [| w queue IH]; [reflexivity |].
  cbn [map]. rewrite countEv_cons. simpl. now rewrite IH.
Qed.

Lemma afterTaskWork_no_task_work :
  emitsOnly (never isTaskWork)
    (restartSyscall ;; restoreSignalMask ;; applyRseq ;; resumeApp).
Proof.
  unfold restartSyscall, restoreSignalMask, applyRseq, resumeApp,
    enableSinglestep, switchToApp, handleSwitchResult, contextSignal,
    deliverSignal.
  emits.
Qed.

(** X1: the task-work block is gated by taskWorkCount, not by the queue.
    With a count that is not positive no callback runs and the lock is not
    taken, whatever the queue holds: the block leaves the task as it is.
    With a positive count the queue found under the lock is taken: the
    task's queue is set to empty and its count to zero, the lock is
    released on that task, and only then does every callback of the queue
    that was found run, once, in queue order, each on the task the one
    before it left, before anything else that runApp.execute does on this
    entry; the rest of the entry starts from the task the last callback
    left. *)
Theorem task_work_runs_once_in_order (R : Type) (t : Task World TaskWorker) :
  interrupted t = false ->
  let r := runApp_execute (R := R) t in
  let queue := taskWork (exec (Lock taskWorkMu) t) in
  let rest := restartSyscall ;; restoreSignalMask ;; applyRseq ;; resumeApp in
  let done := afterTaskWork queue (exec (Unlock taskWorkMu) (taskWorkTaken t)) in
  (taskWorkCount t <= 0 ->
   runTaskWork t = (Next tt, t, [])
   /\ r = prepend [EvInterrupted false] (sub rest t)
   /\ countEv isTaskWork (traceOf r) = 0%nat)
  /\ (0 < taskWorkCount t ->
      runTaskWork t = (Next tt, done, taskWorkTrace queue)
      /\ taskWork (taskWorkTaken t) = []
      /\ taskWorkCount (taskWorkTaken t) = 0
      /\ r = prepend (EvInterrupted false :: taskWorkTrace queue) (sub rest done)
      /\ (exists tr,
             traceOf r = EvInterrupted false :: taskWorkTrace queue ++ tr
             /\ countEv isTaskWork tr = 0%nat)
      /\ countEv isTaskWork (traceOf r) = length queue).
Proof.
  intros Hi r queue rest done.
  assert (Hbody : forall x, runApp_body x
                            = (checkInterrupted ;; runTaskWork ;; rest) x)
    by reflexivity.
  assert (Hrest : forall x, countEv isTaskWork (traceOf (rest x)) = 0%nat)
    by (intros x; apply countEv_never, afterTaskWork_no_task_work).
  split.
  - intros Hc.
    assert (Hw : runTaskWork t = (Next tt, t, [])).
    { unfold runTaskWork, bind, gets. apply Z.ltb_ge in Hc. now rewrite Hc. }
    assert (Hr : r = prepend [EvInterrupted false] (sub rest t)).
    { unfold r, runApp_execute, sub. rewrite Hbody.
      rewrite (bind_Next _ _ _ _ _ _ (checkInterrupted_false t Hi)).
      rewrite (bind_Next _ _ _ _ _ _ Hw).
      now rewrite prepend_prepend, returned_prepend. }
    split; [exact Hw |]. split; [exact Hr |].
    rewrite Hr, traceOf_prepend. unfold sub. rewrite traceOf_returned.
    cbn [app]. rewrite countEv_cons. simpl. apply Hrest.
  - intros Hc.
    pose proof (runTaskWork_run t Hc) as Hw. cbv zeta in Hw.
    fold queue in Hw. fold (taskWorkTaken t) in Hw. fold done in Hw.
    assert (Hr : r = prepend (EvInterrupted false :: taskWorkTrace queue)
                       (sub rest done)).
    { unfold r, runApp_execute, sub. rewrite Hbody.
      rewrite (bind_Next _ _ _ _ _ _ (checkInterrupted_false t Hi)).
      rewrite (bind_Next _ _ _ _ _ _ Hw).
      now rewrite prepend_prepend, returned_prepend. }
    assert (Htr : traceOf r
                  = EvInterrupted false
                    :: taskWorkTrace queue ++ traceOf (rest done)).
    { rewrite Hr, traceOf_prepend. unfold sub. now rewrite traceOf_returned. }
    split; [exact Hw |]. split; [reflexivity |]. split; [reflexivity |].
    split; [exact Hr |].
    split.
    + eexists. split; [exact Htr | apply Hrest].
    + rewrite Htr, countEv_cons, countEv_app, countEv_taskWorkTrace, Hrest.
      simpl. lia.
Qed.

(** ** Leaving the stop gate *)

Lemma tally_app w (tr1 tr2 : list (Event TaskWorker)) :
  tally w (tr1 ++ tr2) = tally w tr1 + tally w tr2.
Proof.
  unfold tally. induction tr1 as [| e tr1 IH]; simpl; [reflexivity |].
  rewrite IH. lia.
Qed.

Lemma tally_zero w (tr : list (Event TaskWorker)) :
  forallb (fun e => w e =? 0) tr = true -> tally w tr = 0.
Proof.
  unfold tally. induction tr as [| e tr IH]; simpl; [reflexivity |].
  intros H. apply andb_true_iff in H as [He Ht].
  apply Z.eqb_eq in He. rewrite He, IH; auto.
Qed.

(** The events of the wait loop of [doStop]. *)
Lemma awaitEndStop_released waits k (t : Task World TaskWorker) :
  (k <= waits)%nat ->
  (forall n, (n < k)%nat ->
             0 < stopCount (Nat.iter n (exec endStopCond_Wait) t)) ->
  stopCount (Nat.iter k (exec endStopCond_Wait) t) <= 0 ->
  exists tr,
    awaitEndStop waits t
    = (Next tt, Nat.iter k (exec endStopCond_Wait) t, tr)
    /\ countEv isWait tr = k
    /\ forallb (fun e => match e with
                         | EvStopCountRacyLoad _ | EvCall endStopCond_Wait => true
                         | _ => false
                         end) tr = true.
Proof.
  revert k t. induction waits as [| w IH]; intros k t Hk Hpos Hz.
  - assert (k = 0%nat) by lia. subst k. simpl in Hz.
    cbn [awaitEndStop]. unfold bind, observe.
    apply Z.ltb_ge in Hz. rewrite Hz. now eexists.
  - destruct k as [| k].
    + simpl in Hz. cbn [awaitEndStop]. unfold bind at 1. unfold observe at 1.
      apply Z.ltb_ge in Hz. rewrite Hz. now eexists.
    + cbn [awaitEndStop]. unfold bind at 1. unfold observe at 1.
      assert (Hv : (0 <? stopCount t) = true)
        by (apply Z.ltb_lt; apply (Hpos 0%nat); lia).
      rewrite Hv. unfold bind at 1. unfold call at 1.
      destruct (IH k (exec endStopCond_Wait t)) as (tr & Hr & Hc & Ha).
      * lia.
      * intros n Hn. rewrite <- Nat.iter_succ_r. apply Hpos. lia.
      * now rewrite <- Nat.iter_succ_r.
      * rewrite Hr. rewrite Nat.iter_succ_r. eexists. split; [reflexivity |].
        split; [| exact Ha].
        cbn [app]. rewrite !countEv_cons, Hc. reflexivity.
Qed.

(** X2: a stopped goroutine leaves the gate at the first wake-up that finds
    the stop count not positive: if the count is nonzero at the check, still
    positive at the first [k] racy reads and not positive at the next one,
    [doStop] returns after exactly [k] calls of [endStopCond.Wait], having
    undone its bookkeeping in reverse order: the address space is active
    again, the signal mutex released, the stopped-state accounting left, and
    the two wait groups back where they were. *)
Theorem doStop_returns_when_released waits k (t : Task World TaskWorker) :
  (k <= waits)%nat ->
  stopCount t <> 0 ->
  (forall n, (n < k)%nat -> 0 < stopCount (afterWaits n t)) ->
  stopCount (afterWaits k t) <= 0 ->
  let r := doStop waits t in
  resultOf r = Next tt
  /\ stateOf r = stopLeft (afterWaits k t)
  /\ countEv isWait (traceOf r) = k
  /\ countEv isGateCheck (traceOf r) = 1%nat
  /\ tally activeDelta (traceOf r) = 0
  /\ tally (lockDelta signalHandlersMu) (traceOf r) = 0
  /\ tally (accountDelta TaskGoroutineStopped) (traceOf r) = 0
  /\ tally stoppedDelta (traceOf r) = 0
  /\ tally runningDelta (traceOf r) = 0.
Proof.
  intros Hk Hz Hpos Hrel r.
  destruct (awaitEndStop_released waits k (stopEntered t) Hk Hpos Hrel)
    as (tr & Hw & Hc & Ha).
  assert (Hr : r = (Next tt, stopLeft (afterWaits k t),
                    [EvStopCountLoad (stopCount t); EvCall Deactivate;
                     EvCall (accountTaskGoroutineEnter TaskGoroutineStopped);
                     EvCall (Lock signalHandlersMu);
                     EvCall (runningGoroutines_Add (-1));
                     EvCall (goroutineStopped_Add (-1))]
                    ++ tr
                    ++ [EvCall (goroutineStopped_Add 1);
                        EvCall (runningGoroutines_Add 1);
                        EvCall (Unlock signalHandlersMu);
                        EvCall (accountTaskGoroutineLeave TaskGoroutineStopped);
                        EvCall Activate])).
  { unfold r, doStop. unfold bind at 1. unfold observe at 1.
    apply Z.eqb_neq in Hz. rewrite Hz.
    repeat (unfold bind at 1; unfold call at 1).
    unfold stopEntered in Hw. rewrite Hw. reflexivity. }
  assert (Hzero : forall w,
             (forall v, w (EvStopCountRacyLoad v) = 0) ->
             w (EvCall endStopCond_Wait) = 0 -> tally w tr = 0).
  { intros w H1 H2. apply tally_zero.
    revert Ha. apply forallb_weaken. intros e.
    destruct e as [c | | | | | | | | | | | | |]; try discriminate;
      [destruct c; try discriminate; intros _; now rewrite H2
      | intros _; now rewrite H1]. }
  rewrite Hr. unfold resultOf, stateOf, traceOf. cbn [fst snd].
  split; [reflexivity |]. split; [reflexivity |].
  split; [rewrite countEv_app, countEv_app, Hc; unfold countEv; simpl; lia |].
  split.
  { rewrite countEv_app, countEv_app.
    rewrite (countEv_never isGateCheck tr); [reflexivity |].
    revert Ha. apply forallb_weaken.
    intros e. destruct e as [c | | | | | | | | | | | | |]; try discriminate;
      [now destruct c | reflexivity]. }
  repeat split; rewrite tally_app, tally_app, Hzero; reflexivity.
Qed.

(** ** What runApp.execute holds when it returns *)

Lemma level_app w n (tr1 tr2 : list (Event TaskWorker)) :
  level w n (tr1 ++ tr2)
  = match level w n tr1 with
    | Some k => level w k tr2
    | None => None
    end.
Proof.
  revert n. induction tr1 as [| e tr1 IH]; intros n; [reflexivity |].
  cbn [app level]. cbv zeta.
  destruct ((0 <=? n + w e) && (n + w e <=? 1)); [apply IH | reflexivity].
Qed.

Lemma keeps_bind {R A B : Type} w pre mid post
    (m : @M World TaskWorker R A) (f : A -> @M World TaskWorker R B) :
  keeps w pre mid m -> (forall a, keeps w mid post (f a)) ->
  keeps w pre post (bind m f).
Proof.
  intros Hm Hf t. unfold bind. specialize (Hm t).
  destruct (m t) as [[[a | r | h] t1] tr1]; try exact Hm.
  specialize (Hf a t1). destruct (f a t1) as [[[b | r | h] t2] tr2];
    rewrite ?level_app, ?Hm; exact Hf.
Qed.

Lemma keeps_ret {R A : Type} w pre post (a : A) :
  pre = post -> keeps w pre post (@ret World TaskWorker R A a).
Proof. intros -> t. reflexivity. Qed.

Lemma keeps_return {R A : Type} w pre post (r : R) :
  pre = 0 -> keeps w pre post (@return_ World TaskWorker R A r).
Proof. intros -> t. reflexivity. Qed.

Lemma keeps_gets {R A : Type} w pre (f : Task World TaskWorker -> A) :
  keeps w pre pre (@gets _ _ R A f).
Proof. intro; reflexivity. Qed.

Lemma keeps_modify {R : Type} w pre
    (f : Task World TaskWorker -> Task World TaskWorker) :
  keeps w pre pre (@modify _ _ R f).
Proof. intro; reflexivity. Qed.

Lemma keeps_call {R : Type} (w : Event TaskWorker -> Z) pre post c :
  level w pre [EvCall c] = Some post ->
  keeps w pre post (@call World TaskWorker K R c).
Proof. intros H t. exact H. Qed.

Lemma keeps_observe {R A : Type} (w : Event TaskWorker -> Z) pre
    (f : Task World TaskWorker -> A) ev :
  (forall a, level w pre [ev a] = Some pre) ->
  keeps w pre pre (@observe _ _ R A f ev).
Proof. intros H t. apply H. Qed.

Lemma keeps_invoke {R A : Type} (w : Event TaskWorker -> Z) pre
    (f : Task World TaskWorker -> A * Task World TaskWorker) ev :
  (forall a, level w pre [ev a] = Some pre) ->
  keeps w pre pre (@invoke _ _ R A f ev).
Proof. intros H t. unfold invoke. destruct (f t) as [a t1]. apply H. Qed.

Lemma keeps_forEach {R A : Type} w pre (l : list A)
    (body : A -> @M World TaskWorker R unit) :
  (forall a, keeps w pre pre (body a)) -> keeps w pre pre (forEach l body).
Proof.
  intros H. induction l as [| x l IH]; cbn [forEach].
  - now apply keeps_ret.
  - eapply keeps_bind; [apply H | intros _; exact IH].
Qed.

Ltac keeps_step :=
  first
    [ eapply keeps_bind; [| intro]
    | apply keeps_ret; reflexivity
    | apply keeps_return; reflexivity
    | apply keeps_gets
    | apply keeps_modify
    | apply keeps_call; cbv; reflexivity
    | apply keeps_observe; intro; cbv; reflexivity
    | apply keeps_invoke;
      intros;
      repeat match goal with x : (_ * _)%type |- _ => destruct x end;
      cbv; reflexivity
    | apply keeps_forEach; intro
    | match goal with
      | |- keeps _ _ _ (if ?b then _ else _) => destruct b
      | |- keeps _ _ _ (match ?x with _ => _ end) => destruct x
      end ].

Ltac keeps_all :=
  unfold runApp_body, checkInterrupted, runTaskWork, restartSyscall,
    restoreSignalMask, applyRseq, resumeApp, enableSinglestep, switchToApp,
    handleSwitchResult, contextSignal, deliverSignal;
  repeat keeps_step.

Lemma runApp_body_keeps_locks m : keeps (lockDelta m) 0 0 runApp_body.
Proof. destruct m; keeps_all. Qed.

Lemma runApp_body_keeps_rlocks m : keeps (rlockDelta m) 0 0 runApp_body.
Proof. destruct m; keeps_all. Qed.

Lemma runApp_body_keeps_regions g : keeps (regionDelta g) 0 0 runApp_body.
Proof. destruct g; keeps_all. Qed.

Lemma runApp_body_keeps_accounting s : keeps (accountDelta s) 0 0 runApp_body.
Proof. destruct s; keeps_all. Qed.

Lemma keeps_returned {R : Type} w (t : Task World TaskWorker) :
  keeps w 0 0 runApp_body ->
  (exists next, resultOf (runApp_execute (R := R) t) = Next next)
  /\ level w 0 (traceOf (runApp_execute (R := R) t)) = Some 0.
Proof.
  intros H. specialize (H t). unfold runApp_execute, sub.
  destruct (runApp_body t) as [[[a | r | h] t1] tr]; [| | contradiction];
    (split; [now eexists | exact H]).
Qed.

(** X3: runApp.execute always comes back to the run loop with a next state,
    and on every path, the early returns included, it comes back holding
    nothing: each mutex it locked or read-locked is released, each trace
    region it started is ended and each accounting state it entered is left;
    along the way no mutex is taken while it is held or released while it is
    not, and no region or accounting state is ended before it is started. *)
Theorem runApp_execute_returns_holding_nothing (R : Type)
    (t : Task World TaskWorker) :
  let r := runApp_execute (R := R) t in
  (exists next, resultOf r = Next next)
  /\ (forall m, level (lockDelta m) 0 (traceOf r) = Some 0)
  /\ (forall m, level (rlockDelta m) 0 (traceOf r) = Some 0)
  /\ (forall g, level (regionDelta g) 0 (traceOf r) = Some 0)
  /\ (forall s, level (accountDelta s) 0 (traceOf r) = Some 0).
Proof.
  cbv zeta.
  split; [exact (proj1 (keeps_returned _ t (runApp_body_keeps_locks taskWorkMu))) |].
  split; [intros m; exact (proj2 (keeps_returned _ t (runApp_body_keeps_locks m))) |].
  split; [intros m; exact (proj2 (keeps_returned _ t (runApp_body_keeps_rlocks m))) |].
  split; [intros g; exact (proj2 (keeps_returned _ t (runApp_body_keeps_regions g))) |].
  intros s; exact (proj2 (keeps_returned _ t (runApp_body_keeps_accounting s))).
Qed.

(** ** The goroutine as the rest of the kernel counts it *)

Lemma countEv_tally p (tr : list (Event TaskWorker)) :
  Z.of_nat (countEv p tr) = tally (one p) tr.
Proof.
  unfold countEv, tally, one. induction tr as [| e tr IH]; [reflexivity |].
  cbn [filter fold_right]. destruct (p e); cbn [length]; lia.
Qed.

Lemma tally_body_zero w :
  emitsOnly (fun e => w e =? 0) runApp_body ->
  forall t : Task World TaskWorker, tally w (traceOf (runApp_body t)) = 0.
Proof. intros H t. apply tally_zero, H. Qed.

Lemma awaitEndStop_shape waits (t : Task World TaskWorker) :
  match awaitEndStop waits t with
  | (r, _, tr) =>
      forallb (fun e => match e with
                        | EvStopCountRacyLoad _ | EvCall endStopCond_Wait => true
                        | _ => false
                        end) tr = true
      /\ (r = Next tt \/ r = Halted Parked)
  end.
Proof.
  revert t. induction waits as [| w IH]; intros t;
    cbn [awaitEndStop]; unfold bind at 1; unfold observe at 1;
    cbv beta iota; destruct (0 <? stopCount t).
  - split; [reflexivity | now right].
  - split; [reflexivity | now left].
  - unfold bind at 1. unfold call at 1.
    specialize (IH (exec endStopCond_Wait t)).
    destruct (awaitEndStop w (exec endStopCond_Wait t)) as [[r t1] tr].
    exact IH.
  - split; [reflexivity | now left].
Qed.

Lemma doStop_run waits (t : Task World TaskWorker) :
  doStop waits t
  = if stopCount t =? 0 then (Return tt, t, [EvStopCountLoad (stopCount t)])
    else
      match awaitEndStop waits (stopEntered t) with
      | (Next _, t1, tr) =>
          (Next tt, stopLeft t1,
           EvStopCountLoad (stopCount t)
           :: stopEnterTrace ++ tr ++ stopLeaveTrace)
      | (Return r, t1, tr) =>
          (Return r, t1, EvStopCountLoad (stopCount t) :: stopEnterTrace ++ tr)
      | (Halted h, t1, tr) =>
          (Halted h, t1, EvStopCountLoad (stopCount t) :: stopEnterTrace ++ tr)
      end.
Proof.
  unfold doStop, bind, observe, call, return_, stopEntered, stopLeft.
  destruct (stopCount t =? 0); [reflexivity |].
  match goal with |- context [awaitEndStop waits ?x] =>
    destruct (awaitEndStop waits x) as [[[[] | [] | h] t1] tr]
  end; reflexivity.
Qed.

Lemma doStop_shape waits (t : Task World TaskWorker) :
  doStop waits t = (Return tt, t, [EvStopCountLoad (stopCount t)])
  \/ exists t1 tr,
      forallb (fun e => match e with
                        | EvStopCountRacyLoad _ | EvCall endStopCond_Wait => true
                        | _ => false
                        end) tr = true
      /\ (doStop waits t
          = (Next tt, stopLeft t1,
             EvStopCountLoad (stopCount t)
             :: stopEnterTrace ++ tr ++ stopLeaveTrace)
          \/ doStop waits t
             = (Halted Parked, t1,
                EvStopCountLoad (stopCount t) :: stopEnterTrace ++ tr)).
Proof.
  rewrite doStop_run.
  destruct (stopCount t =? 0); [now left | right].
  pose proof (awaitEndStop_shape waits (stopEntered t)) as Hs.
  destruct (awaitEndStop waits (stopEntered t)) as [[r t1] tr].
  destruct Hs as [Ha [-> | ->]]; exists t1, tr; (split; [exact Ha |]).
  - left. reflexivity.
  - right. reflexivity.
Qed.

Lemma doStop_tally w waits (t : Task World TaskWorker) :
  (forall v, w (EvStopCountLoad v) = 0) ->
  (forall v, w (EvStopCountRacyLoad v) = 0) ->
  w (EvCall endStopCond_Wait) = 0 ->
  tally w stopEnterTrace + tally w stopLeaveTrace = 0 ->
  match doStop waits t with
  | (Halted h, _, tr) => h = Parked /\ tally w tr = tally w stopEnterTrace
  | (_, _, tr) => tally w tr = 0
  end.
Proof.
  intros Hl Hr Hw Hb.
  assert (Hz : forall tr,
             forallb (fun e => match e with
                               | EvStopCountRacyLoad _
                               | EvCall endStopCond_Wait => true
                               | _ => false
                               end) tr = true -> tally w tr = 0).
  { intros tr Ha. apply tally_zero. revert Ha. apply forallb_weaken.
    intros e. destruct e as [c | | | | | | | | | | | | |]; try discriminate;
      [destruct c; try discriminate; intros _; now rewrite Hw
      | intros _; now rewrite Hr]. }
  destruct (doStop_shape waits t) as [-> | (t1 & tr & Ha & [-> | ->])].
  - unfold tally; simpl. rewrite Hl. reflexivity.
  - change (EvStopCountLoad (stopCount t)
            :: stopEnterTrace ++ tr ++ stopLeaveTrace)
      with ([EvStopCountLoad (stopCount t)]
            ++ stopEnterTrace ++ tr ++ stopLeaveTrace).
    rewrite !tally_app, (Hz tr Ha). unfold tally in *; simpl in *.
    rewrite Hl. lia.
  - split; [reflexivity |].
    change (EvStopCountLoad (stopCount t) :: stopEnterTrace ++ tr)
      with ([EvStopCountLoad (stopCount t)] ++ stopEnterTrace ++ tr).
    rewrite !tally_app, (Hz tr Ha). unfold tally in *; simpl in *.
    rewrite Hl. lia.
Qed.

Lemma teardown_trace (t : Task World TaskWorker) :
  exists t1 v,
    (teardown ;; return_ (A := unit) tt) t = (Return tt, t1, teardownTrace v).
Proof. rewrite teardown_left. now eexists _, _. Qed.

Lemma execute_run {R : Type} s (t : Task World TaskWorker) :
  exists next t2 tr2,
    execute (R := R) s t = (Next next, t2, EvExecute s :: tr2)
    /\ (tr2 = [] \/ tr2 = traceOf (runApp_body t)).
Proof.
  unfold execute, bind, emit. destruct s.
  - destruct (keeps_returned (R := R) _ t (runApp_body_keeps_locks taskWorkMu))
      as [[next Hn] _].
    unfold runApp_execute, sub in *.
    destruct (runApp_body t) as [[[a | x | h] t2] tr2]; try discriminate Hn;
      eexists _, _, _; (split; [reflexivity | now right]).
  - unfold lift. destruct (execute_other runInterrupt t) as [a t2].
    eexists _, _, _; (split; [reflexivity | now left]).
  - unfold lift. destruct (execute_other runExit t) as [a t2].
    eexists _, _, _; (split; [reflexivity | now left]).
  - unfold lift. destruct (execute_other (runOther id) t) as [a t2].
    eexists _, _, _; (split; [reflexivity | now left]).
Qed.

(** The loop of [Task.run] under a tally that the application state and
    the gate checks leave alone. *)
Lemma runLoop_tally w dStop dExit :
  (forall t : Task World TaskWorker, tally w (traceOf (runApp_body t)) = 0) ->
  (forall s, w (EvExecute s) = 0) ->
  (forall v, w (EvStopCountLoad v) = 0) ->
  (forall v, w (EvStopCountRacyLoad v) = 0) ->
  w (EvCall endStopCond_Wait) = 0 ->
  tally w stopEnterTrace = dStop ->
  tally w stopEnterTrace + tally w stopLeaveTrace = 0 ->
  (forall b, tally w (teardownTrace b) = dExit) ->
  forall waits fuel (t : Task World TaskWorker),
    match runLoop waits fuel t with
    | (Return _, _, tr) => tally w tr = dExit
    | (Halted Parked, _, tr) => tally w tr = dStop
    | (Halted _, _, tr) => tally w tr = 0
    | (Next _, _, _) => False
    end.
Proof.
  intros Hbody Hexec Hl Hr Hw Hstop Hbal Hexit waits fuel.
  induction fuel as [| f IH]; intros t; [reflexivity |].
  rewrite runLoop_S. unfold sub.
  pose proof (doStop_tally w waits t Hl Hr Hw Hbal) as Hs.
  destruct (doStop waits t) as [[rs t1] tr1].
  assert (Hnext : tally w tr1 = 0 ->
                  match afterStop waits f tr1 t1 with
                  | (Return _, _, tr) => tally w tr = dExit
                  | (Halted Parked, _, tr) => tally w tr = dStop
                  | (Halted _, _, tr) => tally w tr = 0
                  | (Next _, _, _) => False
                  end).
  { intros H1. unfold afterStop.
    destruct (runState t1) as [s |]; [| exact H1].
    destruct (execute_run (R := unit) s t1) as (next & t2 & tr2 & -> & Htr2).
    assert (H2 : tally w (tr1 ++ EvExecute s :: tr2) = 0).
    { rewrite tally_app, H1.
      change (EvExecute s :: tr2) with ([EvExecute s] ++ tr2).
      rewrite tally_app. unfold tally at 1; simpl. rewrite Hexec.
      destruct Htr2 as [-> | ->]; [reflexivity | now rewrite Hbody]. }
    destruct next as [s' |].
    - specialize (IH (set_runState (Some s') t2)).
      destruct (runLoop waits f (set_runState (Some s') t2))
        as [[[[] | [] | []] t3] tr3]; cbn [prepend];
        try contradiction; rewrite tally_app, H2; exact IH.
    - destruct (teardown_trace (set_runState None t2)) as (t3 & b & ->).
      cbn [prepend]. now rewrite tally_app, H2, Hexit. }
  destruct rs as [[] | [] | h]; cbn [returned].
  - apply Hnext, Hs.
  - apply Hnext, Hs.
  - destruct Hs as [-> Hs]. now rewrite Hs.
Qed.

Lemma run_tally w dStop dExit :
  (forall t : Task World TaskWorker, tally w (traceOf (runApp_body t)) = 0) ->
  (forall s, w (EvExecute s) = 0) ->
  (forall v, w (EvStopCountLoad v) = 0) ->
  (forall v, w (EvStopCountRacyLoad v) = 0) ->
  w (EvCall endStopCond_Wait) = 0 ->
  tally w stopEnterTrace = dStop ->
  tally w stopEnterTrace + tally w stopLeaveTrace = 0 ->
  (forall b, tally w (teardownTrace b) = dExit) ->
  forall waits fuel (t : Task World TaskWorker),
    let r := run waits fuel t in
    tally w (traceOf r)
    = tally w startTrace
      + (if exited (resultOf r) then dExit + tally w deferredTrace
         else if parked (resultOf r) then dStop
         else if panicked (resultOf r) then tally w deferredTrace
         else 0).
Proof.
  intros Hbody Hexec Hl Hr Hw Hstop Hbal Hexit waits fuel t. cbv zeta.
  rewrite run_unfold.
  pose proof (runLoop_tally w dStop dExit Hbody Hexec Hl Hr Hw Hstop Hbal Hexit
                waits fuel (loopEntry t)) as H.
  destruct (runLoop waits fuel (loopEntry t)) as [[[[] | [] | []] t1] tr];
    unfold traceOf, resultOf; cbn [fst snd exited parked panicked unwinds];
    try contradiction;
    rewrite ?tally_app, H; unfold deferredTrace; lia.
Qed.

Lemma level_tally w n k (tr : list (Event TaskWorker)) :
  level w n tr = Some k -> k = n + tally w tr.
Proof.
  revert n. induction tr as [| e tr IH]; intros n; cbn [level].
  - intros [= <-]. unfold tally; simpl. lia.
  - cbv zeta. destruct ((0 <=? n + w e) && (n + w e <=? 1)); [| discriminate].
    intros H. apply IH in H. unfold tally in *; simpl. lia.
Qed.

Lemma keeps_tally w :
  keeps w 0 0 runApp_body ->
  forall t : Task World TaskWorker, tally w (traceOf (runApp_body t)) = 0.
Proof.
  intros H t. specialize (H t). unfold traceOf.
  destruct (runApp_body t) as [[[a | r | h] t1] tr]; [| | contradiction];
    apply level_tally in H; cbn [snd]; lia.
Qed.

Ltac quiet_body :=
  apply tally_body_zero;
  unfold runApp_body, checkInterrupted, runTaskWork, restartSyscall,
    restoreSignalMask, applyRseq, resumeApp, enableSinglestep, switchToApp,
    handleSwitchResult, contextSignal, deliverSignal;
  emits.

Ltac run_tally_from w body :=
  rewrite (run_tally w _ _ body
             ltac:(reflexivity) ltac:(reflexivity) ltac:(reflexivity)
             ltac:(reflexivity) ltac:(reflexivity) ltac:(reflexivity)
             ltac:(intros v; unfold teardownTrace; destruct (v =? 0);
                   cbv; reflexivity)).

Ltac run_tally_with w :=
  rewrite (run_tally w _ _ ltac:(quiet_body)
             ltac:(reflexivity) ltac:(reflexivity) ltac:(reflexivity)
             ltac:(reflexivity) ltac:(reflexivity) ltac:(reflexivity)
             ltac:(intros v; unfold teardownTrace; destruct (v =? 0);
                   cbv; reflexivity)).

(** X4: what [waitGoroutineStoppedOrExited] waits for.  Over any run of the
    task goroutine, what task_run.go has added to the wait groups
    goroutineStopped and runningGoroutines is minus one exactly when the
    goroutine is blocked in the stop gate or has returned, and zero while it
    is running: leaving the gate gives back what entering it took. *)
Theorem wait_groups_count_stopped_or_exited waits fuel
    (t : Task World TaskWorker) :
  let r := run waits fuel t in
  let d := if parked (resultOf r) || exited (resultOf r) then -1 else 0 in
  tally stoppedDelta (traceOf r) = d
  /\ tally runningDelta (traceOf r) = d.
Proof.
  cbv zeta. split.
  - run_tally_with (@stoppedDelta TaskWorker).
    destruct (resultOf (run waits fuel t)) as [[] | [] | []]; reflexivity.
  - run_tally_with (@runningDelta TaskWorker).
    destruct (resultOf (run waits fuel t)) as [[] | [] | []]; reflexivity.
Qed.

Lemma doStop_parked_shape waits (t : Task World TaskWorker) :
  match doStop waits t with
  | (Halted h, _, tr) =>
      h = Parked /\ stopCount t <> 0
      /\ exists rest,
          tr = EvStopCountLoad (stopCount t) :: stopEnterTrace ++ rest
          /\ forallb isWaiting rest = true
  | _ => True
  end.
Proof.
  rewrite doStop_run.
  destruct (stopCount t =? 0) eqn:Hz; [exact I |].
  apply Z.eqb_neq in Hz.
  pose proof (awaitEndStop_shape waits (stopEntered t)) as Hs.
  destruct (awaitEndStop waits (stopEntered t)) as [[r t1] tr].
  destruct Hs as [Ha [-> | ->]]; [exact I |].
  split; [reflexivity |]. split; [exact Hz |].
  exists tr. split; [reflexivity | exact Ha].
Qed.

Lemma runLoop_parked_shape waits fuel (t : Task World TaskWorker) :
  match runLoop waits fuel t with
  | (Halted Parked, _, tr) =>
      exists pre v rest,
        v <> 0
        /\ tr = pre ++ EvStopCountLoad v :: stopEnterTrace ++ rest
        /\ forallb isWaiting rest = true
  | _ => True
  end.
Proof.
  revert t. induction fuel as [| f IH]; intros t; [exact I |].
  rewrite runLoop_S. unfold sub.
  pose proof (doStop_parked_shape waits t) as Hs.
  destruct (doStop waits t) as [[rs t1] tr1].
  assert (Hnext :
    match afterStop waits f tr1 t1 with
    | (Halted Parked, _, tr) =>
        exists pre v rest,
          v <> 0
          /\ tr = pre ++ EvStopCountLoad v :: stopEnterTrace ++ rest
          /\ forallb isWaiting rest = true
    | _ => True
    end).
  { unfold afterStop. destruct (runState t1) as [s |]; [| exact I].
    destruct (execute_run (R := unit) s t1) as (next & t2 & tr2 & -> & _).
    destruct next as [s' |].
    - specialize (IH (set_runState (Some s') t2)).
      destruct (runLoop waits f (set_runState (Some s') t2))
        as [[[[] | [] | []] t3] tr3]; cbn [prepend]; try exact I.
      destruct IH as (pre & v & rest & Hv & -> & Hw).
      exists ((tr1 ++ EvExecute s :: tr2) ++ pre), v, rest.
      split; [exact Hv |]. split; [now rewrite app_assoc | exact Hw].
    - rewrite teardown_left. exact I. }
  destruct rs as [[] | [] | h]; cbn [returned]; [exact Hnext | exact Hnext |].
  destruct Hs as (-> & Hz & rest & -> & Hw).
  exists [], (stopCount t), rest. split; [exact Hz |]. now split.
Qed.

(** X5: how the goroutine is accounted for.  Over any run, the goroutine
    is inside the accounting state TaskGoroutineStopped exactly while it is
    blocked in the stop gate, inside TaskGoroutineNonexistent exactly once
    it has returned, and at the top of the loop never inside
    TaskGoroutineRunningApp.  A goroutine that is blocked in the gate has,
    since the check that found the stop count nonzero, deactivated its
    address space, entered TaskGoroutineStopped, locked the signal mutex and
    left the two wait groups, in this order, and has since only re-read the
    count and waited. *)
Theorem goroutine_state_accounting waits fuel (t : Task World TaskWorker) :
  let r := run waits fuel t in
  tally (accountDelta TaskGoroutineStopped) (traceOf r)
  = (if parked (resultOf r) then 1 else 0)
  /\ tally (accountDelta TaskGoroutineNonexistent) (traceOf r)
     = (if exited (resultOf r) then 1 else 0)
  /\ tally (accountDelta TaskGoroutineRunningApp) (traceOf r) = 0
  /\ (parked (resultOf r) = true ->
      exists pre v rest,
        v <> 0
        /\ traceOf r = pre ++ EvStopCountLoad v :: stopEnterTrace ++ rest
        /\ forallb isWaiting rest = true).
Proof.
  cbv zeta. split; [| split; [| split]].
  - run_tally_from (@accountDelta TaskWorker TaskGoroutineStopped)
      (keeps_tally _ (runApp_body_keeps_accounting TaskGoroutineStopped)).
    destruct (resultOf (run waits fuel t)) as [[] | [] | []]; reflexivity.
  - run_tally_from (@accountDelta TaskWorker TaskGoroutineNonexistent)
      (keeps_tally _ (runApp_body_keeps_accounting TaskGoroutineNonexistent)).
    destruct (resultOf (run waits fuel t)) as [[] | [] | []]; reflexivity.
  - run_tally_from (@accountDelta TaskWorker TaskGoroutineRunningApp)
      (keeps_tally _ (runApp_body_keeps_accounting TaskGoroutineRunningApp)).
    destruct (resultOf (run waits fuel t)) as [[] | [] | []]; reflexivity.
  - rewrite run_unfold.
    pose proof (runLoop_parked_shape waits fuel (loopEntry t)) as H.
    destruct (runLoop waits fuel (loopEntry t)) as [[[[] | [] | []] t1] tr];
      unfold traceOf, resultOf; cbn [fst snd parked unwinds];
      try discriminate.
    intros _. destruct H as (pre & v & rest & Hv & -> & Hw).
    exists (startTrace ++ pre), v, rest.
    split; [exact Hv |]. split; [now rewrite app_assoc | exact Hw].
Qed.

Lemma runLoop_returns_or_halts waits fuel (t : Task World TaskWorker) :
  match runLoop waits fuel t with
  | (Next _, _, _) => False
  | _ => True
  end.
Proof.
  assert (H : forall tr : list (Event TaskWorker), tally (fun _ => 0) tr = 0).
  { intros tr. apply tally_zero, forallb_forall. reflexivity. }
  pose proof (runLoop_tally (fun _ => 0) 0 0 (fun x => H _) (fun _ => eq_refl)
                (fun _ => eq_refl) (fun _ => eq_refl) eq_refl eq_refl eq_refl
                (fun b => H _) waits fuel t) as Hn.
  now destruct (runLoop waits fuel t) as [[[[] | [] | h] t1] tr].
Qed.

(** X6: what the goroutine gives back, and when.  Over any run, the
    platform context is released and the thread group's liveGoroutines is
    marked done exactly once each if [Task.run] returns, and not at all
    otherwise.  The two deferred calls, blockingTimer.Destroy and then
    CleanupSync.Done, run exactly once each if [Task.run] returns or panics
    on a nil state, and not at all while the loop runs or the goroutine is
    blocked in the stop gate.  A run that returns ends with the exit
    sequence of lines 99-117, started in a task whose state is nil,
    followed by the deferred calls; a run that finds a nil state at the top
    of its first iteration, with no stop pending, makes the gate check and
    then only the deferred calls. *)
Theorem exit_gives_back_once waits fuel (t : Task World TaskWorker) :
  let r := run waits fuel t in
  let left := if exited (resultOf r) then 1%nat else 0%nat in
  let unwound := if exited (resultOf r) || panicked (resultOf r)
                 then 1%nat else 0%nat in
  countEv isRelease (traceOf r) = left
  /\ countEv isLiveGoroutinesDone (traceOf r) = left
  /\ countEv isDestroy (traceOf r) = unwound
  /\ countEv isCleanupDone (traceOf r) = unwound
  /\ tally cleanupDelta (traceOf r)
     = (if exited (resultOf r) || panicked (resultOf r) then 0 else 1)
  /\ (exited (resultOf r) = true ->
      exists pre x,
        runState x = None
        /\ traceOf r
           = startTrace ++ pre ++ teardownTrace (teardownCount x)
             ++ deferredTrace)
  /\ (panicked (resultOf r) = true ->
      exists pre, traceOf r = startTrace ++ pre ++ deferredTrace)
  /\ (runState (loopEntry t) = None ->
      stopCount (loopEntry t) = 0 ->
      (0 < fuel)%nat ->
      r = (Halted NilDereference,
           exec CleanupSync_Done (exec blockingTimer_Destroy (loopEntry t)),
           startTrace ++ [EvStopCountLoad 0] ++ deferredTrace)).
Proof.
  cbv zeta. repeat split.
  - apply Nat2Z.inj. rewrite countEv_tally.
    run_tally_with (one (@isRelease TaskWorker)).
    destruct (resultOf (run waits fuel t)) as [[] | [] | []]; reflexivity.
  - apply Nat2Z.inj. rewrite countEv_tally.
    run_tally_with (one (@isLiveGoroutinesDone TaskWorker)).
    destruct (resultOf (run waits fuel t)) as [[] | [] | []]; reflexivity.
  - apply Nat2Z.inj. rewrite countEv_tally.
    run_tally_with (one (@isDestroy TaskWorker)).
    destruct (resultOf (run waits fuel t)) as [[] | [] | []]; reflexivity.
  - apply Nat2Z.inj. rewrite countEv_tally.
    run_tally_with (one (@isCleanupDone TaskWorker)).
    destruct (resultOf (run waits fuel t)) as [[] | [] | []]; reflexivity.
  - run_tally_with (@cleanupDelta TaskWorker).
    destruct (resultOf (run waits fuel t)) as [[] | [] | []]; reflexivity.
  - rewrite run_unfold.
    pose proof (runLoop_return_shape waits fuel (loopEntry t)) as H.
    pose proof (runLoop_returns_or_halts waits fuel (loopEntry t)) as Hn.
    destruct (runLoop waits fuel (loopEntry t)) as [[[[] | [] | []] t1] tr];
      unfold traceOf, resultOf; cbn [fst snd exited unwinds];
      try contradiction; try discriminate.
    intros _. destruct H as (pre & x & Hx & _ & -> & _). exists pre, x.
    split; [exact Hx |].
    unfold deferredTrace. now rewrite <- !app_assoc.
  - rewrite run_unfold.
    destruct (runLoop waits fuel (loopEntry t)) as [[[[] | [] | []] t1] tr];
      unfold traceOf, resultOf; cbn [fst snd panicked unwinds];
      try discriminate.
    intros _. now exists tr.
  - intros Hn Hz Hf. rewrite run_unfold.
    destruct fuel as [| f]; [inversion Hf |].
    rewrite runLoop_S. unfold sub. rewrite doStop_run, Hz.
    cbn [Z.eqb returned]. unfold afterStop. rewrite Hn. reflexivity.
Qed.

(** ** One switch into the application for each entry *)

Lemma beforeResume_no_switch : emitsOnly (never isSwitch) beforeResume.
Proof.
  unfold beforeResume, beforeRseq, beforeRestore, beforeRestart,
    checkInterrupted, runTaskWork, restartSyscall, restoreSignalMask, applyRseq.
  emits.
Qed.

Lemma handleSwitchResult_no_switch info a err :
  emitsOnly (never isSwitch) (handleSwitchResult info a err).
Proof. unfold handleSwitchResult, contextSignal, deliverSignal. emits. Qed.

Lemma switchToApp_one_switch cs (t : Task World TaskWorker) :
  countEv isSwitch (traceOf (switchToApp cs t)) = 1%nat.
Proof.
  destruct (Switch (preSwitch t) (rseqCPU (preSwitch t)))
    as [[[info a] err] tb] eqn:Hs.
  rewrite (switchToApp_run cs t tb info a err Hs). unfold switchTrace.
  destruct (hasTracer _); [destruct (PullFullState _) as [[e |] te] |];
    destruct cs; reflexivity.
Qed.

Lemma runApp_body_switches (t : Task World TaskWorker) :
  countEv isSwitch (traceOf (runApp_body t))
  = match resultOf (beforeResume t) with
    | Next _ => 1%nat
    | _ => 0%nat
    end.
Proof.
  rewrite runApp_body_from_resume, traceOf_bind.
  rewrite countEv_app, (countEv_never _ _ (beforeResume_no_switch t)).
  destruct (resultOf (beforeResume t)) as [[] | r | h]; try reflexivity.
  unfold resumeApp. rewrite traceOf_bind, countEv_app.
  rewrite (countEv_never isSwitch (traceOf (enableSinglestep _)))
    by (unfold enableSinglestep; generalize (stateOf (beforeResume t)); emits).
  destruct (enableSinglestep_Next (stateOf (beforeResume t)))
    as (cs & t6 & tr6 & ->).
  unfold resultOf, stateOf; cbn [fst snd].
  rewrite traceOf_bind, countEv_app, switchToApp_one_switch.
  destruct (switchToApp_Next cs t6) as (info & a & err & t7 & tr7 & ->).
  unfold resultOf, stateOf; cbn [fst snd].
  now rewrite (countEv_never _ _ (handleSwitchResult_no_switch info a err t7)).
Qed.

Lemma doStop_counts waits (t : Task World TaskWorker) :
  countEv isSwitch (traceOf (doStop waits t)) = 0%nat
  /\ countEv isExecuteEv (traceOf (doStop waits t)) = 0%nat
  /\ countEv isGateCheck (traceOf (doStop waits t)) = 1%nat.
Proof.
  assert (Hz : forall tr : list (Event TaskWorker),
             forallb (fun e => match e with
                               | EvStopCountRacyLoad _
                               | EvCall endStopCond_Wait => true
                               | _ => false
                               end) tr = true ->
             countEv isSwitch tr = 0%nat /\ countEv isExecuteEv tr = 0%nat
             /\ countEv isGateCheck tr = 0%nat).
  { intros tr Ha. repeat split; apply countEv_never; revert Ha;
      apply forallb_weaken; intros e;
      destruct e as [c | | | | | | | | | | | | |]; try discriminate;
      try reflexivity; now destruct c. }
  destruct (doStop_shape waits t) as [-> | (t1 & tr & Ha & [-> | ->])];
    unfold traceOf; cbn [snd]; try (repeat split; reflexivity);
    destruct (Hz tr Ha) as (H1 & H2 & H3);
    rewrite !countEv_cons, !countEv_app, ?H1, ?H2, ?H3; repeat split.
Qed.

Lemma runLoop_switches waits fuel (t : Task World TaskWorker) :
  let tr := traceOf (runLoop waits fuel t) in
  (countEv isSwitch tr <= countEv isExecuteEv tr)%nat
  /\ (countEv isExecuteEv tr <= countEv isGateCheck tr)%nat.
Proof.
  cbv zeta. revert t. induction fuel as [| f IH]; intros t;
    [split; apply Nat.le_refl |].
  rewrite runLoop_S. unfold sub.
  destruct (doStop_counts waits t) as (Hs & He & Hg).
  destruct (doStop waits t) as [[rs t1] tr1]. unfold traceOf in Hs, He, Hg.
  cbn [snd] in Hs, He, Hg.
  assert (Hnext :
    (countEv isSwitch (traceOf (afterStop waits f tr1 t1))
     <= countEv isExecuteEv (traceOf (afterStop waits f tr1 t1)))%nat
    /\ (countEv isExecuteEv (traceOf (afterStop waits f tr1 t1))
        <= countEv isGateCheck (traceOf (afterStop waits f tr1 t1)))%nat).
  { unfold afterStop. destruct (runState t1) as [s |];
      [| unfold traceOf; cbn [snd]; lia].
    destruct (execute_run (R := unit) s t1) as (next & t2 & tr2 & -> & Htr2).
    assert (H2 : (countEv isSwitch tr2 <= 1)%nat
                 /\ countEv isExecuteEv tr2 = 0%nat).
    { destruct Htr2 as [-> | ->]; [split; [unfold countEv; simpl; lia
                                          | reflexivity] |].
      split.
      - rewrite runApp_body_switches.
        destruct (resultOf (beforeResume t1)); lia.
      - apply countEv_never.
        generalize (runApp_body_no_driver_event t1). apply forallb_weaken.
        intros []; simpl; auto. }
    destruct H2 as [H2 H3].
    destruct next as [s' |].
    - specialize (IH (set_runState (Some s') t2)).
      rewrite traceOf_prepend, !countEv_app, !countEv_cons.
      cbn [isSwitch isExecuteEv isGateCheck]. lia.
    - destruct (teardown_trace (set_runState None t2)) as (t3 & b & ->).
      unfold traceOf; cbn [prepend snd].
      rewrite !countEv_app, !countEv_cons.
      cbn [isSwitch isExecuteEv isGateCheck].
      assert (countEv isSwitch (@teardownTrace TaskWorker b) = 0%nat)
        by now destruct b.
      assert (countEv isExecuteEv (@teardownTrace TaskWorker b) = 0%nat)
        by now destruct b.
      lia. }
  destruct rs as [[] | [] | h]; cbn [returned]; try exact Hnext.
  unfold traceOf; cbn [snd]. lia.
Qed.

(** X7: one entry, one switch.  An entry into runApp.execute switches into
    the application exactly once if it gets past the pending work (task
    work, syscall restart, signal mask, rseq), and not at all if one of those
    blocks returns first.  So over any run of the goroutine there are at most
    as many switches as transitions, and at most as many transitions as
    checks of the stop count at the top of the loop: the application never
    runs twice without the goroutine having looked for a stop in between. *)
Theorem one_switch_per_entry (R : Type) waits fuel
    (t t' : Task World TaskWorker) :
  let tr := traceOf (run waits fuel t') in
  countEv isSwitch (traceOf (runApp_execute (R := R) t))
  = match resultOf (beforeResume t) with
    | Next _ => 1%nat
    | _ => 0%nat
    end
  /\ (countEv isSwitch tr <= countEv isExecuteEv tr)%nat
  /\ (countEv isExecuteEv tr <= countEv isGateCheck tr)%nat.
Proof.
  cbv zeta. split.
  - unfold runApp_execute, sub. rewrite traceOf_returned.
    apply runApp_body_switches.
  - rewrite run_unfold.
    destruct (runLoop_switches waits fuel (loopEntry t')) as [H1 H2].
    assert (Hq : forall l : list (Call TaskWorker),
               countEv isSwitch (map EvCall l) = 0%nat
               /\ countEv isExecuteEv (map EvCall l) = 0%nat
               /\ countEv isGateCheck (map EvCall l) = 0%nat).
    { intros l. repeat split; apply countEv_never, forallb_forall;
        intros e He; apply in_map_iff in He as (c & <- & _); reflexivity. }
    destruct (Hq [CleanupSync_Add 1; NewChannelNotifier; NewSampledTimer;
                  Activate; interruptSelf]) as (Hs1 & Hs2 & Hs3).
    destruct (Hq [blockingTimer_Destroy; CleanupSync_Done])
      as (Hd1 & Hd2 & Hd3).
    cbn [map] in Hs1, Hs2, Hs3, Hd1, Hd2, Hd3.
    fold (@startTrace TaskWorker) in Hs1, Hs2, Hs3.
    destruct (runLoop waits fuel (loopEntry t')) as [[[[] | [] | []] t1] tr];
      unfold traceOf in *; cbn [snd unwinds] in *;
      rewrite !countEv_app, ?Hs1, ?Hs2, ?Hs3, ?Hd1, ?Hd2, ?Hd3; lia.
Qed.

(** ** Single-stepping *)

Lemma beforeResume_no_singlestep :
  emitsOnly (fun e => never isSetSingleStep e && never isClearSingleStep e)
    beforeResume.
Proof.
  unfold beforeResume, beforeRseq, beforeRestore, beforeRestart,
    checkInterrupted, runTaskWork, restartSyscall, restoreSignalMask, applyRseq.
  emits.
Qed.

Lemma handleSwitchResult_no_singlestep info a err :
  emitsOnly (fun e => never isSetSingleStep e && never isClearSingleStep e)
    (handleSwitchResult info a err).
Proof. unfold handleSwitchResult, contextSignal, deliverSignal. emits. Qed.

Lemma no_singlestep_counts (tr : list (Event TaskWorker)) :
  forallb (fun e => never isSetSingleStep e && never isClearSingleStep e) tr
  = true ->
  countEv isSetSingleStep tr = 0%nat /\ countEv isClearSingleStep tr = 0%nat.
Proof.
  intros H. split; apply countEv_never; revert H; apply forallb_weaken;
    intros e He; apply andb_true_iff in He; tauto.
Qed.

Lemma switchToApp_trace cs (t : Task World TaskWorker) :
  exists info a err t7 tr7 cpu err0 rest,
    switchToApp cs t = (Next (info, a, err), t7, tr7)
    /\ tr7 = switchTrace cs cpu info a err0 ++ rest
    /\ countEv isSetSingleStep rest = 0%nat
    /\ countEv isClearSingleStep rest = 0%nat.
Proof.
  destruct (Switch (preSwitch t) (rseqCPU (preSwitch t)))
    as [[[info a] err] tb] eqn:Hs.
  rewrite (switchToApp_run cs t tb info a err Hs).
  destruct (hasTracer _); [destruct (PullFullState _) as [[e |] te] |].
  - eexists info, a, _, _, _, _, err, _. repeat split.
  - eexists info, a, _, _, _, _, err, _. repeat split.
  - eexists info, a, _, _, _, _, err, []. rewrite app_nil_r. repeat split.
Qed.

(** X8: single-stepping a traced task.  When an entry into runApp.execute
    gets as far as the switch, SetSingleStep is called exactly when the task
    has a tracer and ptraceSinglestep is set, under the read lock and before
    the switch; ClearSingleStep is called exactly when, in addition, the
    single-step flag was not already set before SetSingleStep, and then
    right after the switch has ended its region.  A flag that the tracer had
    set itself is never cleared. *)
Theorem singlestep_cleared_only_if_set_here (R : Type)
    (t t5 : Task World TaskWorker) tr5 :
  beforeResume t = (Next tt, t5, tr5) ->
  let tl := exec (RLock taskSetMu) t5 in
  let stepping := hasTracer t5 && ptraceSinglestep tl in
  let clearing := stepping && negb (Arch_SingleStep tl) in
  let tr := traceOf (runApp_execute (R := R) t) in
  countEv isSetSingleStep tr = (if stepping then 1%nat else 0%nat)
  /\ countEv isClearSingleStep tr = (if clearing then 1%nat else 0%nat)
  /\ (Arch_SingleStep tl = true -> countEv isClearSingleStep tr = 0%nat)
  /\ exists cpu info a err rest,
      tr = tr5
           ++ (if hasTracer t5 then singlestepTrace (ptraceSinglestep tl)
               else [])
           ++ switchTrace clearing cpu info a err ++ rest
      /\ countEv isSetSingleStep rest = 0%nat
      /\ countEv isClearSingleStep rest = 0%nat.
Proof.
  intros H5. cbv zeta.
  pose proof (enableSinglestep_run t5) as H6. cbv zeta in H6.
  destruct (no_singlestep_counts tr5) as [Hs5 Hc5].
  { generalize (beforeResume_no_singlestep t). now rewrite H5. }
  set (cs := hasTracer t5 && ptraceSinglestep (exec (RLock taskSetMu) t5)
             && negb (Arch_SingleStep (exec (RLock taskSetMu) t5))).
  assert (H6' : exists t6,
             enableSinglestep t5
             = (Next cs, t6,
                if hasTracer t5
                then singlestepTrace
                       (ptraceSinglestep (exec (RLock taskSetMu) t5))
                else [])).
  { rewrite H6. unfold cs, singlestepTrace.
    destruct (hasTracer t5); [| now eexists].
    destruct (ptraceSinglestep _); now eexists. }
  destruct H6' as (t6 & H6').
  destruct (switchToApp_trace cs t6)
    as (info & a & err & t7 & tr7 & cpu & err0 & rest & H7 & -> & Hsr & Hcr).
  pose proof (runApp_execute_resume (R := R) _ _ _ _ _ _ _ _ _ _ _ H5 H6' H7)
    as Hr.
  destruct (no_singlestep_counts
              (traceOf (handleSwitchResult info a err t7))) as [Hs8 Hc8];
    [apply handleSwitchResult_no_singlestep |].
  assert (Htr : traceOf (runApp_execute (R := R) t)
                = tr5
                  ++ (if hasTracer t5
                      then singlestepTrace
                             (ptraceSinglestep (exec (RLock taskSetMu) t5))
                      else [])
                  ++ switchTrace cs cpu info a err0
                  ++ (rest ++ traceOf (handleSwitchResult info a err t7))).
  { rewrite Hr. unfold sub. rewrite traceOf_prepend, traceOf_returned.
    now rewrite <- !app_assoc. }
  assert (Hrest : countEv isSetSingleStep
                    (rest ++ traceOf (handleSwitchResult info a err t7)) = 0%nat
                  /\ countEv isClearSingleStep
                       (rest ++ traceOf (handleSwitchResult info a err t7))
                     = 0%nat)
    by (rewrite !countEv_app; lia).
  destruct Hrest as [Hsr' Hcr'].
  assert (Hcounts :
    countEv isSetSingleStep (traceOf (runApp_execute (R := R) t))
    = (if hasTracer t5 && ptraceSinglestep (exec (RLock taskSetMu) t5)
       then 1%nat else 0%nat)
    /\ countEv isClearSingleStep (traceOf (runApp_execute (R := R) t))
       = (if cs then 1%nat else 0%nat)).
  { rewrite Htr, !countEv_app, Hs5, Hc5, Hsr, Hcr, Hs8, Hc8.
    unfold cs, switchTrace, singlestepTrace.
    destruct (hasTracer t5); [| split; reflexivity].
    destruct (ptraceSinglestep _); [| split; reflexivity].
    destruct (Arch_SingleStep _); split; reflexivity. }
  destruct Hcounts as [Hset Hclear].
  split; [exact Hset |]. split; [exact Hclear |].
  split.
  - intros Hss. rewrite Hclear. unfold cs. rewrite Hss.
    now rewrite andb_false_r.
  - exists cpu, info, a, err0,
      (rest ++ traceOf (handleSwitchResult info a err t7)).
    split; [exact Htr |]. now split.
Qed.

(** ** Faults handled inside the kernel *)

Lemma applyRseq_toEnd_no_signal :
  emitsOnlyToEnd (never isSignalCall) applyRseq.
Proof.
  intros t a t1 tr.
  unfold applyRseq, bind, gets, modify, observe, invoke, call, ret, return_.
  destruct (rseqPreempted t); [| now intros [= _ _ <-]].
  cbv beta iota.
  destruct (negb (rseqAddr _ =? 0) || negb (oldRSeqCPUAddr _ =? 0));
    [| now intros [= _ _ <-]].
  destruct (rseqCopyOutCPU _) as [[e |] tc]; [discriminate |].
  destruct (oldRSeqCopyOutCPU tc) as [[e |] td]; [discriminate |].
  now intros [= _ _ <-].
Qed.

Lemma beforeResume_toEnd_no_signal :
  emitsOnlyToEnd (never isSignalCall) beforeResume.
Proof.
  unfold beforeResume, beforeRseq, beforeRestore, beforeRestart.
  repeat apply toEnd_bind; intros;
    try apply applyRseq_toEnd_no_signal;
    apply toEnd_of_emitsOnly;
    unfold checkInterrupted, runTaskWork, restartSyscall, restoreSignalMask;
    emits.
Qed.

Lemma toSwitch_no_signal (t t5 t6 t7 : Task World TaskWorker)
    tr5 cs tr6 r tr7 :
  beforeResume t = (Next tt, t5, tr5) ->
  enableSinglestep t5 = (Next cs, t6, tr6) ->
  switchToApp cs t6 = (Next r, t7, tr7) ->
  countEv isSignalCall (tr5 ++ tr6 ++ tr7) = 0%nat.
Proof.
  intros H5 H6 H7. rewrite !countEv_app.
  rewrite (countEv_never _ tr5 (beforeResume_toEnd_no_signal _ _ _ _ H5)).
  assert (E6 : emitsOnly (never isSignalCall) enableSinglestep)
    by (unfold enableSinglestep; emits).
  assert (E7 : emitsOnly (never isSignalCall) (switchToApp cs))
    by (unfold switchToApp; emits).
  specialize (E6 t5). specialize (E7 t6). rewrite H6 in E6. rewrite H7 in E7.
  now rewrite (countEv_never _ tr6 E6), (countEv_never _ tr7 E7).
Qed.

Lemma contextSignal_fault_handled info a (t tf : Task World TaskWorker) :
  AccessType_Any a = true ->
  HandleUserFault (faultEntered t) (SignalInfo_Addr info) a
    (Arch_Stack (faultEntered t)) = (None, tf) ->
  contextSignal info a t
  = (Return (Some runApp), exec (EndRegion faultRegion) tf,
     faultHandledTrace info a t).
Proof.
  intros Ha Hf. unfold contextSignal, faultHandledTrace, faultEntered in *.
  rewrite Ha. unfold bind, call, gets, invoke, return_. now rewrite Hf.
Qed.

Lemma contextSignal_vsyscall info a (t tf tv : Task World TaskWorker)
    e sysno next :
  AccessType_Any a = true ->
  HandleUserFault (faultEntered t) (SignalInfo_Addr info) a
    (Arch_Stack (faultEntered t)) = (Some e, tf) ->
  Execute a = true ->
  LookupEmulate (exec (EndRegion faultRegion) tf) (SignalInfo_Addr info)
  = Some sysno ->
  doVsyscall (exec (EndRegion faultRegion) tf) (SignalInfo_Addr info) sysno
  = (next, tv) ->
  contextSignal info a t
  = (Return next, tv, vsyscallTrace info a e sysno next t).
Proof.
  intros Ha Hf Hx Hl Hv.
  unfold contextSignal, vsyscallTrace, faultEntered in *.
  rewrite Ha. unfold bind, call, gets, invoke, return_.
  now rewrite Hf, Hx, Hl, Hv.
Qed.

(** X9: a fault that the memory manager handles is not the application's
    business.  When the switch reports a signal with an access type set and
    HandleUserFault succeeds, runApp.execute returns runApp right after
    ending the fault region, from the task that HandleUserFault left:
    whatever signal number the platform reported, no signal is forced, sent
    or passed on anywhere on this entry, and handling the fault adds no line
    to the log: the entry has logged what it had logged when the switch
    block ended. *)
Theorem handled_fault_sends_no_signal (R : Type)
    (t t5 t6 t7 tf : Task World TaskWorker) tr5 cs tr6 info a tr7 :
  beforeResume t = (Next tt, t5, tr5) ->
  enableSinglestep t5 = (Next cs, t6, tr6) ->
  switchToApp cs t6 = (Next (info, a, Some ErrContextSignal), t7, tr7) ->
  AccessType_Any a = true ->
  HandleUserFault (faultEntered t7) (SignalInfo_Addr info) a
    (Arch_Stack (faultEntered t7)) = (None, tf) ->
  let r := runApp_execute (R := R) t in
  r = (Next (Some runApp), exec (EndRegion faultRegion) tf,
       (tr5 ++ tr6 ++ tr7) ++ faultHandledTrace info a t7)
  /\ countEv isSignalCall (traceOf r) = 0%nat
  /\ countEv isLog (traceOf r) = countEv isLog (tr5 ++ tr6 ++ tr7).
Proof.
  intros H5 H6 H7 Ha Hf r.
  assert (Hr : r = (Next (Some runApp), exec (EndRegion faultRegion) tf,
                    (tr5 ++ tr6 ++ tr7) ++ faultHandledTrace info a t7)).
  { unfold r. rewrite (runApp_execute_resume _ _ _ _ _ _ _ _ _ _ _ H5 H6 H7).
    unfold sub. cbn [handleSwitchResult].
    now rewrite (contextSignal_fault_handled _ _ _ _ Ha Hf). }
  split; [exact Hr |].
  rewrite Hr. unfold traceOf; cbn [snd].
  rewrite !(countEv_app _ (tr5 ++ tr6 ++ tr7)).
  rewrite (toSwitch_no_signal _ _ _ _ _ _ _ _ _ H5 H6 H7).
  split; [reflexivity |].
  change (countEv isLog (faultHandledTrace info a t7)) with 0%nat.
  apply Nat.add_0_r.
Qed.

(** X10: an emulated vsyscall.  When the switch reports a signal for an
    execute access, HandleUserFault fails, and the faulting address is one
    that the task image emulates, runApp.execute hands the address and the
    system call number to doVsyscall and returns whatever state that
    returns, nil included; the failed fault is not logged and no signal is
    forced, sent or passed on anywhere on this entry. *)
Theorem vsyscall_fault_is_emulated (R : Type)
    (t t5 t6 t7 tf tv : Task World TaskWorker) tr5 cs tr6 info a tr7
    e sysno next :
  beforeResume t = (Next tt, t5, tr5) ->
  enableSinglestep t5 = (Next cs, t6, tr6) ->
  switchToApp cs t6 = (Next (info, a, Some ErrContextSignal), t7, tr7) ->
  AccessType_Any a = true ->
  HandleUserFault (faultEntered t7) (SignalInfo_Addr info) a
    (Arch_Stack (faultEntered t7)) = (Some e, tf) ->
  Execute a = true ->
  LookupEmulate (exec (EndRegion faultRegion) tf) (SignalInfo_Addr info)
  = Some sysno ->
  doVsyscall (exec (EndRegion faultRegion) tf) (SignalInfo_Addr info) sysno
  = (next, tv) ->
  let r := runApp_execute (R := R) t in
  r = (Next next, tv,
       (tr5 ++ tr6 ++ tr7) ++ vsyscallTrace info a e sysno next t7)
  /\ countEv isSignalCall (traceOf r) = 0%nat.
Proof.
  intros H5 H6 H7 Ha Hf Hx Hl Hv r.
  assert (Hr : r = (Next next, tv,
                    (tr5 ++ tr6 ++ tr7)
                    ++ vsyscallTrace info a e sysno next t7)).
  { unfold r. rewrite (runApp_execute_resume _ _ _ _ _ _ _ _ _ _ _ H5 H6 H7).
    unfold sub. cbn [handleSwitchResult].
    now rewrite (contextSignal_vsyscall _ _ _ _ _ _ _ _ Ha Hf Hx Hl Hv). }
  split; [exact Hr |].
  rewrite Hr. unfold traceOf; cbn [snd].
  rewrite countEv_app, (toSwitch_no_signal _ _ _ _ _ _ _ _ _ H5 H6 H7).
  reflexivity.
Qed.

(** ** Restartable sequences with nothing registered *)

Lemma applyRseq_no_address (t : Task World TaskWorker) :
  rseqAddr t = 0 -> oldRSeqCPUAddr t = 0 ->
  applyRseq t
  = (Next tt,
     (if rseqPreempted t then exec rseqInterrupt (set_rseqPreempted false t)
      else t),
     if rseqPreempted t then [EvCall rseqInterrupt] else []).
Proof.
  intros Ha Ho. unfold applyRseq, bind, gets, modify, call, ret.
  destruct (rseqPreempted t); [| reflexivity].
  cbn [rseqAddr oldRSeqCPUAddr set_rseqPreempted]. now rewrite Ha, Ho.
Qed.

Lemma outside_rseq_quiet :
  let P := fun e : Event TaskWorker =>
             never isGetCPU e && never isRseqCopyOut e
             && never isOldRSeqCopyOut e && never isRseqInterrupt e in
  emitsOnly P beforeRseq /\ emitsOnly P resumeApp.
Proof.
  cbv zeta. split.
  - unfold beforeRseq, beforeRestore, beforeRestart, checkInterrupted,
      runTaskWork, restartSyscall, restoreSignalMask. emits.
  - unfold resumeApp, enableSinglestep, switchToApp, handleSwitchResult,
      contextSignal, deliverSignal. emits.
Qed.

Lemma rseq_quiet_counts (tr : list (Event TaskWorker)) :
  forallb (fun e => never isGetCPU e && never isRseqCopyOut e
                    && never isOldRSeqCopyOut e && never isRseqInterrupt e) tr
  = true ->
  countEv isGetCPU tr = 0%nat /\ countEv isRseqCopyOut tr = 0%nat
  /\ countEv isOldRSeqCopyOut tr = 0%nat /\ countEv isRseqInterrupt tr = 0%nat.
Proof.
  intros H. repeat split; apply countEv_never; revert H; apply forallb_weaken;
    intros e He; repeat (apply andb_true_iff in He; destruct He as [He ?]);
    assumption.
Qed.

(** X11: the rseq block with nothing registered.  When the block is reached
    and the task has neither an rseq address nor an old rseq CPU address, a
    pending preemption is consumed by clearing the flag and calling
    rseqInterrupt, and that is all: on the whole entry the host CPU is not
    read and nothing is copied out, so no copy-out failure can turn into a
    SIGSEGV.  Without a pending preemption rseqInterrupt is not called
    either.  In both cases the entry goes on to the switch. *)
Theorem rseq_without_address_copies_nothing (R : Type)
    (t t4 : Task World TaskWorker) tr4 :
  beforeRseq t = (Next tt, t4, tr4) ->
  rseqAddr t4 = 0 -> oldRSeqCPUAddr t4 = 0 ->
  let r := runApp_execute (R := R) t in
  let t5 := if rseqPreempted t4
            then exec rseqInterrupt (set_rseqPreempted false t4) else t4 in
  let woken := if rseqPreempted t4
               then [EvCall (TaskWorker := TaskWorker) rseqInterrupt]
               else [] in
  r = prepend (tr4 ++ woken) (sub resumeApp t5)
  /\ countEv isSwitch (traceOf r) = 1%nat
  /\ countEv isGetCPU (traceOf r) = 0%nat
  /\ countEv isRseqCopyOut (traceOf r) = 0%nat
  /\ countEv isOldRSeqCopyOut (traceOf r) = 0%nat
  /\ countEv isRseqInterrupt (traceOf r)
     = (if rseqPreempted t4 then 1%nat else 0%nat).
Proof.
  intros H4 Ha Ho. cbv zeta.
  pose proof (applyRseq_no_address t4 Ha Ho) as Hq.
  assert (Hr : runApp_execute (R := R) t
               = prepend (tr4 ++ (if rseqPreempted t4
                                  then [EvCall rseqInterrupt] else []))
                   (sub resumeApp
                      (if rseqPreempted t4
                       then exec rseqInterrupt (set_rseqPreempted false t4)
                       else t4))).
  { unfold runApp_execute, sub. rewrite runApp_body_from_rseq.
    rewrite (bind_Next _ _ _ _ _ _ H4), (bind_Next _ _ _ _ _ _ Hq).
    now rewrite prepend_prepend, returned_prepend. }
  split; [exact Hr |].
  destruct outside_rseq_quiet as [Hb Hres]. cbv zeta in Hb, Hres.
  specialize (Hb t). rewrite H4 in Hb. unfold traceOf in Hb. cbn [snd] in Hb.
  destruct (rseq_quiet_counts _ Hb) as (B1 & B2 & B3 & B4).
  split.
  { unfold runApp_execute, sub. rewrite traceOf_returned, runApp_body_switches.
    unfold beforeResume.
    now rewrite (bind_Next _ _ _ _ _ _ H4), Hq. }
  rewrite Hr, traceOf_prepend. unfold sub. rewrite traceOf_returned.
  match goal with |- context [resumeApp ?x] =>
    destruct (rseq_quiet_counts _ (Hres x)) as (C1 & C2 & C3 & C4) end.
  rewrite !countEv_app, B1, B2, B3, B4, C1, C2, C3, C4.
  destruct (rseqPreempted t4); repeat split.
Qed.

(** ** Restarting only what asked to be restarted *)

Lemma restartSyscall_count (t1 : Task World TaskWorker) :
  (countEv isRestart (traceOf (restartSyscall t1)) <= 1)%nat
  /\ (countEv isRestart (traceOf (restartSyscall t1)) = 1%nat ->
      haveSyscallReturn t1 = true
      /\ exists t2 sre,
          PullFullState t1 = (None, t2)
          /\ SyscallRestartErrorFromReturn (Arch_Return t2) = Some sre).
Proof.
  unfold restartSyscall, bind, gets, invoke, call, modify, ret, return_.
  destruct (haveSyscallReturn t1); [| split; [apply Nat.le_0_1 | discriminate]].
  destruct (PullFullState t1) as [[e |] t2];
    [split; [apply Nat.le_0_1 | discriminate] |].
  destruct (SyscallRestartErrorFromReturn (Arch_Return t2)) as [sre |] eqn:Hs;
    [| split; [apply Nat.le_0_1 | discriminate]].
  destruct (sre =? ERESTART_RESTARTBLOCK);
    (split; [unfold countEv, traceOf; simpl; lia
            | intros _; split; [reflexivity |];
              exists t2, sre; split; [reflexivity | exact Hs]]).
Qed.

(** X12: restarts are never spurious.  On one entry runApp.execute restarts
    the interrupted system call at most once, and if it does, the restart
    block was reached with haveSyscallReturn set, the state pull succeeded,
    and the pulled return value encoded a restart error; in particular an
    entry that is interrupted at the top, or whose state pull fails,
    restarts nothing. *)
Theorem restart_only_for_restart_error (R : Type) (t : Task World TaskWorker) :
  let tr := traceOf (runApp_execute (R := R) t) in
  (countEv isRestart tr <= 1)%nat
  /\ (countEv isRestart tr = 1%nat ->
      exists t1 tr1 t2 sre,
        beforeRestart t = (Next tt, t1, tr1)
        /\ haveSyscallReturn t1 = true
        /\ PullFullState t1 = (None, t2)
        /\ SyscallRestartErrorFromReturn (Arch_Return t2) = Some sre).
Proof.
  cbv zeta. unfold runApp_execute, sub. rewrite traceOf_returned.
  rewrite runApp_body_from_restart, traceOf_bind, countEv_app.
  assert (Hb : emitsOnly (never isRestart) beforeRestart)
    by (unfold beforeRestart, checkInterrupted, runTaskWork; emits).
  assert (Hrest : emitsOnly (never isRestart)
                    (restoreSignalMask ;; applyRseq ;; resumeApp)).
  { unfold restoreSignalMask, applyRseq, resumeApp, enableSinglestep,
      switchToApp, handleSwitchResult, contextSignal, deliverSignal. emits. }
  rewrite (countEv_never _ _ (Hb t)).
  destruct (beforeRestart t) as [[[[] | r | h] t1] tr1];
    unfold resultOf, stateOf; cbn [fst snd];
    try (split; [apply Nat.le_0_1 | discriminate]).
  rewrite traceOf_bind, countEv_app.
  assert (Hz : countEv isRestart
                 match resultOf (restartSyscall t1) with
                 | Next _ =>
                     traceOf ((restoreSignalMask ;; applyRseq ;; resumeApp)
                                (stateOf (restartSyscall t1)))
                 | _ => []
                 end = 0%nat)
    by (destruct (resultOf (restartSyscall t1)); try reflexivity;
        apply countEv_never, Hrest).
  rewrite Hz, Nat.add_0_l, Nat.add_0_r.
  destruct (restartSyscall_count t1) as [Hle Hone].
  split; [exact Hle |].
  intros H1. destruct (Hone H1) as (Hh & t2 & sre & Hp & Hs).
  now exists t1, tr1, t2, sre.
Qed.

(** ** Ending the goroutine *)

Lemma endsWith_app p (tr1 tr2 : list (Event TaskWorker)) :
  endsWith p tr2 = true -> endsWith p (tr1 ++ tr2) = true.
Proof.
  unfold endsWith. rewrite rev_app_distr.
  destruct (rev tr2) as [| e l]; [discriminate | trivial].
Qed.

Lemma nilFrom_bind {A B : Type} (isNil : B -> bool)
    (m : @M World TaskWorker (option taskRunState) A)
    (f : A -> @M World TaskWorker (option taskRunState) B) :
  nilFrom (fun _ => false) m -> (forall a, nilFrom isNil (f a)) ->
  nilFrom isNil (bind m f).
Proof.
  intros Hm Hf t. unfold bind. specialize (Hm t).
  destruct (m t) as [[[a | r | h] t1] tr1]; try exact Hm.
  specialize (Hf a t1).
  destruct (f a t1) as [[[b | [s |] | h] t2] tr2]; try exact I.
  - intros Hb. now apply endsWith_app, Hf.
  - now apply endsWith_app.
Qed.

Lemma nilFrom_ret {A : Type} (isNil : A -> bool) (a : A) :
  isNil a = false -> nilFrom isNil (@ret World TaskWorker _ A a).
Proof. intros H t. unfold ret. now rewrite H. Qed.

Lemma nilFrom_return {A : Type} (isNil : A -> bool) s :
  nilFrom isNil (@return_ World TaskWorker _ A (Some s)).
Proof. intros t. exact I. Qed.

Lemma nilFrom_gets {A : Type} (f : Task World TaskWorker -> A) :
  nilFrom (fun _ => false) (@gets _ _ _ A f).
Proof. intros t. discriminate. Qed.

Lemma nilFrom_modify (f : Task World TaskWorker -> Task World TaskWorker) :
  nilFrom (fun _ => false) (@modify _ _ _ f).
Proof. intros t. discriminate. Qed.

Lemma nilFrom_call c :
  nilFrom (fun _ => false) (@call World TaskWorker K _ c).
Proof. intros t. discriminate. Qed.

Lemma nilFrom_observe {A : Type} (f : Task World TaskWorker -> A) ev :
  nilFrom (fun _ => false) (@observe _ _ _ A f ev).
Proof. intros t. discriminate. Qed.

Lemma nilFrom_invoke {A : Type}
    (f : Task World TaskWorker -> A * Task World TaskWorker) ev :
  nilFrom (fun _ => false) (@invoke _ _ _ A f ev).
Proof. intros t. unfold invoke. destruct (f t). discriminate. Qed.

Lemma nilFrom_forEach {A : Type} (l : list A)
    (body : A -> @M World TaskWorker (option taskRunState) unit) :
  (forall a, nilFrom (fun _ => false) (body a)) ->
  nilFrom (fun _ => false) (forEach l body).
Proof.
  intros H. induction l as [| x l IH]; cbn [forEach].
  - now apply nilFrom_ret.
  - apply nilFrom_bind; [apply H | intros _; exact IH].
Qed.

Lemma nilFrom_dispatch
    (f : Task World TaskWorker
         -> option taskRunState * Task World TaskWorker) ev :
  isNilDispatch (ev None) = true ->
  nilFrom isNone (@invoke _ _ _ _ f ev).
Proof.
  intros H t. unfold invoke. destruct (f t) as [[s |] t1]; [discriminate |].
  intros _. exact H.
Qed.

Lemma nilFrom_dispatch_return {A : Type} (isNil : A -> bool)
    (f : Task World TaskWorker
         -> option taskRunState * Task World TaskWorker) ev :
  isNilDispatch (ev None) = true ->
  nilFrom isNil (nx <- invoke f ev ;; return_ nx).
Proof.
  intros H t. unfold bind, invoke, return_.
  destruct (f t) as [[s |] t1]; [exact I | exact H].
Qed.

Ltac nil_step :=
  first
    [ apply nilFrom_dispatch_return; reflexivity
    | apply nilFrom_dispatch; reflexivity
    | apply nilFrom_bind; [| intro]
    | apply nilFrom_ret; reflexivity
    | apply nilFrom_return
    | apply nilFrom_gets
    | apply nilFrom_modify
    | apply nilFrom_call
    | apply nilFrom_observe
    | apply nilFrom_invoke
    | apply nilFrom_forEach; intro
    | match goal with
      | |- nilFrom _ (if ?b then _ else _) => destruct b
      | |- nilFrom _ (match ?x with _ => _ end) => destruct x
      end ].

Lemma runApp_body_nilFrom : nilFrom isNone runApp_body.
Proof.
  unfold runApp_body, checkInterrupted, runTaskWork, restartSyscall,
    restoreSignalMask, applyRseq, resumeApp, enableSinglestep, switchToApp,
    handleSwitchResult, contextSignal, deliverSignal.
  repeat nil_step.
Qed.

(** X13: only syscall dispatch ends the goroutine from runApp.  If
    runApp.execute returns nil, which makes [Task.run] tear the goroutine
    down, the last thing it did was a doSyscall or doVsyscall that returned
    nil: no check, error path or signal path of runApp.execute produces a
    nil state of its own. *)
Theorem nil_state_comes_from_dispatch (R : Type) (t : Task World TaskWorker) :
  resultOf (runApp_execute (R := R) t) = Next None ->
  endsWith isNilDispatch (traceOf (runApp_execute (R := R) t)) = true.
Proof.
  unfold runApp_execute, sub. pose proof (runApp_body_nilFrom t) as H.
  destruct (runApp_body t) as [[[[s |] | [s |] | h] t1] tr];
    unfold resultOf, traceOf; cbn [returned fst snd];
    try discriminate; intros _; auto.
Qed.

End Properties.

(** * The properties at work on the small kernel *)

Import Demo.

(** An interrupted task entering runApp. *)
Lemma runApp_interrupted_returns_runInterrupt_witness :
  let t := fresh (set_interrupted true quiet) in
  interrupted t = true
  /\ runApp_execute (R := unit) t
     = (Next (Some runInterrupt), t, [EvInterrupted true]).
Proof.
  split; [reflexivity |].
  apply (runApp_interrupted_returns_runInterrupt unit); reflexivity.
Defined.

(** The exit path of the small kernel is closed and ends. *)
Lemma demo_exitPath : exitPath exiting.
Proof.
  repeat split.
  - intros s t s' t' Hs He. destruct s as [| | | [| [| n]]]; simpl in *;
      try discriminate; now injection He as <- _.
  - intros c t. destruct c; simpl; try reflexivity.
    now destruct (d_released (world t)).
Qed.

(** A run of three iterations of a task that is not stopped, and the gate
    of a task with a stop count of one that nobody releases. *)
Lemma run_checks_stop_before_every_transition_witness :
  let t := fresh quiet in
  let t' := set_stopCount 1 (fresh quiet) in
  stopGated (fun v => v =? 0) 0 None (traceOf (run 2 3 t)) = true
  /\ doStop 2 t = (Return tt, t, [EvStopCountLoad 0])
  /\ resultOf (runLoop 2 1 t') = Halted Parked
  /\ countEv isTransition (traceOf (runLoop 2 1 t')) = 0%nat.
Proof.
  intros t t'.
  destruct (run_checks_stop_before_every_transition 2 3 t t 0)
    as (_ & H2 & H3 & _).
  destruct (run_checks_stop_before_every_transition 2 3 t t' 0)
    as (_ & _ & _ & H4).
  split; [apply H2; reflexivity |].
  split; [apply H3; reflexivity |].
  apply H4; [discriminate |].
  intros n Hn. destruct n as [| [| [| n]]];
    [vm_compute; split; discriminate .. | lia].
Defined.

(** A system call that returned ERESTART_RESTARTBLOCK. *)
Lemma runApp_restarts_syscall_witness :
  let t := set_haveSyscallReturn true (fresh (restartWorld (-516))) in
  restartSyscall t
  = (Next tt, set_haveSyscallReturn false t,
     [EvPullFullState None; EvCall (Debugf (RestartingWithRestartBlock 35));
      EvCall RestartSyscallWithRestartBlock])
  /\ countEv isSwitch (traceOf (runApp_execute (R := unit) t)) = 1%nat.
Proof.
  intros t.
  destruct (runApp_restarts_syscall unit t t t [EvInterrupted false] 516)
    as (H1 & _ & H3); [reflexivity .. |].
  split; [exact H1 | rewrite H3; reflexivity].
Defined.

(** A saved mask whose restoring unblocks a pending signal, and one whose
    restoring unblocks nothing. *)
Lemma runApp_restores_saved_mask_witness :
  let t := suspended 5 unblockingWorld in
  let u := suspended 5 quiet in
  resultOf (runApp_execute (R := unit) t) = Next (Some runInterrupt)
  /\ traceOf (runApp_execute (R := unit) t)
     = [EvInterrupted false; EvCall (SetSignalMask 5); EvInterrupted true]
  /\ resultOf (runApp_execute (R := unit) u) = Next (Some runApp)
  /\ haveSavedSignalMask (stateOf (runApp_execute (R := unit) u)) = false.
Proof.
  intros t u.
  destruct (runApp_restores_saved_mask unit t t [EvInterrupted false])
    as (_ & H & _); [reflexivity .. |].
  destruct (runApp_restores_saved_mask unit u u [EvInterrupted false])
    as (_ & _ & H'); [reflexivity .. |].
  rewrite H, H' by reflexivity. repeat split.
Defined.

Lemma demo_exitPathEnds : exitPathEnds exiting notStopped rank.
Proof.
  intros s t Hx Hs Hi. split; [exact Hi |].
  destruct s as [| | | [| [| n]]]; simpl in *; try discriminate; auto.
Qed.

(** A failed state pull, and the exit path that follows it to its end: the
    last live task takes the count from one to zero.  From zero the
    decrement would wrap. *)
Lemma pull_failure_exits_task_witness :
  let t := set_haveSyscallReturn true (fresh (pullFails (OtherError 5))) in
  resultOf (runApp_execute (R := unit) t) = Next (Some runExit)
  /\ countEv isPullFullState (traceOf (runLoop 0 5 t)) = 1%nat
  /\ countEv isSwitch (traceOf (runLoop 0 5 t)) = 0%nat
  /\ resultOf (runLoop 0 5 t) = Return tt
  /\ countEv isLiveTasksDec (traceOf (runLoop 0 5 t)) = 1%nat
  /\ liveTasks t = 1
  /\ liveTasks (stateOf (runLoop 0 5 t)) = 0
  /\ (exists pre x,
         runState x = None
         /\ runLoop 0 5 t
            = (Return tt, teardownLeft x, pre ++ teardownTrace (teardownCount x))
         /\ countEv isLiveTasksDec pre = 0%nat)
  /\ liveTasks (teardownLeft (set_liveTasks 0 t)) = 4294967295.
Proof.
  intros t.
  destruct (pull_failure_exits_task unit 0 4 exiting t t t [EvInterrupted false]
              (OtherError 5) demo_exitPath)
    as (H1 & H2 & H3 & _ & H5 & H6 & H7 & H8); [reflexivity .. |].
  destruct (H6 notStopped rank demo_exitPathEnds) as [Hret Hdec];
    [reflexivity | simpl; lia |].
  split; [now rewrite H1 |].
  split; [exact H2 |].
  split; [exact H3 |].
  split; [exact Hret |].
  split; [exact Hdec |].
  split; [reflexivity |].
  split; [reflexivity |].
  split; [exact (H8 Hret) |].
  reflexivity.
Defined.

(** The group exit of a traced task whose switch succeeded. *)
Lemma group_exit_after_successful_switch :
  let t := fresh (tracedPullFails (OtherError 5)) in
  let r := runApp_execute (R := unit) t in
  resultOf r = Next (Some runExit)
  /\ traceOf r
     = [EvInterrupted false;
        EvCall (RLock taskSetMu); EvCall (RUnlock taskSetMu);
        EvCall (StartRegion runRegion);
        EvCall (accountTaskGoroutineEnter TaskGoroutineRunningApp);
        EvSwitch 0 noInfo noAccess None;
        EvCall (accountTaskGoroutineLeave TaskGoroutineRunningApp);
        EvCall (EndRegion runRegion);
        EvPullFullState (Some (OtherError 5));
        EvCall (Warningf (UnablePullFullState (OtherError 5)));
        EvCall (Warningf (UnexpectedSwitchToApp (Some (OtherError 5))));
        EvCall (PrepareGroupExit (WaitStatusTerminationSignal 9))]
  /\ ~ onlyUnknownSwitchErrorKillsGroup (K := kernel).
Proof.
  intros t r. split; [reflexivity |]. split; [reflexivity |].
  intros H. destruct (H t) as [_ H2].
  destruct H2 as (cpu & info & a & err & Hin & Hk); [discriminate |].
  vm_compute in Hin.
  repeat (destruct Hin as [Hin | Hin]; try discriminate Hin).
  - injection Hin as <- <- <- <-. discriminate Hk.
  - exact Hin.
Qed.

(** The same task: the error switched on is the error of the pull. *)
Lemma unknown_outcome_kills_group_witness :
  let t := fresh (tracedPullFails (OtherError 5)) in
  let r := runApp_execute (R := unit) t in
  resultOf r = Next (Some runExit)
  /\ countEv isGroupExit (traceOf r) = 1%nat
  /\ resultOf (switchToApp false t)
     = Next (noInfo, noAccess, Some (OtherError 5))
  /\ exists cs t6 info a err t7 tr7,
       switchToApp cs t6 = (Next (info, a, err), t7, tr7)
       /\ knownOutcome err = false.
Proof.
  intros t r.
  destruct (unknown_outcome_kills_group unit t) as (H1 & H2 & H3).
  unfold r.
  rewrite (H1 t [EvInterrupted false] false t
              [EvCall (RLock taskSetMu); EvCall (RUnlock taskSetMu)]
              noInfo noAccess (Some (OtherError 5))
              (stateOf (switchToApp false t)) (traceOf (switchToApp false t)))
    by reflexivity.
  split; [reflexivity |]. split; [reflexivity |].
  split; [now rewrite (H3 false t t noInfo noAccess None) by reflexivity |].
  destruct H2 as (t5 & tr5 & cs & t6 & tr6 & info & a & err & t7 & tr7
                  & _ & _ & H7 & Hk); [discriminate |].
  now exists cs, t6, info, a, err, t7, tr7.
Defined.

(** The traced task whose failed state pull does not end the thread
    group. *)
Lemma tracer_pull_failure_without_group_exit :
  let t := fresh (tracedPullFails ErrContextInterrupt) in
  let r := runApp_execute (R := unit) t in
  hasTracer t = true
  /\ PullFullState t = (Some ErrContextInterrupt, t)
  /\ resultOf r = Next (Some runApp)
  /\ countEv isGroupExit (traceOf r) = 0%nat
  /\ ~ tracerPullFailureKillsGroup (K := kernel).
Proof.
  intros t r. repeat (split; [reflexivity |]).
  intros H.
  destruct (H t t t t t [EvInterrupted false] false
              [EvCall (RLock taskSetMu); EvCall (RUnlock taskSetMu)]
              noInfo noAccess None ErrContextInterrupt) as [H1 _];
    [reflexivity .. |].
  discriminate H1.
Qed.

(** A traced task whose state pull fails with an error of its own, and one
    whose state pull succeeds. *)
Lemma tracer_pull_failure_replaces_outcome_witness :
  let t := fresh (tracedPullFails (OtherError 5)) in
  let u := fresh traced in
  let r := runApp_execute (R := unit) t in
  resultOf r = Next (Some runExit)
  /\ countEv isPullFullState (traceOf r) = 1%nat
  /\ countEv isGroupExit (traceOf r) = 1%nat
  /\ traceOf (switchToApp false u)
     = switchTrace false 0 noInfo noAccess None ++ [EvPullFullState None].
Proof.
  intros t u r.
  destruct (tracer_pull_failure_replaces_outcome unit t t t t t
              [EvInterrupted false] false
              [EvCall (RLock taskSetMu); EvCall (RUnlock taskSetMu)]
              noInfo noAccess None (Some (OtherError 5)))
    as [_ H]; [reflexivity .. |].
  destruct (H (OtherError 5) eq_refl) as (_ & _ & H3).
  destruct (tracer_pull_failure_replaces_outcome unit u u u u u
              [EvInterrupted false] false
              [EvCall (RLock taskSetMu); EvCall (RUnlock taskSetMu)]
              noInfo noAccess None None)
    as [H' _]; [reflexivity .. |].
  unfold r. rewrite H3, H' by reflexivity. repeat split.
Defined.

(** A task that resumes after a preemption and is preempted again, twice
    in a row: each of the two entries copies the CPU id out once and leaves
    the flag set for the next one. *)
Lemma preemption_copies_cpu_once_witness :
  let t := resuming (switchReturns 0 (Some ErrContextCPUPreempted)) in
  let r := runApp_execute (R := unit) t in
  let u := stateOf r in
  let r' := runApp_execute (R := unit) u in
  resultOf r = Next (Some runApp)
  /\ rseqPreempted u = true
  /\ rseqCPU u = 3
  /\ countEv isRseqCopyOut (traceOf r) = 1%nat
  /\ (countEv isOldRSeqCopyOut (traceOf r) <= 1)%nat
  /\ countEv isRseqCopyOut (traceOf r') = 1%nat
  /\ rseqPreempted (stateOf r') = true.
Proof.
  intros t r u r'.
  destruct (preemption_copies_cpu_once unit t) as (H1 & _ & _ & H4 & _ & H6).
  destruct (H1 (stateOf (beforeResume t)) (traceOf (beforeResume t)) false
              (stateOf (beforeResume t)) [] (mkSignalInfo 0 0 0 []) noAccess
              (stateOf (beforeResume t))
              (switchTrace false 3 (mkSignalInfo 0 0 0 []) noAccess
                 (Some ErrContextCPUPreempted)))
    as (H1' & _); [reflexivity .. |].
  destruct (H4 t [EvInterrupted false])
    as (_ & _ & _ & _ & H4a & H4b & _);
    [reflexivity | reflexivity | left; discriminate |].
  destruct (H6 (stateOf (beforeResume t)) (traceOf (beforeResume t)) false
              (stateOf (beforeResume t)) [] (mkSignalInfo 0 0 0 []) noAccess
              (stateOf (beforeResume t))
              (switchTrace false 3 (mkSignalInfo 0 0 0 []) noAccess
                 (Some ErrContextCPUPreempted)))
    as (_ & _ & H6c & _).
  - reflexivity.
  - reflexivity.
  - reflexivity.
  - reflexivity.
  - discriminate.
  - reflexivity.
  - reflexivity.
  - left; discriminate.
  - split; [unfold r; now rewrite H1' |].
    split; [reflexivity |]. split; [reflexivity |].
    split; [exact H4a |]. split; [exact H4b |].
    split; [exact H6c | reflexivity].
Defined.

(** A copy-out that fails, to the rseq address and to the old one. *)
Lemma rseq_copy_out_failure_sends_sigsegv_witness :
  let t := resuming (copyOutFails (OtherError 14)) in
  let u := resuming (oldCopyOutFails (OtherError 14)) in
  let r := runApp_execute (R := unit) t in
  let r' := runApp_execute (R := unit) u in
  resultOf r = Next (Some runApp)
  /\ traceOf r
     = [EvInterrupted false; EvGetCPU 3;
        EvRseqCopyOutCPU (Some (OtherError 14));
        EvCall (Debugf (FailedCopyCPU 4096 (OtherError 14)));
        EvCall (forceSignal 11 false);
        EvCall (SendSignal (mkSignalInfo 11 0 128 []))]
  /\ countEv isExit (traceOf r) = 0%nat
  /\ resultOf r' = Next (Some runApp)
  /\ countEv isExit (traceOf r') = 0%nat
  /\ countEv isSwitch (traceOf r') = 0%nat.
Proof.
  intros t u r r'.
  destruct (rseq_copy_out_failure_sends_sigsegv unit t t [EvInterrupted false])
    as [H _]; [reflexivity | reflexivity | left; discriminate |].
  destruct (H (OtherError 14) (rseqReady t)) as (H1 & H2 & _);
    [reflexivity |].
  destruct (rseq_copy_out_failure_sends_sigsegv unit u u [EvInterrupted false])
    as [_ H']; [reflexivity | reflexivity | left; discriminate |].
  destruct (H' (OtherError 14) (rseqReady u) (rseqReady u))
    as (H1' & H2' & H3'); [reflexivity | reflexivity |].
  split; [unfold r; now rewrite H1 |]. split; [unfold r; now rewrite H1 |].
  split; [exact H2 |].
  split; [unfold r'; now rewrite H1' |].
  split; [exact H2' | exact H3'].
Defined.

(** A switch that reports SIGPROF, one signal of each class, and a fault
    that ends in a bus error. *)
Lemma switch_signal_is_classified_witness :
  let t := fresh (switchReturns 27 (Some ErrContextSignal)) in
  let u := fresh (faulting (BusError 1)) in
  let r := runApp_execute (R := unit) t in
  let r' := runApp_execute (R := unit) u in
  resultOf r = Next (Some runApp)
  /\ stateOf r = t
  /\ countEv isSwitch (traceOf r) = 1%nat
  /\ deliverSignal 11 noInfo t
     = (Next tt, t, [EvCall (forceSignal 11 false); EvCall (SendSignal noInfo)])
  /\ deliverSignal 17 noInfo t = (Next tt, t, [])
  /\ deliverSignal 15 noInfo t
     = (Next tt, t, [EvCall (sendExternalSignal noInfo application)])
  /\ resultOf r' = Next (Some runApp)
  /\ In (EvCall (forceSignal 7 false)) (traceOf r')
  /\ In (EvCall (SendSignal (mkSignalInfo 7 0 1 [4096]))) (traceOf r').
Proof.
  intros t u r r'.
  destruct (switch_signal_is_classified unit t t t t [EvInterrupted false]
              false [] (mkSignalInfo 27 0 0 []) noAccess
              (switchTrace false 0 (mkSignalInfo 27 0 0 []) noAccess
                 (Some ErrContextSignal)))
    as (H1 & H2 & H3 & _); [reflexivity .. |].
  destruct (switch_signal_is_classified unit u u u u [EvInterrupted false]
              false [] faultInfo11 readAccess
              (switchTrace false 0 faultInfo11 readAccess
                 (Some ErrContextSignal)))
    as (_ & _ & _ & H4); [reflexivity .. |].
  unfold r, r'. rewrite H3; [| reflexivity | right; reflexivity].
  rewrite (H4 (BusError 1) u); [| reflexivity | reflexivity | left; reflexivity].
  split; [reflexivity |]. split; [reflexivity |]. split; [reflexivity |].
  split; [apply (proj1 (H1 11 noInfo t)); reflexivity |].
  split; [apply (proj1 (proj2 (H1 17 noInfo t))); left; reflexivity |].
  split; [apply (proj2 (proj2 (H1 15 noInfo t)));
          [reflexivity | discriminate | discriminate] |].
  split; [reflexivity |].
  split; vm_compute; tauto.
Defined.

(** Three callbacks queued: they run in queue order after the unlock. *)
Lemma task_work_runs_once_in_order_witness :
  let t := working quiet in
  interrupted t = false
  /\ 0 < taskWorkCount t
  /\ (exists rest,
         traceOf (runApp_execute (R := unit) t)
         = EvInterrupted false :: taskWorkTrace [1; 2; 3]%nat ++ rest
         /\ countEv isTaskWork rest = 0%nat)
  /\ countEv isTaskWork (traceOf (runApp_execute (R := unit) t)) = 3%nat.
Proof.
  intros t. split; [reflexivity |]. split; [reflexivity |].
  destruct (task_work_runs_once_in_order unit t) as [_ H]; [reflexivity |].
  destruct H as (_ & _ & _ & _ & H1 & H2); [reflexivity |].
  split; [exact H1 | exact H2].
Defined.

(** A stopped task that the first wake-up releases. *)
Lemma doStop_returns_when_released_witness :
  let t := set_stopCount 1 (fresh released) in
  stopCount t <> 0
  /\ 0 < stopCount (afterWaits 0 t)
  /\ stopCount (afterWaits 1 t) <= 0
  /\ resultOf (doStop 2 t) = Next tt
  /\ countEv isWait (traceOf (doStop 2 t)) = 1%nat
  /\ tally stoppedDelta (traceOf (doStop 2 t)) = 0.
Proof.
  intros t.
  destruct (doStop_returns_when_released 2 1 t)
    as (H1 & _ & H3 & _ & _ & _ & _ & H8 & _).
  - apply le_S, le_n.
  - discriminate.
  - intros n Hn. destruct n as [| n]; [reflexivity |].
    exfalso. apply (Nat.nlt_0_r n). apply (proj2 (Nat.succ_lt_mono n 0) Hn).
  - discriminate.
  - split; [discriminate |]. split; [reflexivity |].
    split; [discriminate |].
    split; [exact H1 |]. split; [exact H3 | exact H8].
Defined.

(** A goroutine that finds a stop pending and is not released. *)
Lemma goroutine_state_accounting_witness :
  let t := set_stopCount 1 (fresh quiet) in
  parked (resultOf (run 2 1 t)) = true
  /\ tally (accountDelta TaskGoroutineStopped) (traceOf (run 2 1 t)) = 1
  /\ exists pre v rest,
      v <> 0
      /\ traceOf (run 2 1 t)
         = pre ++ EvStopCountLoad v :: stopEnterTrace ++ rest
      /\ forallb isWaiting rest = true.
Proof.
  intros t.
  destruct (goroutine_state_accounting 2 1 t) as (H1 & _ & _ & H4).
  split; [reflexivity |]. split; [exact H1 |].
  apply H4. reflexivity.
Defined.

(** A task whose state pull fails runs the exit path to its end: the run
    ends with the exit sequence and the deferred calls.  A task started
    without a state panics at its first transition, and the deferred calls
    still run. *)
Lemma exit_gives_back_once_witness :
  let t := set_haveSyscallReturn true (fresh (pullFails (OtherError 5))) in
  let u := stateless quiet in
  exited (resultOf (run 0 5 t)) = true
  /\ countEv isRelease (traceOf (run 0 5 t)) = 1%nat
  /\ countEv isDestroy (traceOf (run 0 5 t)) = 1%nat
  /\ (exists pre x,
         runState x = None
         /\ traceOf (run 0 5 t)
            = startTrace ++ pre ++ teardownTrace (teardownCount x)
              ++ deferredTrace)
  /\ panicked (resultOf (run 0 1 u)) = true
  /\ countEv isRelease (traceOf (run 0 1 u)) = 0%nat
  /\ countEv isDestroy (traceOf (run 0 1 u)) = 1%nat
  /\ traceOf (run 0 1 u)
     = startTrace ++ [EvStopCountLoad 0] ++ deferredTrace.
Proof.
  intros t u.
  destruct (exit_gives_back_once 0 5 t) as (H1 & _ & H3 & _ & _ & H6 & _).
  destruct (exit_gives_back_once 0 1 u) as (G1 & _ & G3 & _ & _ & _ & _ & G8).
  split; [reflexivity |]. split; [exact H1 |]. split; [exact H3 |].
  split; [apply H6; reflexivity |].
  split; [reflexivity |]. split; [exact G1 |]. split; [exact G3 |].
  rewrite G8; [reflexivity | reflexivity | reflexivity | apply Nat.lt_0_1].
Defined.

(** A single-stepped task whose flag was clear: set before the switch,
    cleared after it. *)
Lemma singlestep_cleared_only_if_set_here_witness :
  let t := stepped traced in
  beforeResume t = (Next tt, t, [EvInterrupted false])
  /\ countEv isSetSingleStep (traceOf (runApp_execute (R := unit) t)) = 1%nat
  /\ countEv isClearSingleStep (traceOf (runApp_execute (R := unit) t))
     = 1%nat.
Proof.
  intros t.
  destruct (singlestep_cleared_only_if_set_here unit t t [EvInterrupted false])
    as (H1 & H2 & _); [reflexivity |].
  split; [reflexivity |]. split; [exact H1 | exact H2].
Defined.

(** A read fault that the memory manager handles. *)
Lemma handled_fault_sends_no_signal_witness :
  let t := fresh faultHandled in
  AccessType_Any readAccess = true
  /\ resultOf (runApp_execute (R := unit) t) = Next (Some runApp)
  /\ countEv isSignalCall (traceOf (runApp_execute (R := unit) t)) = 0%nat
  /\ countEv isLog (traceOf (runApp_execute (R := unit) t)) = 0%nat.
Proof.
  intros t.
  destruct (handled_fault_sends_no_signal unit t t t t t [EvInterrupted false]
              false [] faultInfo11 readAccess
              (switchTrace false 0 faultInfo11 readAccess
                 (Some ErrContextSignal)))
    as (H1 & H2 & H3); [reflexivity .. |].
  split; [reflexivity |]. split; [rewrite H1; reflexivity |].
  split; [exact H2 |]. rewrite H3. reflexivity.
Defined.

(** An instruction fetch at the emulated address, in the kernel whose
    system calls end the task. *)
Lemma vsyscall_fault_is_emulated_witness :
  let t := fresh (fetching (OtherError 14)) in
  LookupEmulate (Collaborators := leaving) t 4096 = Some 96
  /\ resultOf (runApp_execute (K := leaving) (R := unit) t) = Next None
  /\ countEv isSignalCall
       (traceOf (runApp_execute (K := leaving) (R := unit) t)) = 0%nat
  /\ endsWith isNilDispatch
       (traceOf (runApp_execute (K := leaving) (R := unit) t)) = true.
Proof.
  intros t.
  destruct (vsyscall_fault_is_emulated (K := leaving) unit t t t t t t
              [EvInterrupted false] false [] faultInfo11 execAccess
              (switchTrace false 0 faultInfo11 execAccess
                 (Some ErrContextSignal))
              (OtherError 14) 96 None)
    as (H1 & H2); [reflexivity .. |].
  split; [reflexivity |]. split; [rewrite H1; reflexivity |].
  split; [exact H2 |]. rewrite H1. reflexivity.
Defined.

(** A preempted task with nothing registered. *)
Lemma rseq_without_address_copies_nothing_witness :
  let t := unregistered quiet in
  beforeRseq t = (Next tt, t, [EvInterrupted false])
  /\ countEv isGetCPU (traceOf (runApp_execute (R := unit) t)) = 0%nat
  /\ countEv isRseqCopyOut (traceOf (runApp_execute (R := unit) t)) = 0%nat
  /\ countEv isRseqInterrupt (traceOf (runApp_execute (R := unit) t)) = 1%nat
  /\ countEv isSwitch (traceOf (runApp_execute (R := unit) t)) = 1%nat.
Proof.
  intros t.
  destruct (rseq_without_address_copies_nothing unit t t [EvInterrupted false])
    as (_ & H2 & H3 & H4 & _ & H6); [reflexivity .. |].
  split; [reflexivity |]. split; [exact H3 |]. split; [exact H4 |].
  split; [exact H6 | exact H2].
Defined.

(** The restart of a system call that returned ERESTART_RESTARTBLOCK. *)
Lemma restart_only_for_restart_error_witness :
  let t := set_haveSyscallReturn true (fresh (restartWorld (-516))) in
  countEv isRestart (traceOf (runApp_execute (R := unit) t)) = 1%nat
  /\ exists t1 tr1 t2 sre,
      beforeRestart t = (Next tt, t1, tr1)
      /\ haveSyscallReturn t1 = true
      /\ PullFullState t1 = (None, t2)
      /\ SyscallRestartErrorFromReturn (Arch_Return t2) = Some sre.
Proof.
  intros t.
  destruct (restart_only_for_restart_error unit t) as [_ H].
  split; [reflexivity |]. apply H. reflexivity.
Defined.

(** A system call that ends the task. *)
Lemma nil_state_comes_from_dispatch_witness :
  let t := fresh quiet in
  resultOf (runApp_execute (K := leaving) (R := unit) t) = Next None
  /\ endsWith isNilDispatch
       (traceOf (runApp_execute (K := leaving) (R := unit) t)) = true.
Proof.
  intros t. split; [reflexivity |].
  apply (nil_state_comes_from_dispatch (K := leaving) unit t). reflexivity.
Defined.
